(** * botd: simulated broker, tick simulator, backtest engine, risk and
    order managers

    A shallow embedding of
      - [src/execution/broker.py]       ([Orden], [ResultadoOrden], [BrokerSimulado]),
      - [src/data/tick_simulator.py]    ([TickSimulator]),
      - [src/backtest/backtest_engine.py] ([BacktestEngine]: loading of the
        data, price update, SL/TP check, data window, metrics, end of a run),
      - [src/risk/risk_manager.py]      ([RiskManager]),
      - [src/execution/order_manager.py] ([OrderManager] over the simulated
        broker),
    and the properties of the specification that concern them.

    Conventions of the embedding.
      - Python floats are read as exact rationals ([Q]); comparisons are the
        boolean comparisons of [Q].  Rounding of binary floating point is
        outside the model; [round(x, 2)] rounds the rational to the nearest
        hundredth, ties to the even one.
      - A position is a Python [dict] that several lists may reference
        (the broker's [posiciones], and the copy handed out by
        [obtener_posiciones_abiertas]).  Dicts live in a store
        [objetos : gmap nat Posicion.t]; lists hold references (keys of the
        store), so a write through one reference is seen through all.
      - Wall-clock fields of the broker's dicts and formatted log text are
        left out; a [mensaje] is kept as a constructor with its payload.
        Where the clock decides something ([RiskManager], [OrderManager])
        its readings are inputs, and the seconds spent in [time.sleep] are
        added up in the state.
      - A key that a dict may lack is an [option]; the exception a missing
        key or a [None] operand raises is a value of the result.
      - Draws of numpy's random generator are inputs of the functions that
        make them ([tick_simulator.py]).  [broker.py] calls
        [np.random.uniform] in the loop of [obtener_posiciones_abiertas]
        and binds no name [np]: with a position open that call raises
        [NameError], and the exception is a value of the result, passed on
        to the callers as Python passes it on.
      - [risk_manager.py] and [order_manager.py] import [ErrorRiesgo] and
        [ErrorOrden] from [core/exceptions.py], which does not define
        them; they are read as exception classes that carry a message. *)

From Stdlib Require Import QArith Qround ZArith List Sorted Lia Lqa String.
From stdpp Require Import gmap strings list.
From Equations Require Import Equations.

Local Open Scope Q_scope.

(** ** Numbers *)

(** Python's [x < y] on floats. *)
Definition Qlt_bool (x y : Q) : bool := negb (Qle_bool y x).

(** Python's [x or d] for an optional float: [None] and [0.0] are falsy. *)
Definition py_or (x : option Q) (d : Q) : Q :=
  match x with
  | Some v => if Qeq_bool v 0 then d else v
  | None => d
  end.

(** Python's [sum(...)]: starts from 0 and adds from the left. *)
Definition py_sum (l : list Q) : Q := fold_left Qplus l 0.

(** [numpy.clip] on integers and on floats: [minimum(maximum(x, lo), hi)]. *)
Definition clipZ (x lo hi : Z) : Z := Z.min (Z.max x lo) hi.
Definition Qmax (x y : Q) : Q := if Qle_bool x y then y else x.
Definition Qmin (x y : Q) : Q := if Qle_bool x y then x else y.
Definition clipQ (x lo hi : Q) : Q := Qmin (Qmax x lo) hi.

(** [astype(int)] and [int(...)]: truncation towards zero. *)
Definition Qtrunc (x : Q) : Z := Z.quot (Qnum x) (Z.pos (Qden x)).

(** Python's [abs] on floats. *)
Definition py_abs (x : Q) : Q := if Qle_bool 0 x then x else - x.

(** ** Exceptions *)

Inductive Excepcion : Type :=
| ValueError (volumen : Q)      (* "Volumen {v} menor que mínimo 0.01" *)
| ZeroDivisionError.

(** ** [broker.py]: orders and results *)

Inductive Mensaje : Type :=
| SinMensaje
| OrdenEjecutada            (* "Orden ejecutada en simulador" *)
| OrdenPendienteMsg         (* "Orden pendiente en simulador" *)
| PosicionCerrada (beneficio_neto : Q)
| PosicionNoEncontrada (ticket : Z)
| ErrorSimulado.

Module ResultadoOrden.
Record t : Type := mk {
    exito : bool;
    ticket : option Z;
    precio : option Q;
    volumen : option Q;
    mensaje : Mensaje
  }.
End ResultadoOrden.

Module Orden.
Record t : Type := mk {
    simbolo : string;
    tipo : string;                 (* "COMPRA" | "VENTA" *)
    volumen : Q;
    precio : option Q;
    stop_loss : option Q;
    take_profit : option Q;
    comentario : string;
    magic : Z;
    desviacion : Z;
    tipo_orden : string            (* "market" | "limit" | "stop" *)
  }.

  (** [__post_init__]: the minimum volume is checked when the order object
      is built. *)
Definition __post_init__ (self : t) : Excepcion + unit :=
    if Qlt_bool (volumen self) 0.01 then inl (ValueError (volumen self))
    else inr tt.

  (** The constructor generated by [@dataclass]: [Orden(...)] assigns the
      fields, runs [__post_init__] and yields the object unless it raised. *)
Definition __init__ (campos : t) : Excepcion + t :=
    match __post_init__ campos with
    | inl e => inl e
    | inr _ => inr campos
    end.
End Orden.

(** ** [broker.py]: the dicts of the simulated broker *)

Module Posicion.
Record t : Type := mk {
    ticket : Z;
    simbolo : string;
    tipo : string;
    volumen : Q;
    precio_apertura : Q;
    precio_actual : Q;
    stop_loss : option Q;
    take_profit : option Q;
    comision : Q;
    swap : Q;
    beneficio : Q;
    comentario : string;
    magic : Z;
    estado : string
  }.

Definition set_precio_actual (x : Q) (p : t) : t :=
    mk (ticket p) (simbolo p) (tipo p) (volumen p) (precio_apertura p) x
       (stop_loss p) (take_profit p) (comision p) (swap p) (beneficio p)
       (comentario p) (magic p) (estado p).

Definition set_beneficio (x : Q) (p : t) : t :=
    mk (ticket p) (simbolo p) (tipo p) (volumen p) (precio_apertura p)
       (precio_actual p) (stop_loss p) (take_profit p) (comision p) (swap p) x
       (comentario p) (magic p) (estado p).

Definition set_estado (x : string) (p : t) : t :=
    mk (ticket p) (simbolo p) (tipo p) (volumen p) (precio_apertura p)
       (precio_actual p) (stop_loss p) (take_profit p) (comision p) (swap p)
       (beneficio p) (comentario p) (magic p) x.
End Posicion.

(** An entry of [historial]: [posicion.copy()] with [beneficio] and [estado]
    overwritten and [precio_cierre] added. *)
Module Operacion.
Record t : Type := mk {
    posicion : Posicion.t;
    precio_cierre : Q
  }.
Definition beneficio (op : t) : Q := Posicion.beneficio (posicion op).
End Operacion.

Module OrdenPendiente.
Record t : Type := mk {
    ticket : Z;
    simbolo : string;
    tipo : string;
    volumen : Q;
    precio : option Q;
    stop_loss : option Q;
    take_profit : option Q;
    tipo_orden : string;
    comentario : string;
    magic : Z;
    estado : string
  }.
End OrdenPendiente.

(** ** [broker.py]: [BrokerSimulado] *)

Module BrokerSimulado.

Record t : Type := mk {
  objetos : gmap nat Posicion.t;      (* the position dicts, by reference *)
  posiciones : list nat;              (* self.posiciones: references *)
  ordenes_pendientes : list OrdenPendiente.t;
  historial : list Operacion.t;
  balance : Q;
  equity : Q;
  comision_por_lote : Q;
  spread : Q
}.

(** [__init__(config)] with [config['backtesting']] holding
    [capital_inicial], [comision_por_lote] and [spread_promedio]. *)
Definition __init__ (capital_inicial comision_por_lote spread_promedio : Q) : t :=
  mk ∅ [] [] [] capital_inicial capital_inicial comision_por_lote
     (spread_promedio / 10000).

(** Reading and writing a dict through a reference. *)
Definition leer (self : t) (ref : nat) : option Posicion.t :=
  objetos self !! ref.

Definition escribir (ref : nat) (p : Posicion.t) (self : t) : t :=
  mk (<[ref := p]> (objetos self)) (posiciones self)
     (ordenes_pendientes self) (historial self) (balance self) (equity self)
     (comision_por_lote self) (spread self).

(** The dicts of the open positions, in list order. *)
Definition posiciones_abiertas (self : t) : list Posicion.t :=
  omap (leer self) (posiciones self).

(** [colocar_orden].  No statement of the body raises on the modelled
    values, so the [except] branch is never taken. *)
Definition colocar_orden (self : t) (orden : Orden.t) : ResultadoOrden.t * t :=
  let ticket := (Z.of_nat (length (historial self)) + 1000)%Z in
  let comision := Orden.volumen orden * comision_por_lote self in
  if String.eqb (Orden.tipo_orden orden) "market" then
    let precio_ejecucion :=
      if String.eqb (Orden.tipo orden) "COMPRA"
      then py_or (Orden.precio orden) 1.10000 + spread self / 2
      else py_or (Orden.precio orden) 1.10000 - spread self / 2 in
    let posicion :=
      Posicion.mk ticket (Orden.simbolo orden) (Orden.tipo orden)
        (Orden.volumen orden) precio_ejecucion precio_ejecucion
        (Orden.stop_loss orden) (Orden.take_profit orden) comision 0 0
        (Orden.comentario orden) (Orden.magic orden) "abierta" in
    let ref := fresh (dom (objetos self)) in
    let balance' := balance self - comision in
    (ResultadoOrden.mk true (Some ticket) (Some precio_ejecucion)
       (Some (Orden.volumen orden)) OrdenEjecutada,
     mk (<[ref := posicion]> (objetos self)) (posiciones self ++ [ref])
        (ordenes_pendientes self) (historial self) balance' balance'
        (comision_por_lote self) (spread self))
  else
    let orden_pendiente :=
      OrdenPendiente.mk ticket (Orden.simbolo orden) (Orden.tipo orden)
        (Orden.volumen orden) (Orden.precio orden) (Orden.stop_loss orden)
        (Orden.take_profit orden) (Orden.tipo_orden orden)
        (Orden.comentario orden) (Orden.magic orden) "pendiente" in
    (ResultadoOrden.mk true (Some ticket) (Orden.precio orden)
       (Some (Orden.volumen orden)) OrdenPendienteMsg,
     mk (objetos self) (posiciones self)
        (ordenes_pendientes self ++ [orden_pendiente]) (historial self)
        (balance self) (equity self) (comision_por_lote self) (spread self)).

(** The call [broker.colocar_orden(Orden(...))] as every caller writes it
    (the risk manager builds the order for the engine, the tests build it
    themselves): the order object is built first, and an exception of its
    constructor leaves the broker untouched. *)
Definition colocar_orden_nueva (self : t) (campos : Orden.t)
    : (Excepcion + ResultadoOrden.t) * t :=
  match Orden.__init__ campos with
  | inl e => (inl e, self)
  | inr orden =>
      let r := colocar_orden self orden in (inr (fst r), snd r)
  end.

(** The loop head of [cerrar_orden]:
    [for i, posicion in enumerate(self.posiciones): if posicion['ticket'] == ticket],
    the first index whose dict carries the ticket. *)
Fixpoint buscar (objs : gmap nat Posicion.t) (ticket : Z) (refs : list nat)
    (i : nat) : option (nat * Posicion.t) :=
  match refs with
  | [] => None
  | ref :: refs' =>
      match objs !! ref with
      | Some p =>
          if Z.eqb (Posicion.ticket p) ticket then Some (i, p)
          else buscar objs ticket refs' (S i)
      | None => buscar objs ticket refs' (S i)
      end
  end.

(** No dict referenced from [refs] carries [ticket]. *)
Definition sin_ticket (objs : gmap nat Posicion.t) (ticket : Z)
    (refs : list nat) : Prop :=
  forall r q, r ∈ refs -> objs !! r = Some q -> Posicion.ticket q <> ticket.

(** [precio_cierre] and gross [beneficio] of a position at its
    [precio_actual]. *)
Definition precio_cierre_de (self : t) (p : Posicion.t) : Q :=
  if String.eqb (Posicion.tipo p) "COMPRA"
  then Posicion.precio_actual p - spread self / 2
  else Posicion.precio_actual p + spread self / 2.

Definition beneficio_bruto (self : t) (p : Posicion.t) : Q :=
  if String.eqb (Posicion.tipo p) "COMPRA"
  then (precio_cierre_de self p - Posicion.precio_apertura p)
       * Posicion.volumen p * 100000
  else (Posicion.precio_apertura p - precio_cierre_de self p)
       * Posicion.volumen p * 100000.

(** [cerrar_orden(ticket, volumen=None)]. *)
Definition cerrar_orden (self : t) (ticket : Z) (volumen : option Q)
    : ResultadoOrden.t * t :=
  match buscar (objetos self) ticket (posiciones self) 0 with
  | Some (i, posicion) =>
      let precio_cierre := precio_cierre_de self posicion in
      let beneficio := beneficio_bruto self posicion in
      let beneficio_neto := beneficio - Posicion.comision posicion in
      let balance' := balance self + beneficio_neto in
      let operacion :=
        Operacion.mk
          (Posicion.set_estado "cerrada"
             (Posicion.set_beneficio beneficio_neto posicion))
          precio_cierre in
      (ResultadoOrden.mk true (Some ticket) (Some precio_cierre)
         (Some (Posicion.volumen posicion)) (PosicionCerrada beneficio_neto),
       mk (objetos self) (delete i (posiciones self))
          (ordenes_pendientes self) (historial self ++ [operacion])
          balance' balance' (comision_por_lote self) (spread self))
  | None =>
      (ResultadoOrden.mk false None None None (PosicionNoEncontrada ticket),
       self)
  end.

(** The exception Python raises for a name that is bound nowhere. *)
Inductive ErrorNombre : Type :=
| NameError (nombre : string).

(** [obtener_posiciones_abiertas].  The body of its loop starts with
    [cambio = np.random.uniform(-0.0001, 0.0001)], and [broker.py] binds no
    name [np]: it imports [time], [typing], [datetime], [dataclasses],
    [loguru], [MetaTrader5 as mt5] and [core.exceptions], and assigns [np]
    nowhere.  So the first turn of the loop raises [NameError] before any
    dict is written, and the exception leaves the method: the rest of the
    loop body (the new [precio_actual] and [beneficio]) is never run.  With
    no open position the loop is not entered, the equity is set and the
    copy of the list is returned. *)
Definition obtener_posiciones_abiertas (self : t)
    : (ErrorNombre + list nat) * t :=
  match posiciones self with
  | _ :: _ => (inl (NameError "np"), self)
  | [] =>
      let beneficio_total :=
        py_sum (map Posicion.beneficio (posiciones_abiertas self)) in
      (inr (posiciones self),
       mk (objetos self) (posiciones self) (ordenes_pendientes self)
          (historial self) (balance self) (balance self + beneficio_total)
          (comision_por_lote self) (spread self))
  end.

(** [obtener_estado_cuenta]: the fields of the returned dict that are not
    constants. *)
Record EstadoCuenta : Type := mkEstado {
  ec_balance : Q;
  ec_equity : Q;
  ec_beneficio : Q
}.

Definition obtener_estado_cuenta (self : t) : EstadoCuenta * t :=
  let beneficio_total :=
    py_sum (map Posicion.beneficio (posiciones_abiertas self)) in
  (mkEstado (balance self) (equity self) beneficio_total, self).

(** [cerrar]: closes every position of a copy of the list, by ticket. *)
Definition cerrar (self : t) : t :=
  fold_left
    (fun b p => snd (cerrar_orden b (Posicion.ticket p) None))
    (posiciones_abiertas self) self.

Definition obtener_historial (self : t) : list Operacion.t := historial self.

(** The calls a client makes on the broker, and a run of them. *)
Inductive Llamada : Type :=
| LlColocar (campos : Orden.t)
| LlCerrar (ticket : Z) (volumen : option Q)
| LlPosiciones
| LlEstado.

Definition llamar (self : t) (ll : Llamada) : t :=
  match ll with
  | LlColocar campos => snd (colocar_orden_nueva self campos)
  | LlCerrar ticket volumen => snd (cerrar_orden self ticket volumen)
  | LlPosiciones => snd (obtener_posiciones_abiertas self)
  | LlEstado => snd (obtener_estado_cuenta self)
  end.

Definition llamadas (lls : list Llamada) (self : t) : t :=
  fold_left llamar lls self.

(** [obtener_ordenes_pendientes]: a copy of the list. *)
Definition obtener_ordenes_pendientes (self : t)
    : list OrdenPendiente.t * t :=
  (ordenes_pendientes self, self).

(** An item [key: value] of the dict [cambios] passed to [modificar_orden],
    the value of the type the key holds.  [CPrecio] and [CTipoOrden] are
    keys of a pending order only; the five keys [precio_apertura],
    [precio_actual], [comision], [swap] and [beneficio] are keys of a
    position only; [COtra] is any key that neither dict has (the
    wall-clock keys included). *)
Inductive Cambio : Type :=
| CTicket (v : Z)
| CSimbolo (v : string)
| CTipo (v : string)
| CVolumen (v : Q)
| CPrecioApertura (v : Q)
| CPrecioActual (v : Q)
| CStopLoss (v : option Q)
| CTakeProfit (v : option Q)
| CComision (v : Q)
| CSwap (v : Q)
| CBeneficio (v : Q)
| CComentario (v : string)
| CMagic (v : Z)
| CEstado (v : string)
| CPrecio (v : option Q)
| CTipoOrden (v : string)
| COtra (clave : string).

(** [if key in posicion: posicion[key] = value]. *)
Definition cambiar_posicion (p : Posicion.t) (c : Cambio) : Posicion.t :=
  let '(Posicion.mk ticket simbolo tipo volumen precio_apertura precio_actual
          stop_loss take_profit comision swap beneficio comentario magic
          estado) := p in
  match c with
  | CTicket v =>
      Posicion.mk v simbolo tipo volumen precio_apertura precio_actual
        stop_loss take_profit comision swap beneficio comentario magic estado
  | CSimbolo v =>
      Posicion.mk ticket v tipo volumen precio_apertura precio_actual
        stop_loss take_profit comision swap beneficio comentario magic estado
  | CTipo v =>
      Posicion.mk ticket simbolo v volumen precio_apertura precio_actual
        stop_loss take_profit comision swap beneficio comentario magic estado
  | CVolumen v =>
      Posicion.mk ticket simbolo tipo v precio_apertura precio_actual
        stop_loss take_profit comision swap beneficio comentario magic estado
  | CPrecioApertura v =>
      Posicion.mk ticket simbolo tipo volumen v precio_actual
        stop_loss take_profit comision swap beneficio comentario magic estado
  | CPrecioActual v =>
      Posicion.mk ticket simbolo tipo volumen precio_apertura v
        stop_loss take_profit comision swap beneficio comentario magic estado
  | CStopLoss v =>
      Posicion.mk ticket simbolo tipo volumen precio_apertura precio_actual
        v take_profit comision swap beneficio comentario magic estado
  | CTakeProfit v =>
      Posicion.mk ticket simbolo tipo volumen precio_apertura precio_actual
        stop_loss v comision swap beneficio comentario magic estado
  | CComision v =>
      Posicion.mk ticket simbolo tipo volumen precio_apertura precio_actual
        stop_loss take_profit v swap beneficio comentario magic estado
  | CSwap v =>
      Posicion.mk ticket simbolo tipo volumen precio_apertura precio_actual
        stop_loss take_profit comision v beneficio comentario magic estado
  | CBeneficio v =>
      Posicion.mk ticket simbolo tipo volumen precio_apertura precio_actual
        stop_loss take_profit comision swap v comentario magic estado
  | CComentario v =>
      Posicion.mk ticket simbolo tipo volumen precio_apertura precio_actual
        stop_loss take_profit comision swap beneficio v magic estado
  | CMagic v =>
      Posicion.mk ticket simbolo tipo volumen precio_apertura precio_actual
        stop_loss take_profit comision swap beneficio comentario v estado
  | CEstado v =>
      Posicion.mk ticket simbolo tipo volumen precio_apertura precio_actual
        stop_loss take_profit comision swap beneficio comentario magic v
  | CPrecio _ | CTipoOrden _ | COtra _ => p
  end.

(** [if key in orden: orden[key] = value] on a pending order. *)
Definition cambiar_pendiente (o : OrdenPendiente.t) (c : Cambio)
    : OrdenPendiente.t :=
  let '(OrdenPendiente.mk ticket simbolo tipo volumen precio stop_loss
          take_profit tipo_orden comentario magic estado) := o in
  match c with
  | CTicket v =>
      OrdenPendiente.mk v simbolo tipo volumen precio stop_loss take_profit
        tipo_orden comentario magic estado
  | CSimbolo v =>
      OrdenPendiente.mk ticket v tipo volumen precio stop_loss take_profit
        tipo_orden comentario magic estado
  | CTipo v =>
      OrdenPendiente.mk ticket simbolo v volumen precio stop_loss take_profit
        tipo_orden comentario magic estado
  | CVolumen v =>
      OrdenPendiente.mk ticket simbolo tipo v precio stop_loss take_profit
        tipo_orden comentario magic estado
  | CPrecio v =>
      OrdenPendiente.mk ticket simbolo tipo volumen v stop_loss take_profit
        tipo_orden comentario magic estado
  | CStopLoss v =>
      OrdenPendiente.mk ticket simbolo tipo volumen precio v take_profit
        tipo_orden comentario magic estado
  | CTakeProfit v =>
      OrdenPendiente.mk ticket simbolo tipo volumen precio stop_loss v
        tipo_orden comentario magic estado
  | CTipoOrden v =>
      OrdenPendiente.mk ticket simbolo tipo volumen precio stop_loss
        take_profit v comentario magic estado
  | CComentario v =>
      OrdenPendiente.mk ticket simbolo tipo volumen precio stop_loss
        take_profit tipo_orden v magic estado
  | CMagic v =>
      OrdenPendiente.mk ticket simbolo tipo volumen precio stop_loss
        take_profit tipo_orden comentario v estado
  | CEstado v =>
      OrdenPendiente.mk ticket simbolo tipo volumen precio stop_loss
        take_profit tipo_orden comentario magic v
  | CPrecioApertura _ | CPrecioActual _ | CComision _ | CSwap _
  | CBeneficio _ | COtra _ => o
  end.

(** [for posicion in self.posiciones: if posicion['ticket'] == ticket]: the
    first dict with the ticket, with its reference. *)
Fixpoint buscar_posicion (objs : gmap nat Posicion.t) (ticket : Z)
    (refs : list nat) : option (nat * Posicion.t) :=
  match refs with
  | [] => None
  | ref :: refs' =>
      match objs !! ref with
      | Some p =>
          if Z.eqb (Posicion.ticket p) ticket then Some (ref, p)
          else buscar_posicion objs ticket refs'
      | None => buscar_posicion objs ticket refs'
      end
  end.

(** [for orden in self.ordenes_pendientes: if orden['ticket'] == ticket]:
    the first pending order with the ticket is changed in place. *)
Fixpoint modificar_pendiente (ticket : Z) (cambios : list Cambio)
    (ordenes : list OrdenPendiente.t) : option (list OrdenPendiente.t) :=
  match ordenes with
  | [] => None
  | o :: ordenes' =>
      if Z.eqb (OrdenPendiente.ticket o) ticket
      then Some (fold_left cambiar_pendiente cambios o :: ordenes')
      else option_map (cons o) (modificar_pendiente ticket cambios ordenes')
  end.

(** The [ResultadoOrden] of [modificar_orden]: [precio] and [volumen] are
    never set there; the texts are "Posición modificada", "Orden pendiente
    modificada" and "Orden {ticket} no encontrada". *)
Inductive MensajeModificar : Type :=
| PosicionModificada
| OrdenPendienteModificada
| OrdenNoEncontrada (ticket : Z).

Record ResultadoModificar : Type := mkModificar {
  rm_exito : bool;
  rm_ticket : option Z;
  rm_mensaje : MensajeModificar
}.

(** [modificar_orden(ticket, cambios)]; [cambios] in the order of
    [cambios.items()]. *)
Definition modificar_orden (self : t) (ticket : Z) (cambios : list Cambio)
    : ResultadoModificar * t :=
  match buscar_posicion (objetos self) ticket (posiciones self) with
  | Some (ref, posicion) =>
      (mkModificar true (Some ticket) PosicionModificada,
       escribir ref (fold_left cambiar_posicion cambios posicion) self)
  | None =>
      match modificar_pendiente ticket cambios (ordenes_pendientes self) with
      | Some ordenes' =>
          (mkModificar true (Some ticket) OrdenPendienteModificada,
           mk (objetos self) (posiciones self) ordenes' (historial self)
              (balance self) (equity self) (comision_por_lote self)
              (spread self))
      | None =>
          (mkModificar false None (OrdenNoEncontrada ticket), self)
      end
  end.

(** Every reference of the open list points to a dict, and no reference
    is listed twice: what holds of a Python list of distinct objects. *)
Definition bien_formado (self : t) : Prop :=
  NoDup (posiciones self) /\
  forall ref, ref ∈ posiciones self -> is_Some (objetos self !! ref).

(** The net result [cerrar_orden] books for the dict [p]. *)
Definition beneficio_neto (self : t) (p : Posicion.t) : Q :=
  beneficio_bruto self p - Posicion.comision p.

(** What the ledger identity says of a state, for initial capital [K]. *)
Definition contable (K : Q) (b : t) : Prop :=
  balance b ==
    K - py_sum (map Posicion.comision (posiciones_abiertas b))
      - py_sum (map (fun op => Posicion.comision (Operacion.posicion op))
                  (historial b))
      + py_sum (map Operacion.beneficio (historial b)).

End BrokerSimulado.

(** ** [tick_simulator.py]: [TickSimulator] *)

(** A row of the candle frame as it is passed in. *)
Module Vela.
Record t : Type := mk {
  timestamp : Q;                      (* seconds *)
  apertura : Q;
  alto : Q;
  bajo : Q;
  cierre : Q
}.

(** The invariant of a candle in the data model: the high is at least the
    open and the close, the low at most the open and the close. *)
Definition invariante (v : t) : Prop :=
  apertura v <= alto v /\ cierre v <= alto v /\
  bajo v <= apertura v /\ bajo v <= cierre v.
End Vela.

(** A row after [_preparar_datos] added its three columns. *)
Module Fila.
Record t : Type := mk {
  vela : Vela.t;
  rango : Q;
  volatilidad : Q;
  ticks_por_vela : Z
}.
End Fila.

(** A tick dict.  [simbolo] is [tick.get('simbolo')]: the simulator does
    not set the key. *)
Module Tick.
Record t : Type := mk {
  timestamp : Q;
  bid : Q;
  ask : Q;
  last : Q;
  volumen : Z;
  spread : Q;
  simbolo : option string
}.
End Tick.

(** [Series.mean()]. *)
Definition mean (xs : list Q) : Q := py_sum xs / inject_Z (Z.of_nat (length xs)).

(** [Series.rolling(w).mean()] at row [i]: NaN ([None]) until [w] rows are
    in the window. *)
Definition rolling_mean (w : nat) (xs : list Q) (i : nat) : option Q :=
  if (S i <? w)%nat then None
  else Some (mean (take w (drop (S i - w) xs))).

(** [numpy.linspace(start, stop, num)[i]]. *)
Definition linspace (start stop : Q) (num i : nat) : Q :=
  start + inject_Z (Z.of_nat i) * ((stop - start) / inject_Z (Z.of_nat (num - 1))).

Module TickSimulator.

Record t : Type := mk {
  datos_velas : list Fila.t;
  spread : Q;
  ticks_generados : list Tick.t;
  indice_actual : nat;
  ticks_actuales : option (list Tick.t);   (* [None]: attribute not set yet *)
  tick_idx : nat
}.

(** [_preparar_datos]: the columns [rango], [volatilidad] and
    [ticks_por_vela].  The frame is typed, so the required columns are
    there. *)
Definition _preparar_datos (velas : list Vela.t) : list Fila.t :=
  let rangos := map (fun v => Vela.alto v - Vela.bajo v) velas in
  imap (fun i v =>
          let rango := Vela.alto v - Vela.bajo v in
          let volatilidad := default (mean rangos) (rolling_mean 20 rangos i) in
          Fila.mk v rango volatilidad (clipZ (Qtrunc (volatilidad * 10000)) 5 100))
       velas.

Definition __init__ (velas : list Vela.t) (spread : Q) : t :=
  mk (_preparar_datos velas) spread [] 0 None 0.

Section Generador.

(** The draws of [np.random.normal] and [np.random.randint] made while the
    ticks of candle [vela_idx] are generated, by position in the candle. *)
Variable normal : nat -> nat -> Q.
Variable randint : nat -> nat -> Z.

Definition generar_ticks_para_vela (self : t) (vela_idx : nat) : list Tick.t :=
  match datos_velas self !! vela_idx with
  | None => []
  | Some fila =>
      let vela := Fila.vela fila in
      let ticks_por_vela := Z.to_nat (Fila.ticks_por_vela fila) in
      map (fun i =>
             let precio :=
               linspace (Vela.apertura vela) (Vela.cierre vela) ticks_por_vela i in
             let con_ruido := precio + normal vela_idx i in
             let bid := clipQ con_ruido (Vela.bajo vela) (Vela.alto vela) in
             let ask := bid + spread self in
             Tick.mk
               (Vela.timestamp vela
                + inject_Z (Z.of_nat i * 60) / inject_Z (Z.of_nat ticks_por_vela))
               bid ask ((bid + ask) / 2) (randint vela_idx i) (spread self) None)
          (seq 0 ticks_por_vela)
  end.

(** The first [if] of [obtener_siguiente_tick]: generate the ticks of the
    current candle when none are held. *)
Definition cargar_vela (self : t) : t :=
  match ticks_actuales self with
  | Some (_ :: _) => self
  | _ =>
      mk (datos_velas self) (spread self) (ticks_generados self)
         (indice_actual self)
         (Some (generar_ticks_para_vela self (indice_actual self))) 0
  end.

Definition entregar (tick : Tick.t) (self : t) : t :=
  mk (datos_velas self) (spread self) (ticks_generados self ++ [tick])
     (indice_actual self) (ticks_actuales self) (S (tick_idx self)).

Definition pasar_vela (self : t) : t :=
  mk (datos_velas self) (spread self) (ticks_generados self)
     (S (indice_actual self)) (Some []) (tick_idx self).

(** [obtener_siguiente_tick]: recursive on the candle boundary; the
    candles left decrease. *)
Equations? obtener_siguiente_tick (self : t) : option Tick.t * t
  by wf (length (datos_velas self) - indice_actual self)%nat lt :=
obtener_siguiente_tick self
  with le_lt_dec (length (datos_velas self)) (indice_actual self) := {
  | left _ => (None, self)
  | right _
      with default [] (ticks_actuales (cargar_vela self))
             !! tick_idx (cargar_vela self) := {
      | Some tick => (Some tick, entregar tick (cargar_vela self))
      | None => obtener_siguiente_tick (pasar_vela (cargar_vela self))
    }
  }.
Proof.
  unfold cargar_vela.
  destruct (ticks_actuales self) as [[|]|]; simpl; lia.
Qed.

(** [n] calls in a row: the values returned and the final state. *)
Fixpoint pedir (n : nat) (self : t) : list (option Tick.t) * t :=
  match n with
  | O => ([], self)
  | S n' =>
      let r := obtener_siguiente_tick self in
      let rs := pedir n' (snd r) in
      (fst r :: fst rs, snd rs)
  end.

End Generador.

Definition reset (self : t) : t :=
  mk (datos_velas self) (spread self) [] 0 (Some []) 0.

(** [progreso]. *)
Definition progreso (self : t) : Q :=
  if (length (datos_velas self) =? 0)%nat then 0
  else inject_Z (Z.of_nat (indice_actual self))
       / inject_Z (Z.of_nat (length (datos_velas self))).

(** The number of ticks the candles of a frame call for. *)
Definition total_ticks (datos : list Fila.t) : nat :=
  list_sum (map (fun fila => Z.to_nat (Fila.ticks_por_vela fila)) datos).

Section Simular.

Variable normal : nat -> nat -> Q.
Variable randint : nat -> nat -> Z.

(** The loop of [simular_todos_ticks]:
    [while True: tick = self.obtener_siguiente_tick(); if tick is None: break;
    todos_ticks.append(tick)].  [fuel] bounds the turns; [None] is a loop
    that has not ended within them. *)
Fixpoint simular_bucle (fuel : nat) (self : t) (todos_ticks : list Tick.t)
    : option (list Tick.t * t) :=
  match fuel with
  | O => None
  | S fuel' =>
      match obtener_siguiente_tick normal randint self with
      | (None, self') => Some (todos_ticks, self')
      | (Some tick, self') => simular_bucle fuel' self' (todos_ticks ++ [tick])
      end
  end.

(** [simular_todos_ticks]: the rows of the frame returned. *)
Definition simular_todos_ticks (fuel : nat) (self : t)
    : option (list Tick.t * t) :=
  simular_bucle fuel self [].

(** The ticks still to come from a state: the rest of the candle in hand,
    then the candles after it. *)
Definition pendientes (self : t) : list Tick.t :=
  if (indice_actual self <? length (datos_velas self))%nat then
    drop (tick_idx (cargar_vela normal randint self))
      (default [] (ticks_actuales (cargar_vela normal randint self)))
    ++ concat
         (map (generar_ticks_para_vela normal randint self)
            (seq (S (indice_actual self))
               (length (datos_velas self) - S (indice_actual self))))
  else [].

(** What a client does with a simulator. *)
Inductive Uso : Type :=
| USiguiente
| UReset.

Definition usar (self : t) (u : Uso) : t :=
  match u with
  | USiguiente => snd (obtener_siguiente_tick normal randint self)
  | UReset => reset self
  end.

End Simular.

End TickSimulator.

(** ** [backtest_engine.py]: [BacktestEngine] *)

Module BacktestEngine.

(** A point of [resultados['equity_curve']]. *)
Record PuntoEquity : Type := mkPunto {
  pe_timestamp : Q;
  pe_equity : Q;
  pe_balance : Q
}.

(** The dict [resultados['metricas']]; the two return figures are only
    present when there are trades. *)
Record Metricas : Type := mkMetricas {
  total_operaciones : nat;
  operaciones_ganadoras : nat;
  operaciones_perdedoras : nat;
  win_rate : Q;
  beneficio_total : Q;
  drawdown_maximo : Q;
  sharpe_ratio : Q;
  expectancy : Q;
  retorno_total : option Q;
  retorno_anualizado : option Q
}.

Record Resultados : Type := mkResultados {
  operaciones : list Operacion.t;
  metricas : option Metricas;        (* [None]: the empty dict *)
  equity_curve : list PuntoEquity;
  drawdowns : list Q
}.

(** [_verificar_sl_tp(posicion, tick)]: [posicion] is the dict as read
    through the reference held by the caller. *)
Definition _verificar_sl_tp (broker : BrokerSimulado.t) (posicion : Posicion.t)
    (tick : Tick.t) : BrokerSimulado.t :=
  let precio_actual := Tick.last tick in
  match Posicion.stop_loss posicion, Posicion.take_profit posicion with
  | Some stop_loss, Some take_profit =>
      let ticket := Posicion.ticket posicion in
      if String.eqb (Posicion.tipo posicion) "COMPRA" then
        if Qle_bool precio_actual stop_loss then
          snd (BrokerSimulado.cerrar_orden broker ticket None)
        else if Qle_bool take_profit precio_actual then
          snd (BrokerSimulado.cerrar_orden broker ticket None)
        else broker
      else
        if Qle_bool stop_loss precio_actual then
          snd (BrokerSimulado.cerrar_orden broker ticket None)
        else if Qle_bool precio_actual take_profit then
          snd (BrokerSimulado.cerrar_orden broker ticket None)
        else broker
  | _, _ => broker
  end.

(** One turn of the loop of [_actualizar_precios_posiciones] on the
    reference [ref] of the copied list. *)
Definition actualizar_una (tick : Tick.t) (broker : BrokerSimulado.t)
    (ref : nat) : BrokerSimulado.t :=
  match BrokerSimulado.leer broker ref with
  | Some posicion =>
      if bool_decide (Some (Posicion.simbolo posicion) = Tick.simbolo tick) then
        let posicion' := Posicion.set_precio_actual (Tick.last tick) posicion in
        _verificar_sl_tp (BrokerSimulado.escribir ref posicion' broker)
          posicion' tick
      else broker
  | None => broker
  end.

(** [_actualizar_precios_posiciones(tick)]: the [NameError] of
    [obtener_posiciones_abiertas] is not caught here and leaves the method
    before the loop; the result is the exception or [None], with the
    broker as the call leaves it. *)
Definition _actualizar_precios_posiciones (broker : BrokerSimulado.t)
    (tick : Tick.t) : (BrokerSimulado.ErrorNombre + unit) * BrokerSimulado.t :=
  match BrokerSimulado.obtener_posiciones_abiertas broker with
  | (inl e, broker1) => (inl e, broker1)
  | (inr posiciones, broker1) =>
      (inr tt, fold_left (actualizar_una tick) posiciones broker1)
  end.

(** [_registrar_punto_equity]. *)
Definition _registrar_punto_equity (broker : BrokerSimulado.t) (timestamp : Q)
    (res : Resultados) : Resultados :=
  let estado := fst (BrokerSimulado.obtener_estado_cuenta broker) in
  mkResultados (operaciones res) (metricas res)
    (equity_curve res
     ++ [mkPunto timestamp (BrokerSimulado.ec_equity estado)
           (BrokerSimulado.ec_balance estado)])
    (drawdowns res).

(** [Series.expanding().max()]. *)
Fixpoint expanding_max (tope : option Q) (xs : list Q) : list Q :=
  match xs with
  | [] => []
  | x :: xs' =>
      let m := match tope with Some t => Qmax x t | None => x end in
      m :: expanding_max (Some m) xs'
  end.

(** [Series.min()] of a non-empty series. *)
Definition serie_min (xs : list Q) : Q :=
  match xs with
  | [] => 0
  | x :: xs' => fold_left Qmin xs' x
  end.

(** [Series.pct_change().dropna()]. *)
Fixpoint pct_change (xs : list Q) : list Q :=
  match xs with
  | x :: (y :: _) as xs' => (y - x) / x :: pct_change xs'
  | _ => []
  end.

(** The two [ValueError]s of [cargar_datos]: "Timeframe de entrada
    '{tf}' no encontrado en datos" and "No hay datos en el rango ...". *)
Inductive ErrorDatos : Type :=
| TimeframeNoEncontrado (tf : string)
| SinDatosEnRango.

(** The mask [(df['timestamp'] >= fecha_inicio) & (df['timestamp'] <= fecha_fin)]. *)
Definition en_rango (fecha_inicio fecha_fin : Q) (v : Vela.t) : bool :=
  Qle_bool fecha_inicio (Vela.timestamp v)
  && Qle_bool (Vela.timestamp v) fecha_fin.

(** What [cargar_datos] leaves in the engine: [self.simulador] and
    [self.datos_multi_tf]. *)
Record DatosCargados : Type := mkCargados {
  simulador : TickSimulator.t;
  datos_multi_tf : gmap string (list Vela.t)
}.

(** [cargar_datos(datos_velas)], with [tf_entrada] for
    [config['timeframes']['entrada']] and [spread_promedio] for
    [config['backtesting']['spread_promedio']].  The [except] clause logs
    and raises again. *)
Definition cargar_datos (tf_entrada : string)
    (fecha_inicio fecha_fin spread_promedio : Q)
    (datos_velas : gmap string (list Vela.t)) : ErrorDatos + DatosCargados :=
  match datos_velas !! tf_entrada with
  | None => inl (TimeframeNoEncontrado tf_entrada)
  | Some df_entrada =>
      let df_filtrado := List.filter (en_rango fecha_inicio fecha_fin) df_entrada in
      if (length df_filtrado =? 0)%nat then inl SinDatosEnRango
      else
        inr (mkCargados
               (TickSimulator.__init__ df_filtrado (spread_promedio / 10000))
               (List.filter (en_rango fecha_inicio fecha_fin) <$> datos_velas))
  end.

(** [DataFrame.tail(n)]: the last [n] rows. *)
Definition df_tail {A} (n : nat) (df : list A) : list A :=
  drop (length df - n) df.

(** [_obtener_datos_actualizados(timestamp)]: for every timeframe the last
    500 candles up to [timestamp]; a timeframe with none is left out. *)
Definition _obtener_datos_actualizados (datos : gmap string (list Vela.t))
    (timestamp : Q) : gmap string (list Vela.t) :=
  omap (fun df =>
          let df_filtrado :=
            List.filter (fun v => Qle_bool (Vela.timestamp v) timestamp) df in
          if (0 <? length df_filtrado)%nat
          then Some (df_tail (Nat.min 500 (length df_filtrado)) df_filtrado)
          else None)
       datos.

Section Metricas.

(** [np.sqrt] on floats. *)
Variable sqrt : Q -> Q.

(** [Series.std()] (sample standard deviation); NaN ([None]) below two
    values. *)
Definition serie_std (xs : list Q) : option Q :=
  if (length xs <? 2)%nat then None
  else
    let m := mean xs in
    Some (sqrt (py_sum (map (fun x => (x - m) * (x - m)) xs)
                / inject_Z (Z.of_nat (length xs - 1)))).

Definition calcular_sharpe (curve : list PuntoEquity) : Q :=
  if (1 <? length curve)%nat then
    let returns := pct_change (map pe_equity curve) in
    match serie_std returns with
    | Some s => if Qlt_bool 0 s then mean returns / s * sqrt 252 else 0
    | None => 0
    end
  else 0.

(** [_calcular_metricas]: the body of the [try]; an exception is the left
    summand. *)
Definition calcular_metricas_try (capital_inicial : Q) (res : Resultados)
    : Excepcion + Resultados :=
  let ops := operaciones res in
  match ops with
  | [] =>
      inr (mkResultados ops (Some (mkMetricas 0 0 0 0 0 0 0 0 None None))
             (equity_curve res) (drawdowns res))
  | _ :: _ =>
      let total := length ops in
      let ganadoras := filter (fun op => Qlt_bool 0 (Operacion.beneficio op)) ops in
      let perdedoras := filter (fun op => Qlt_bool (Operacion.beneficio op) 0) ops in
      let win_rate :=
        inject_Z (Z.of_nat (length ganadoras)) / inject_Z (Z.of_nat total) * 100 in
      let beneficio_total := py_sum (map Operacion.beneficio ops) in
      let equity_series := map pe_equity (equity_curve res) in
      let rolling_max := expanding_max None equity_series in
      let dds :=
        zip_with (fun e m => (e - m) / m * 100) equity_series rolling_max in
      let drawdown_maximo :=
        if (0 <? length dds)%nat then py_abs (serie_min dds) else 0 in
      let sharpe_ratio := calcular_sharpe (equity_curve res) in
      let expectancy :=
        match ganadoras, perdedoras with
        | _ :: _, _ :: _ =>
            let avg_ganancia := mean (map Operacion.beneficio ganadoras) in
            let avg_perdida := py_abs (mean (map Operacion.beneficio perdedoras)) in
            let probabilidad_ganar :=
              inject_Z (Z.of_nat (length ganadoras)) / inject_Z (Z.of_nat total) in
            probabilidad_ganar * avg_ganancia
            - (1 - probabilidad_ganar) * avg_perdida
        | _, _ => 0
        end in
      if Qeq_bool capital_inicial 0 then inl ZeroDivisionError
      else
        inr (mkResultados ops
               (Some (mkMetricas total (length ganadoras) (length perdedoras)
                        win_rate beneficio_total drawdown_maximo sharpe_ratio
                        expectancy
                        (Some (beneficio_total / capital_inicial * 100))
                        (Some (beneficio_total / capital_inicial * 100
                               * (252 / inject_Z (Z.of_nat total))))))
               (equity_curve res) dds)
  end.

(** [_calcular_metricas]: [except Exception] stores the empty dict. *)
Definition _calcular_metricas (capital_inicial : Q) (res : Resultados)
    : Resultados :=
  match calcular_metricas_try capital_inicial res with
  | inr res' => res'
  | inl _ =>
      mkResultados (operaciones res) None (equity_curve res) (drawdowns res)
  end.

(** [_finalizar_backtest]: close what is open, take the ledger, compute
    the metrics.  The report written afterwards goes to files and is left
    out. *)
Definition _finalizar_backtest (capital_inicial : Q)
    (broker : BrokerSimulado.t) (res : Resultados)
    : BrokerSimulado.t * Resultados :=
  let broker' := BrokerSimulado.cerrar broker in
  let historial := BrokerSimulado.obtener_historial broker' in
  (broker',
   _calcular_metricas capital_inicial
     (mkResultados historial (metricas res) (equity_curve res) (drawdowns res))).


End Metricas.

End BacktestEngine.

(** ** [risk_manager.py]: [RiskManager] *)

(** Python's [max(a, b)]: [b] only when it is greater. *)
Definition py_max (a b : Q) : Q := if Qlt_bool a b then b else a.

(** Rounding to the nearest integer, ties to the even one. *)
Definition redondeo_par (x : Q) : Z :=
  let f := Qfloor x in
  let r := x - inject_Z f in
  if Qlt_bool r (1 # 2) then f
  else if Qlt_bool (1 # 2) r then (f + 1)%Z
  else if Z.even f then f else (f + 1)%Z.

(** [round(x, 2)]. *)
Definition py_round2 (x : Q) : Q := inject_Z (redondeo_par (x * 100)) / 100.

(** A signal dict; a key that may be absent is an option. *)
Module Senal.
Record t : Type := mk {
  simbolo : option string;
  direccion : option string;
  precio_entrada : option Q;
  fuerza : option Q;
  confirmaciones : option (list string);
  razon_entrada : option string;
  atr : option Q                      (* [senal['metadata']['atr']] *)
}.
End Senal.

(** The dicts [config['riesgo']['stop_loss']] and
    [config['riesgo']['take_profit']]. *)
Module Nivel.
Record t : Type := mk {
  tipo : option string;
  multiplicador_atr : option Q;
  ratio_riesgo_recompensa : option Q;
  puntos_fijo : option Q;
  porcentaje : option Q
}.
End Nivel.

(** The entries of [config] that [RiskManager] reads. *)
Module ConfigRiesgo.
Record t : Type := mk {
  capital_inicial : Q;                (* [config['backtesting']] *)
  porcentaje_por_operacion : Q;       (* [config['riesgo']] *)
  riesgo_maximo_diario : Q;
  stop_loss : Nivel.t;
  take_profit : Nivel.t;
  lotaje_minimo : Q                   (* [config['general']] *)
}.
End ConfigRiesgo.

Module RiskManager.

Record t : Type := mk {
  config : ConfigRiesgo.t;
  capital : Q;
  riesgo_por_operacion : Q;
  riesgo_maximo_diario : Q;
  riesgo_acumulado_hoy : Q;
  operaciones_hoy : nat;
  max_operaciones_diarias : nat;
  ultimo_reinicio : Z                 (* a date, as a day number *)
}.

(** [__init__]; [hoy] is [datetime.now().date()]. *)
Definition __init__ (config : ConfigRiesgo.t) (hoy : Z) : t :=
  mk config (ConfigRiesgo.capital_inicial config)
     (ConfigRiesgo.porcentaje_por_operacion config / 100)
     (ConfigRiesgo.riesgo_maximo_diario config / 100)
     0 0%nat 10%nat hoy.

(** The branch every kind of level ends in,
    [if senal['direccion'] == 'COMPRA': ... else: ...]: the entry price
    moved by [distancia]; a stop loss goes below the entry of a BUY
    ([compra_resta]), a take profit above it. *)
Definition desplazar (senal : Senal.t) (precio_entrada distancia : Q)
    (compra_resta : bool) : option Q :=
  direccion ← Senal.direccion senal;
  Some (if String.eqb direccion "COMPRA"
        then (if compra_resta then precio_entrada - distancia
              else precio_entrada + distancia)
        else (if compra_resta then precio_entrada + distancia
              else precio_entrada - distancia)).

(** [_calcular_stop_loss]: [None] is both the [return None] of the source
    and what its [except] clause returns after a [KeyError]. *)
Definition _calcular_stop_loss (self : t) (senal : Senal.t) : option Q :=
  let config_sl := ConfigRiesgo.stop_loss (config self) in
  precio_entrada ← Senal.precio_entrada senal;
  let atr := default 0.001 (Senal.atr senal) in
  tipo ← Nivel.tipo config_sl;
  if String.eqb tipo "atr" then
    m ← Nivel.multiplicador_atr config_sl;
    desplazar senal precio_entrada (atr * m) true
  else if String.eqb tipo "fijo" then
    p ← Nivel.puntos_fijo config_sl;
    desplazar senal precio_entrada (p / 10000) true
  else if String.eqb tipo "porcentaje" then
    p ← Nivel.porcentaje config_sl;
    desplazar senal precio_entrada (precio_entrada * (p / 100)) true
  else None.

(** [_calcular_take_profit]. *)
Definition _calcular_take_profit (self : t) (senal : Senal.t)
    (stop_loss : option Q) : option Q :=
  let config_tp := ConfigRiesgo.take_profit (config self) in
  precio_entrada ← Senal.precio_entrada senal;
  stop_loss ← stop_loss;
  tipo ← Nivel.tipo config_tp;
  if String.eqb tipo "rr" then
    ratio ← Nivel.ratio_riesgo_recompensa config_tp;
    desplazar senal precio_entrada
      (py_abs (precio_entrada - stop_loss) * ratio) false
  else if String.eqb tipo "fijo" then
    p ← Nivel.puntos_fijo config_tp;
    desplazar senal precio_entrada (p / 10000) false
  else if String.eqb tipo "porcentaje" then
    p ← Nivel.porcentaje config_tp;
    desplazar senal precio_entrada (precio_entrada * (p / 100)) false
  else None.

(** The distance [_calcular_volumen] divides by; [None] when the [try]
    body raises a [KeyError] on the way. *)
Definition distancia_precio (self : t) (senal : Senal.t) : option Q :=
  precio_entrada ← Senal.precio_entrada senal;
  match _calcular_stop_loss self senal with
  | None =>
      let stop_loss_config := ConfigRiesgo.stop_loss (config self) in
      tipo ← Nivel.tipo stop_loss_config;
      distancia_pips ←
        (if String.eqb tipo "fijo" then Nivel.puntos_fijo stop_loss_config
         else Some 20);
      Some (distancia_pips / 10000)
  | Some stop_loss => Some (py_abs (precio_entrada - stop_loss))
  end.

(** [_calcular_volumen]: the [except] clause (a missing key, a division by
    zero) returns the minimum lot as it is. *)
Definition _calcular_volumen (self : t) (senal : Senal.t) : Q :=
  let riesgo_dinero := capital self * riesgo_por_operacion self in
  let volumen_minimo := ConfigRiesgo.lotaje_minimo (config self) in
  match distancia_precio self senal with
  | None => volumen_minimo
  | Some distancia =>
      let valor_por_pip_por_lote := 10 in
      let divisor := distancia * 10000 * valor_por_pip_por_lote in
      if Qeq_bool divisor 0 then volumen_minimo
      else py_round2 (py_max volumen_minimo (riesgo_dinero / divisor))
  end.

(** What [preparar_orden] wraps in [ErrorRiesgo]. *)
Inductive Causa : Type :=
| KeyError (clave : string)
| Construccion (e : Excepcion)      (* [Orden(...)] raised *)
| Division                          (* [ZeroDivisionError] *)
| TypeError.                        (* [None] under a float format *)

Inductive ErrorRiesgo : Type :=
| ErrorPreparando (causa : Causa).

(** [_actualizar_riesgo_acumulado]; the entry price is known to be there
    when it is called. *)
Definition _actualizar_riesgo_acumulado (self : t) (precio_entrada : Q)
    (stop_loss : option Q) : Causa + t :=
  match stop_loss with
  | None => inr self
  | Some stop_loss =>
      let distancia := py_abs (precio_entrada - stop_loss) in
      if Qeq_bool precio_entrada 0 then inl Division
      else
        let riesgo_operacion := distancia / precio_entrada in
        inr (mk (config self) (capital self) (riesgo_por_operacion self)
               (riesgo_maximo_diario self)
               (riesgo_acumulado_hoy self + riesgo_operacion)
               (S (operaciones_hoy self))
               (max_operaciones_diarias self) (ultimo_reinicio self))
  end.

(** [preparar_orden]: the order or the [ErrorRiesgo] raised, and the
    manager as the call leaves it.  The log line at the end formats the
    two levels as floats, after the day's figures were updated. *)
Definition preparar_orden (self : t) (senal : Senal.t)
    : (ErrorRiesgo + Orden.t) * t :=
  let volumen := _calcular_volumen self senal in
  let stop_loss := _calcular_stop_loss self senal in
  let take_profit := _calcular_take_profit self senal stop_loss in
  match Senal.simbolo senal, Senal.direccion senal, Senal.precio_entrada senal with
  | None, _, _ => (inl (ErrorPreparando (KeyError "simbolo")), self)
  | Some _, None, _ => (inl (ErrorPreparando (KeyError "direccion")), self)
  | Some _, Some _, None =>
      (inl (ErrorPreparando (KeyError "precio_entrada")), self)
  | Some simbolo, Some direccion, Some precio_entrada =>
      match Orden.__init__
              (Orden.mk simbolo direccion volumen (Some precio_entrada)
                 stop_loss take_profit
                 ("Señal: " ++ default EmptyString (Senal.razon_entrada senal))
                 234000 10 "market") with
      | inl e => (inl (ErrorPreparando (Construccion e)), self)
      | inr orden =>
          match _actualizar_riesgo_acumulado self precio_entrada stop_loss with
          | inl c => (inl (ErrorPreparando c), self)
          | inr self' =>
              match stop_loss, take_profit with
              | Some _, Some _ => (inr orden, self')
              | _, _ => (inl (ErrorPreparando TypeError), self')
              end
          end
      end
  end.

(** [_verificar_reinicio_diario]. *)
Definition _verificar_reinicio_diario (self : t) (hoy : Z) : t :=
  if bool_decide (hoy <> ultimo_reinicio self) then
    mk (config self) (capital self) (riesgo_por_operacion self)
       (riesgo_maximo_diario self) 0 0%nat (max_operaciones_diarias self) hoy
  else self.

(** [validar_senal]. *)
Definition validar_senal (self : t) (hoy : Z) (senal : Senal.t) : bool * t :=
  let self := _verificar_reinicio_diario self hoy in
  if (max_operaciones_diarias self <=? operaciones_hoy self)%nat then (false, self)
  else if Qle_bool (riesgo_maximo_diario self) (riesgo_acumulado_hoy self)
  then (false, self)
  else if Qlt_bool (default 0 (Senal.fuerza senal)) 50 then (false, self)
  else if (length (default [] (Senal.confirmaciones senal)) <? 2)%nat
  then (false, self)
  else (true, self).

(** [actualizar_capital]. *)
Definition actualizar_capital (self : t) (nuevo_capital : Q) : t :=
  mk (config self) nuevo_capital (riesgo_por_operacion self)
     (riesgo_maximo_diario self) (riesgo_acumulado_hoy self)
     (operaciones_hoy self) (max_operaciones_diarias self)
     (ultimo_reinicio self).

(** The signal loop of [BacktestEngine.ejecutar] as far as the manager is
    concerned: each signal that passes [validar_senal] goes to
    [preparar_orden]; an [ErrorRiesgo] leaves the loop.  Each signal comes
    with the date the clock shows when it is validated. *)
Fixpoint procesar_senales (self : t) (senales : list (Z * Senal.t))
    : (ErrorRiesgo + list Orden.t) * t :=
  match senales with
  | [] => (inr [], self)
  | (hoy, senal) :: resto =>
      let '(valida, self1) := validar_senal self hoy senal in
      if valida then
        match preparar_orden self1 senal with
        | (inl e, self2) => (inl e, self2)
        | (inr orden, self2) =>
            match procesar_senales self2 resto with
            | (inl e, self3) => (inl e, self3)
            | (inr ordenes, self3) => (inr (orden :: ordenes), self3)
            end
        end
      else procesar_senales self1 resto
  end.

End RiskManager.

(** ** [order_manager.py]: [OrderManager] *)

(** The dicts [config['riesgo']['trailing_stop']] and
    [config['riesgo']['break_even']]. *)
Module TrailingStop.
Record t : Type := mk {
  habilitado : bool;
  activacion_pips : Q;
  paso_pips : Q
}.
End TrailingStop.

Module BreakEven.
Record t : Type := mk {
  habilitado : bool;
  activacion_pips : Q
}.
End BreakEven.

(** An entry of [ordenes_recientes[simbolo]]. *)
Module Registro.
Record t : Type := mk {
  simbolo : string;
  tipo : string;
  precio : option Q;
  timestamp : Q                       (* seconds *)
}.
End Registro.

Module OrderManager.

(** What ends up in [ultimo_error]: the message of a failed result, or
    the text of an exception. *)
Inductive UltimoError : Type :=
| DeResultado (mensaje : Mensaje)
| DeExcepcion (e : Excepcion).

(** The messages of the results the manager returns: its own, or the
    broker's. *)
Inductive MensajeGestor : Type :=
| SimboloBloqueado (simbolo : string)
| OrdenDuplicada (simbolo tipo : string)
| LimiteAlcanzado (simbolo : string)
| DelBroker (mensaje : Mensaje)
| IntentosFallaron (ultimo_error : option UltimoError)
| ErrorGestion.

Record Resultado : Type := mkResultado {
  exito : bool;
  ticket : option Z;
  precio : option Q;
  volumen : option Q;
  mensaje : MensajeGestor
}.

(** [ResultadoOrden(exito=False, mensaje=...)]. *)
Definition fallo (m : MensajeGestor) : Resultado :=
  mkResultado false None None None m.

(** A result of the broker, passed on as it is. *)
Definition del_broker (r : ResultadoOrden.t) : Resultado :=
  mkResultado (ResultadoOrden.exito r) (ResultadoOrden.ticket r)
    (ResultadoOrden.precio r) (ResultadoOrden.volumen r)
    (DelBroker (ResultadoOrden.mensaje r)).

(** The manager over a [BrokerSimulado]; [lecturas] counts the readings of
    the clock ([datetime.now()]) made so far and [dormido] adds up the
    seconds spent in [time.sleep]. *)
Record t : Type := mk {
  broker : BrokerSimulado.t;
  trailing_stop : TrailingStop.t;
  break_even : BreakEven.t;
  ordenes_recientes : gmap string (list Registro.t);
  bloqueos_simbolo : gmap string Q;
  tiempo_minimo_entre_ordenes : Q;
  max_ordenes_por_simbolo : nat;
  max_reintentos : nat;
  lecturas : nat;
  dormido : nat
}.

Definition __init__ (broker : BrokerSimulado.t) (ts : TrailingStop.t)
    (be : BreakEven.t) : t :=
  mk broker ts be ∅ ∅ 30 1%nat 3%nat 0%nat 0%nat.

Definition con_broker (b : BrokerSimulado.t) (self : t) : t :=
  mk b (trailing_stop self) (break_even self) (ordenes_recientes self)
     (bloqueos_simbolo self) (tiempo_minimo_entre_ordenes self)
     (max_ordenes_por_simbolo self) (max_reintentos self) (lecturas self)
     (dormido self).

Definition con_recientes (m : gmap string (list Registro.t)) (self : t) : t :=
  mk (broker self) (trailing_stop self) (break_even self) m
     (bloqueos_simbolo self) (tiempo_minimo_entre_ordenes self)
     (max_ordenes_por_simbolo self) (max_reintentos self) (lecturas self)
     (dormido self).

Definition con_bloqueos (m : gmap string Q) (self : t) : t :=
  mk (broker self) (trailing_stop self) (break_even self)
     (ordenes_recientes self) m (tiempo_minimo_entre_ordenes self)
     (max_ordenes_por_simbolo self) (max_reintentos self) (lecturas self)
     (dormido self).

(** [time.sleep(segundos)]. *)
Definition dormir (segundos : nat) (self : t) : t :=
  mk (broker self) (trailing_stop self) (break_even self)
     (ordenes_recientes self) (bloqueos_simbolo self)
     (tiempo_minimo_entre_ordenes self) (max_ordenes_por_simbolo self)
     (max_reintentos self) (lecturas self) (dormido self + segundos).

Section Reloj.

(** [reloj k] is what the [k]-th call of [datetime.now()] returns, in
    seconds. *)
Variable reloj : nat -> Q.

(** The test ["Error" in resultado.mensaje] on the text of a message. *)
Variable contiene_error : MensajeGestor -> bool.

(** [datetime.now()]. *)
Definition ahora (self : t) : Q * t :=
  (reloj (lecturas self),
   mk (broker self) (trailing_stop self) (break_even self)
      (ordenes_recientes self) (bloqueos_simbolo self)
      (tiempo_minimo_entre_ordenes self) (max_ordenes_por_simbolo self)
      (max_reintentos self) (S (lecturas self)) (dormido self)).

(** [_simbolo_bloqueado]. *)
Definition _simbolo_bloqueado (self : t) (simbolo : string) : bool * t :=
  match bloqueos_simbolo self !! simbolo with
  | Some tiempo_bloqueo =>
      let '(now, self1) := ahora self in
      if Qlt_bool now tiempo_bloqueo then (true, self1)
      else (false, con_bloqueos (delete simbolo (bloqueos_simbolo self1)) self1)
  | None => (false, self)
  end.

(** [_bloquear_simbolo]. *)
Definition _bloquear_simbolo (self : t) (simbolo : string) (segundos : Q) : t :=
  let '(now, self1) := ahora self in
  con_bloqueos (<[simbolo := now + segundos]> (bloqueos_simbolo self1)) self1.

(** The loop of [_es_orden_duplicada]; [None] is the [TypeError] of a
    subtraction with [None]. *)
Fixpoint duplicada_entre (minimo now : Q) (tipo : string) (precio : option Q)
    (ordenes : list Registro.t) : option bool :=
  match ordenes with
  | [] => Some false
  | orden :: resto =>
      let tiempo_transcurrido := now - Registro.timestamp orden in
      if Qlt_bool tiempo_transcurrido minimo then
        if String.eqb (Registro.tipo orden) tipo then
          match Registro.precio orden, precio with
          | Some p, Some q =>
              if Qlt_bool (py_abs (p - q)) 0.0001 then Some true
              else duplicada_entre minimo now tipo precio resto
          | _, _ => None
          end
        else duplicada_entre minimo now tipo precio resto
      else duplicada_entre minimo now tipo precio resto
  end.

(** [_es_orden_duplicada]. *)
Definition _es_orden_duplicada (self : t) (simbolo tipo : string)
    (precio : option Q) : option bool * t :=
  match ordenes_recientes self !! simbolo with
  | None => (Some false, self)
  | Some ordenes =>
      let '(now, self1) := ahora self in
      (duplicada_entre (tiempo_minimo_entre_ordenes self) now tipo precio
         ordenes, self1)
  end.

(** [_puede_colocar_orden]: the [NameError] of
    [obtener_posiciones_abiertas] is not caught here. *)
Definition _puede_colocar_orden (self : t) (simbolo : string)
    : (BrokerSimulado.ErrorNombre + bool) * t :=
  match BrokerSimulado.obtener_posiciones_abiertas (broker self) with
  | (inl e, b) => (inl e, con_broker b self)
  | (inr posiciones, b) =>
      let posiciones_simbolo :=
        List.filter (fun p => String.eqb (Posicion.simbolo p) simbolo)
          (omap (BrokerSimulado.leer b) posiciones) in
      (inr (length posiciones_simbolo <? max_ordenes_por_simbolo self)%nat,
       con_broker b self)
  end.

(** [_registrar_orden_reciente]: the clock is read twice. *)
Definition _registrar_orden_reciente (self : t) (simbolo tipo : string)
    (precio : option Q) : t :=
  let '(now, self1) := ahora self in
  let registro := Registro.mk simbolo tipo precio now in
  let lista := default [] (ordenes_recientes self1 !! simbolo) ++ [registro] in
  let '(now2, self2) := ahora self1 in
  let cutoff_time := now2 - 300 in
  con_recientes
    (<[simbolo := List.filter
                    (fun o => Qlt_bool cutoff_time (Registro.timestamp o))
                    lista]> (ordenes_recientes self2))
    self2.

(** The loop of [_colocar_orden_con_reintentos] over the attempts that are
    left. *)
Fixpoint reintentar (orden_dict : Orden.t) (intentos : list nat)
    (ultimo_error : option UltimoError) (self : t) : Resultado * t :=
  match intentos with
  | [] => (fallo (IntentosFallaron ultimo_error), self)
  | intento :: resto =>
      match Orden.__init__ orden_dict with
      | inr orden =>
          let '(resultado, b) :=
            BrokerSimulado.colocar_orden (broker self) orden in
          let self1 := con_broker b self in
          if ResultadoOrden.exito resultado then (del_broker resultado, self1)
          else
            reintentar orden_dict resto
              (Some (DeResultado (ResultadoOrden.mensaje resultado)))
              (if (intento <? max_reintentos self - 1)%nat
               then dormir ((intento + 1) * 2) self1 else self1)
      | inl e =>
          reintentar orden_dict resto (Some (DeExcepcion e))
            (if (intento <? max_reintentos self - 1)%nat
             then dormir ((intento + 1) * 2) self else self)
      end
  end.

(** [_colocar_orden_con_reintentos]; [orden_dict] holds the fields that
    the constructor of [Orden] receives as keyword arguments. *)
Definition _colocar_orden_con_reintentos (self : t) (orden_dict : Orden.t)
    : Resultado * t :=
  reintentar orden_dict (seq 0 (max_reintentos self)) None self.

(** [colocar_orden_con_proteccion]; an exception inside ends in the result
    of the [except] clause, with the manager as the exception left it. *)
Definition colocar_orden_con_proteccion (self : t) (orden_dict : Orden.t)
    : Resultado * t :=
  let simbolo := Orden.simbolo orden_dict in
  let tipo := Orden.tipo orden_dict in
  let '(bloqueado, self1) := _simbolo_bloqueado self simbolo in
  if bloqueado then (fallo (SimboloBloqueado simbolo), self1)
  else
    let '(duplicada, self2) :=
      _es_orden_duplicada self1 simbolo tipo (Orden.precio orden_dict) in
    match duplicada with
    | None => (fallo ErrorGestion, self2)
    | Some true => (fallo (OrdenDuplicada simbolo tipo), self2)
    | Some false =>
        match _puede_colocar_orden self2 simbolo with
        | (inl _, self3) => (fallo ErrorGestion, self3)
        | (inr puede, self3) =>
            if negb puede then (fallo (LimiteAlcanzado simbolo), self3)
            else
              let '(resultado, self4) :=
                _colocar_orden_con_reintentos self3 orden_dict in
              if exito resultado then
                let self5 :=
                  _registrar_orden_reciente self4 simbolo tipo
                    (precio resultado) in
                (resultado,
                 if negb (exito resultado) && contiene_error (mensaje resultado)
                 then _bloquear_simbolo self5 simbolo 60
                 else self5)
              else (resultado, self4)
        end
    end.

(** A run of calls of [colocar_orden_con_proteccion]. *)
Fixpoint colocar_varias (self : t) (llamadas : list Orden.t)
    : list Resultado * t :=
  match llamadas with
  | [] => ([], self)
  | orden_dict :: resto =>
      let '(r, self1) := colocar_orden_con_proteccion self orden_dict in
      let '(rs, self2) := colocar_varias self1 resto in
      (r :: rs, self2)
  end.

End Reloj.

(** [_aplicar_trailing_stop(posicion)]; [ref] is the dict in the caller's
    hand. *)
Definition _aplicar_trailing_stop (self : t) (ref : nat) : t :=
  if negb (TrailingStop.habilitado (trailing_stop self)) then self
  else
    match BrokerSimulado.leer (broker self) ref with
    | None => self
    | Some posicion =>
        let activacion_pips := TrailingStop.activacion_pips (trailing_stop self) in
        let paso_pips := TrailingStop.paso_pips (trailing_stop self) in
        let precio_apertura := Posicion.precio_apertura posicion in
        let precio_actual := Posicion.precio_actual posicion in
        match Posicion.stop_loss posicion with
        | None => self
        | Some stop_loss_actual =>
            if String.eqb (Posicion.tipo posicion) "COMPRA" then
              let beneficio_pips := (precio_actual - precio_apertura) * 10000 in
              if Qle_bool activacion_pips beneficio_pips then
                let nuevo_sl := precio_actual - paso_pips / 10000 in
                if Qlt_bool stop_loss_actual nuevo_sl then
                  con_broker
                    (snd (BrokerSimulado.modificar_orden (broker self)
                            (Posicion.ticket posicion)
                            [BrokerSimulado.CStopLoss (Some nuevo_sl)]))
                    self
                else self
              else self
            else if String.eqb (Posicion.tipo posicion) "VENTA" then
              let beneficio_pips := (precio_apertura - precio_actual) * 10000 in
              if Qle_bool activacion_pips beneficio_pips then
                let nuevo_sl := precio_actual + paso_pips / 10000 in
                if Qlt_bool nuevo_sl stop_loss_actual then
                  con_broker
                    (snd (BrokerSimulado.modificar_orden (broker self)
                            (Posicion.ticket posicion)
                            [BrokerSimulado.CStopLoss (Some nuevo_sl)]))
                    self
                else self
              else self
            else self
        end
    end.

(** [_aplicar_break_even(posicion)]. *)
Definition _aplicar_break_even (self : t) (ref : nat) : t :=
  if negb (BreakEven.habilitado (break_even self)) then self
  else
    match BrokerSimulado.leer (broker self) ref with
    | None => self
    | Some posicion =>
        let activacion_pips := BreakEven.activacion_pips (break_even self) in
        let precio_apertura := Posicion.precio_apertura posicion in
        let precio_actual := Posicion.precio_actual posicion in
        match Posicion.stop_loss posicion with
        | None => self
        | Some stop_loss_actual =>
            if String.eqb (Posicion.tipo posicion) "COMPRA" then
              let beneficio_pips := (precio_actual - precio_apertura) * 10000 in
              if Qle_bool activacion_pips beneficio_pips then
                let nuevo_sl := precio_apertura + 0.0001 in
                if Qlt_bool stop_loss_actual nuevo_sl then
                  con_broker
                    (snd (BrokerSimulado.modificar_orden (broker self)
                            (Posicion.ticket posicion)
                            [BrokerSimulado.CStopLoss (Some nuevo_sl)]))
                    self
                else self
              else self
            else if String.eqb (Posicion.tipo posicion) "VENTA" then
              let beneficio_pips := (precio_apertura - precio_actual) * 10000 in
              if Qle_bool activacion_pips beneficio_pips then
                let nuevo_sl := precio_apertura - 0.0001 in
                if Qlt_bool nuevo_sl stop_loss_actual then
                  con_broker
                    (snd (BrokerSimulado.modificar_orden (broker self)
                            (Posicion.ticket posicion)
                            [BrokerSimulado.CStopLoss (Some nuevo_sl)]))
                    self
                else self
              else self
            else self
        end
    end.

(** What [gestionar_ordenes_abiertas] does with one position;
    [_verificar_stop_loss_take_profit] is [pass]. *)
Definition gestionar_una (self : t) (ref : nat) : t :=
  _aplicar_break_even (_aplicar_trailing_stop self ref) ref.

(** [gestionar_ordenes_abiertas]: the [except] clause logs the
    [NameError] of [obtener_posiciones_abiertas] and the method returns
    with no position handled. *)
Definition gestionar_ordenes_abiertas (self : t) : t :=
  match BrokerSimulado.obtener_posiciones_abiertas (broker self) with
  | (inl _, b) => con_broker b self
  | (inr posiciones, b) => fold_left gestionar_una posiciones (con_broker b self)
  end.

End OrderManager.

(** ** Concrete data used by the scenarios *)

Module Escenario.

(** The configuration of [tests_backup/test_broker.py]: capital 10000,
    commission 2.5 per lot, spread 2 pips. *)
Definition broker0 : BrokerSimulado.t := BrokerSimulado.__init__ 10000 2.5 2.0.

Definition compra (precio : option Q) (sl tp : option Q) : Orden.t :=
  Orden.mk "EURUSD" "COMPRA" 0.1 precio sl tp "" 234000 10 "market".

Definition venta (precio : option Q) (sl tp : option Q) : Orden.t :=
  Orden.mk "EURUSD" "VENTA" 0.1 precio sl tp "" 234000 10 "market".

(** Scenario 1: a BUY of 0.1 lot at 1.10000. *)
Definition broker1 : BrokerSimulado.t :=
  snd (BrokerSimulado.colocar_orden broker0 (compra (Some 1.10000) None None)).

(** Scenario 2: the position of scenario 1 with its [precio_actual] at
    1.10500, written through
    [modificar_orden(1000, {'precio_actual': 1.10500})]. *)
Definition broker1_a_10500 : BrokerSimulado.t :=
  snd (BrokerSimulado.modificar_orden broker1 1000
         [BrokerSimulado.CPrecioActual 1.10500]).

(** The dict of that position then. *)
Definition posicion1_a_10500 : Posicion.t :=
  Posicion.set_precio_actual 1.10500
    (Posicion.mk 1000 "EURUSD" "COMPRA" 0.1 (1.10000 + 2.0 / 10000 / 2)
       (1.10000 + 2.0 / 10000 / 2) None None (0.1 * 2.5) 0 0 "" 234000
       "abierta").

(** Two orders in a row, the first without levels, the second with both. *)
Definition broker2 : BrokerSimulado.t :=
  snd (BrokerSimulado.colocar_orden broker1
         (compra (Some 1.10000) (Some 1.0990) (Some 1.1100))).

(** Two orders in a row, both with levels; the first has the lower stop. *)
Definition broker2_niveles : BrokerSimulado.t :=
  snd (BrokerSimulado.colocar_orden
         (snd (BrokerSimulado.colocar_orden broker0
                 (compra (Some 1.10000) (Some 1.0900) (Some 1.1100))))
         (compra (Some 1.10000) (Some 1.0990) (Some 1.1100))).

Definition tick_10980 : Tick.t :=
  Tick.mk 0 1.0979 1.0981 1.0980 1 0.0002 (Some "EURUSD").

(** One BUY with both levels, its stop at 1.0990. *)
Definition broker_con_niveles : BrokerSimulado.t :=
  snd (BrokerSimulado.colocar_orden broker0
         (compra (Some 1.10000) (Some 1.0990) (Some 1.1100))).

Definition vela1 : Vela.t := Vela.mk 0 1.1000 1.1005 1.0995 1.1002.

(** Three one-minute candles and one hourly candle stamped later. *)
Definition velas_m1 : list Vela.t :=
  [Vela.mk 0 1.1 1.2 1.0 1.1; Vela.mk 60 1.1 1.2 1.0 1.1;
   Vela.mk 120 1.1 1.2 1.0 1.1].

Definition datos_m1_h1 : gmap string (list Vela.t) :=
  <["M1" := velas_m1]> (<["H1" := [Vela.mk 3600 1.1 1.2 1.0 1.1]]> ∅).

(** The candle of [vela1] under a generator without noise. *)
Definition simulador_vela1 : TickSimulator.t :=
  TickSimulator.__init__ [vela1] 0.0002.

(** The configuration and the signal of [tests_backup/test_risk.py]. *)
Definition config_riesgo : ConfigRiesgo.t :=
  ConfigRiesgo.mk 10000 2.0 10.0
    (Nivel.mk (Some "atr") (Some 1.5) None (Some 20) (Some 1.0))
    (Nivel.mk (Some "rr") None (Some 2.0) (Some 40) (Some 2.0))
    0.01.

Definition senal_prueba : Senal.t :=
  Senal.mk (Some "EURUSD") (Some "COMPRA") (Some 1.10000) (Some 75)
    (Some ["crossover_ema"; "rsi_extremo"]) None (Some 0.0010).

Definition gestor0 : RiskManager.t := RiskManager.__init__ config_riesgo 0.

(** An order manager over the new broker: trailing stop after 20 pips
    with a step of 10, break even after 10 pips. *)
Definition gestor_ordenes0 : OrderManager.t :=
  OrderManager.__init__ broker0 (TrailingStop.mk true 20 10)
    (BreakEven.mk true 10).

(** The same manager over the broker with two positions with levels,
    the first with its [precio_actual] written to 1.10500 through
    [modificar_orden]. *)
Definition gestor_ordenes_a_10500 : OrderManager.t :=
  OrderManager.__init__
    (snd (BrokerSimulado.modificar_orden broker2_niveles 1000
            [BrokerSimulado.CPrecioActual 1.10500]))
    (TrailingStop.mk true 20 10) (BreakEven.mk true 10).

End Escenario.

(** * Properties *)

(** ** Arithmetic helpers *)

Lemma Qlt_bool_iff (x y : Q) : Qlt_bool x y = true <-> x < y.
Proof.
  unfold Qlt_bool. rewrite negb_true_iff.
  split.
  - intros H. apply Qnot_le_lt. intros Hle.
    apply Qle_bool_iff in Hle. congruence.
  - intros H. destruct (Qle_bool y x) eqn:E; [|reflexivity].
    apply Qle_bool_iff in E. exfalso. exact (Qlt_not_le _ _ H E).
Qed.

Lemma clipQ_bounds (x lo hi : Q) : lo <= hi -> lo <= clipQ x lo hi <= hi.
Proof.
  intros Hlh. unfold clipQ, Qmin, Qmax.
  destruct (Qle_bool x lo) eqn:E1.
  - rewrite (proj2 (Qle_bool_iff lo hi) Hlh). split; [apply Qle_refl | exact Hlh].
  - destruct (Qle_bool x hi) eqn:E2.
    + apply Qle_bool_iff in E2. split; [|exact E2].
      apply Qlt_le_weak, Qnot_le_lt. intros H.
      apply Qle_bool_iff in H. congruence.
    + split; [exact Hlh | apply Qle_refl].
Qed.

Lemma clipZ_bounds (x lo hi : Z) : (lo <= hi)%Z -> (lo <= clipZ x lo hi <= hi)%Z.
Proof. unfold clipZ. lia. Qed.

Lemma py_or_some (p d : Q) : ~ p == 0 -> py_or (Some p) d = p.
Proof.
  intros H. unfold py_or.
  destruct (Qeq_bool p 0) eqn:E; [|reflexivity].
  apply Qeq_bool_eq in E. contradiction.
Qed.

(** ** The search of [cerrar_orden] *)

Section Buscar.

Import BrokerSimulado.

Lemma buscar_primero objs ticket pre ref post p i :
  sin_ticket objs ticket pre ->
  objs !! ref = Some p ->
  Posicion.ticket p = ticket ->
  buscar objs ticket (pre ++ ref :: post) i = Some ((i + length pre)%nat, p).
Proof.
  revert i. induction pre as [|r pre IH]; intros i Hpre Href Ht; simpl.
  - rewrite Href. rewrite (proj2 (Z.eqb_eq _ _) Ht).
    f_equal. f_equal. lia.
  - assert (Hrest : sin_ticket objs ticket pre).
    { intros r' q Hin. apply Hpre. apply elem_of_cons; now right. }
    destruct (objs !! r) as [q|] eqn:Er.
    + assert (Hq : Posicion.ticket q <> ticket).
      { apply (Hpre r q); [apply elem_of_cons; now left | exact Er]. }
      apply Z.eqb_neq in Hq. rewrite Hq.
      rewrite (IH (S i) Hrest Href Ht). f_equal. f_equal. lia.
    + rewrite (IH (S i) Hrest Href Ht). f_equal. f_equal. lia.
Qed.

Lemma delete_medio {A} (pre : list A) (x : A) (post : list A) :
  delete (length pre) (pre ++ x :: post) = pre ++ post.
Proof. induction pre as [|y pre IH]; simpl; [reflexivity | now rewrite IH]. Qed.

Lemma buscar_none objs ticket refs i :
  sin_ticket objs ticket refs -> buscar objs ticket refs i = None.
Proof.
  revert i. induction refs as [|r refs IH]; intros i H; simpl; [reflexivity|].
  assert (Hrest : sin_ticket objs ticket refs).
  { intros r' q Hin. apply H. apply elem_of_cons; now right. }
  destruct (objs !! r) as [q|] eqn:Er; [|now apply IH].
  assert (Hq : Posicion.ticket q <> ticket).
  { apply (H r q); [apply elem_of_cons; now left | exact Er]. }
  apply Z.eqb_neq in Hq. rewrite Hq. now apply IH.
Qed.

End Buscar.

(** ** [cerrar_orden] *)

Section CerrarOrden.

Import BrokerSimulado.

(** What [cerrar_orden] does when the first position of the list that
    carries [ticket] is the dict [p], with [neto] its net result and
    [precio_cierre] its closing price. *)
Lemma cerrar_orden_encontrada self ticket volumen pre ref post p :
  posiciones self = pre ++ ref :: post ->
  sin_ticket (objetos self) ticket pre ->
  objetos self !! ref = Some p ->
  Posicion.ticket p = ticket ->
  let precio_cierre := precio_cierre_de self p in
  let neto := beneficio_bruto self p - Posicion.comision p in
  cerrar_orden self ticket volumen =
    (ResultadoOrden.mk true (Some ticket) (Some precio_cierre)
       (Some (Posicion.volumen p)) (PosicionCerrada neto),
     mk (objetos self) (pre ++ post) (ordenes_pendientes self)
        (historial self
         ++ [Operacion.mk
               (Posicion.set_estado "cerrada" (Posicion.set_beneficio neto p))
               precio_cierre])
        (balance self + neto) (balance self + neto)
        (comision_por_lote self) (spread self)).
Proof.
  intros Hpos Hpre Href Ht precio_cierre neto.
  unfold cerrar_orden. rewrite Hpos.
  rewrite (buscar_primero _ _ _ _ _ _ 0%nat Hpre Href Ht). simpl.
  now rewrite delete_medio.
Qed.

(** C1.  Closing by ticket: when the first open position that carries the
    ticket is [p], a BUY is closed at [precio_actual - spread/2] with net
    result [(precio_cierre - precio_apertura) * volumen * 100000 - comision],
    a SELL at [precio_actual + spread/2] with
    [(precio_apertura - precio_cierre) * volumen * 100000 - comision]; the net
    result is added to the balance, the trade is appended to [historial]
    and the position leaves the open list.  Closing the 0.1-lot BUY opened
    at 1.10010 (commission 0.25, spread 0.0002) at price 1.10500 yields
    47.75 and takes the balance from 9999.75 to 10047.50. *)
Theorem cerrar_orden_beneficio :
  (forall self ticket volumen pre ref post p,
     posiciones self = pre ++ ref :: post ->
     sin_ticket (objetos self) ticket pre ->
     objetos self !! ref = Some p ->
     Posicion.ticket p = ticket ->
     forall precio_cierre neto,
     (Posicion.tipo p = "COMPRA" /\
      precio_cierre = Posicion.precio_actual p - spread self / 2 /\
      neto = (precio_cierre - Posicion.precio_apertura p)
             * Posicion.volumen p * 100000 - Posicion.comision p)
     \/
     (Posicion.tipo p = "VENTA" /\
      precio_cierre = Posicion.precio_actual p + spread self / 2 /\
      neto = (Posicion.precio_apertura p - precio_cierre)
             * Posicion.volumen p * 100000 - Posicion.comision p) ->
     let r := cerrar_orden self ticket volumen in
     ResultadoOrden.exito (fst r) = true /\
     ResultadoOrden.precio (fst r) = Some precio_cierre /\
     ResultadoOrden.mensaje (fst r) = PosicionCerrada neto /\
     balance (snd r) = balance self + neto /\
     historial (snd r) =
       historial self
       ++ [Operacion.mk
             (Posicion.set_estado "cerrada" (Posicion.set_beneficio neto p))
             precio_cierre] /\
     posiciones (snd r) = pre ++ post /\
     objetos (snd r) = objetos self)
  /\
  (let r := cerrar_orden Escenario.broker1_a_10500 1000 None in
   balance Escenario.broker1_a_10500 == 9999.75 /\
   (exists p, posiciones_abiertas Escenario.broker1_a_10500 = [p] /\
      Posicion.tipo p = "COMPRA" /\ Posicion.volumen p == 0.1 /\
      Posicion.precio_apertura p == 1.10010 /\
      Posicion.precio_actual p == 1.10500 /\ Posicion.comision p == 0.25) /\
   spread Escenario.broker1_a_10500 == 0.0002 /\
   (exists precio_cierre neto,
      ResultadoOrden.precio (fst r) = Some precio_cierre /\
      ResultadoOrden.mensaje (fst r) = PosicionCerrada neto /\
      precio_cierre == 1.10490 /\ neto == 47.75) /\
   balance (snd r) == 10047.50 /\
   posiciones (snd r) = [] /\
   length (historial (snd r)) = 1%nat).
Proof.
  split.
  - intros self ticket volumen pre ref post p Hpos Hpre Href Ht
      precio_cierre neto Hcaso r.
    subst r.
    rewrite (cerrar_orden_encontrada _ _ volumen _ _ _ _ Hpos Hpre Href Ht).
    unfold precio_cierre_de, beneficio_bruto, precio_cierre_de.
    destruct Hcaso as [(Htipo & -> & ->) | (Htipo & -> & ->)];
      rewrite Htipo; simpl; repeat split; reflexivity.
  - vm_compute. repeat split.
    + eexists. repeat split.
    + eexists. eexists. repeat split.
Qed.

(** The scenario of C1 obtained from the general statement. *)
Lemma cerrar_orden_beneficio_escenario :
  exists neto,
    neto == 47.75 /\
    balance (snd (cerrar_orden Escenario.broker1_a_10500 1000 None))
    = balance Escenario.broker1_a_10500 + neto /\
    posiciones (snd (cerrar_orden Escenario.broker1_a_10500 1000 None)) = [].
Proof.
  pose (p := Escenario.posicion1_a_10500).
  exists ((1.10500 - 2.0 / 10000 / 2 - Posicion.precio_apertura p)
          * Posicion.volumen p * 100000 - Posicion.comision p).
  split; [reflexivity|].
  assert (Hpos : posiciones Escenario.broker1_a_10500 = [] ++ 0%nat :: [])
    by reflexivity.
  assert (Hpre : sin_ticket (objetos Escenario.broker1_a_10500) 1000 []).
  { intros r q Hin. apply elem_of_nil in Hin. destruct Hin. }
  assert (Href : objetos Escenario.broker1_a_10500 !! 0%nat = Some p)
    by reflexivity.
  assert (Ht : Posicion.ticket p = 1000%Z) by reflexivity.
  destruct (proj1 cerrar_orden_beneficio Escenario.broker1_a_10500 1000%Z None
              [] 0%nat [] p Hpos Hpre Href Ht
              (1.10500 - 2.0 / 10000 / 2)
              ((1.10500 - 2.0 / 10000 / 2 - Posicion.precio_apertura p)
               * Posicion.volumen p * 100000 - Posicion.comision p)
              (or_introl (conj eq_refl (conj eq_refl eq_refl))))
    as (_ & _ & _ & Hbal & _ & Hps & _).
  split; [exact Hbal | exact Hps].
Defined.

(** C10.  The optional [volumen] of [cerrar_orden] is not read: whatever
    is passed, the call behaves as with [None]; the position found is
    removed whole, its result is computed on its full volume and the volume
    reported is the position's. *)
Theorem cerrar_orden_ignora_volumen :
  forall self ticket volumen pre ref post p,
    posiciones self = pre ++ ref :: post ->
    sin_ticket (objetos self) ticket pre ->
    objetos self !! ref = Some p ->
    Posicion.ticket p = ticket ->
    let r := cerrar_orden self ticket volumen in
    r = cerrar_orden self ticket None /\
    ResultadoOrden.exito (fst r) = true /\
    ResultadoOrden.volumen (fst r) = Some (Posicion.volumen p) /\
    posiciones (snd r) = pre ++ post /\
    ResultadoOrden.mensaje (fst r) =
      PosicionCerrada
        ((if String.eqb (Posicion.tipo p) "COMPRA"
          then (Posicion.precio_actual p - spread self / 2
                - Posicion.precio_apertura p) * Posicion.volumen p * 100000
          else (Posicion.precio_apertura p
                - (Posicion.precio_actual p + spread self / 2))
               * Posicion.volumen p * 100000)
         - Posicion.comision p) /\
    map Operacion.posicion (historial (snd r)) =
      map Operacion.posicion (historial self)
      ++ [Posicion.set_estado "cerrada"
            (Posicion.set_beneficio
               (beneficio_bruto self p - Posicion.comision p) p)].
Proof.
  intros self ticket volumen pre ref post p Hpos Hpre Href Ht r. subst r.
  rewrite (cerrar_orden_encontrada _ _ volumen _ _ _ _ Hpos Hpre Href Ht).
  rewrite (cerrar_orden_encontrada _ _ None _ _ _ _ Hpos Hpre Href Ht).
  simpl. repeat split.
  - unfold beneficio_bruto, precio_cierre_de.
    destruct (String.eqb (Posicion.tipo p) "COMPRA"); reflexivity.
  - rewrite map_app. reflexivity.
Qed.

(** C10 at a partial volume: asking to close 0.05 of the 0.1-lot position
    closes all of it. *)
Lemma cerrar_orden_ignora_volumen_parcial :
  let r := cerrar_orden Escenario.broker1_a_10500 1000 (Some 0.05) in
  r = cerrar_orden Escenario.broker1_a_10500 1000 None /\
  ResultadoOrden.volumen (fst r) = Some 0.1 /\
  posiciones (snd r) = [].
Proof.
  pose (p := Escenario.posicion1_a_10500).
  assert (Hpos : posiciones Escenario.broker1_a_10500 = [] ++ 0%nat :: [])
    by reflexivity.
  assert (Hpre : sin_ticket (objetos Escenario.broker1_a_10500) 1000 []).
  { intros r q Hin. apply elem_of_nil in Hin. destruct Hin. }
  assert (Href : objetos Escenario.broker1_a_10500 !! 0%nat = Some p)
    by reflexivity.
  assert (Ht : Posicion.ticket p = 1000%Z) by reflexivity.
  destruct (cerrar_orden_ignora_volumen Escenario.broker1_a_10500 1000%Z
              (Some 0.05) [] 0%nat [] p Hpos Hpre Href Ht)
    as (Heq & _ & Hvol & Hps & _).
  split; [exact Heq | split; [exact Hvol | exact Hps]].
Defined.

End CerrarOrden.

(** ** [colocar_orden] *)

Section ColocarOrden.

Import BrokerSimulado.

(** A requested price of exactly 0 is falsy for [orden.precio or 1.10000]:
    the BUY is filled at the default 1.10000 plus the half spread, not at
    [0 + spread/2]. *)
Lemma colocar_orden_precio_cero :
  let orden := Escenario.compra (Some 0) None None in
  let r := colocar_orden Escenario.broker0 orden in
  Orden.tipo_orden orden = "market" /\
  Orden.precio orden = Some 0 /\
  exists fill,
    ResultadoOrden.precio (fst r) = Some fill /\
    fill == 1.10010 /\
    ~ fill == 0 + spread Escenario.broker0 / 2.
Proof.
  simpl. split; [reflexivity|]. split; [reflexivity|].
  eexists. split; [reflexivity|]. split.
  - vm_compute. reflexivity.
  - vm_compute. discriminate.
Qed.

(** C3, amended.  A market order whose requested price is not 0 is filled
    at [precio + spread/2] for a BUY and [precio - spread/2] for a SELL;
    [volumen * comision_por_lote] leaves the balance at once; one new dict,
    at a reference not in use, is appended to the open list with that fill
    price, and the result reports success with the ticket given to the
    position.  A 0.1-lot BUY at 1.10000 with commission 2.5 per lot and
    spread 0.0002 fills at 1.10010 and leaves 9999.75 of 10000. *)
Theorem colocar_orden_mercado :
  (forall self orden p fill,
     Orden.tipo_orden orden = "market" ->
     Orden.precio orden = Some p ->
     ~ p == 0 ->
     (Orden.tipo orden = "COMPRA" /\ fill = p + spread self / 2) \/
     (Orden.tipo orden = "VENTA" /\ fill = p - spread self / 2) ->
     let r := colocar_orden self orden in
     let ref := fresh (dom (objetos self)) in
     ResultadoOrden.exito (fst r) = true /\
     ResultadoOrden.precio (fst r) = Some fill /\
     ResultadoOrden.volumen (fst r) = Some (Orden.volumen orden) /\
     balance (snd r) = balance self - Orden.volumen orden * comision_por_lote self /\
     historial (snd r) = historial self /\
     objetos self !! ref = None /\
     posiciones (snd r) = posiciones self ++ [ref] /\
     (forall ref', ref' <> ref -> objetos (snd r) !! ref' = objetos self !! ref') /\
     exists posicion,
       objetos (snd r) !! ref = Some posicion /\
       ResultadoOrden.ticket (fst r) = Some (Posicion.ticket posicion) /\
       Posicion.precio_apertura posicion = fill /\
       Posicion.precio_actual posicion = fill /\
       Posicion.volumen posicion = Orden.volumen orden /\
       Posicion.tipo posicion = Orden.tipo orden /\
       Posicion.simbolo posicion = Orden.simbolo orden /\
       Posicion.stop_loss posicion = Orden.stop_loss orden /\
       Posicion.take_profit posicion = Orden.take_profit orden /\
       Posicion.comision posicion = Orden.volumen orden * comision_por_lote self)
  /\
  (let r := colocar_orden Escenario.broker0
              (Escenario.compra (Some 1.10000) None None) in
   balance Escenario.broker0 == 10000 /\
   comision_por_lote Escenario.broker0 == 2.5 /\
   spread Escenario.broker0 == 0.0002 /\
   ResultadoOrden.exito (fst r) = true /\
   (exists fill, ResultadoOrden.precio (fst r) = Some fill /\ fill == 1.10010) /\
   balance (snd r) == 9999.75 /\
   length (posiciones (snd r)) = 1%nat).
Proof.
  split.
  - intros self orden p fill Hm Hp Hnz Hcaso r ref. subst r ref.
    unfold colocar_orden. rewrite Hm, Hp, (py_or_some p _ Hnz). simpl.
    assert (Hfresh : objetos self !! fresh (dom (objetos self)) = None).
    { apply not_elem_of_dom, is_fresh. }
    destruct Hcaso as [(Ht & ->) | (Ht & ->)]; rewrite Ht; simpl;
      (repeat split; try reflexivity; try exact Hfresh;
       [ intros ref' Hne; now rewrite lookup_insert_ne
       | eexists; rewrite lookup_insert_eq; repeat split; reflexivity ]).
  - vm_compute. repeat split.
    eexists. repeat split.
Qed.

(** C3 on a SELL of the test configuration. *)
Lemma colocar_orden_mercado_venta :
  let r := colocar_orden Escenario.broker0
             (Escenario.venta (Some 1.10000) None None) in
  ResultadoOrden.exito (fst r) = true /\
  ResultadoOrden.precio (fst r) = Some (1.10000 - spread Escenario.broker0 / 2) /\
  balance (snd r) = balance Escenario.broker0 - 0.1 * 2.5.
Proof.
  assert (Hnz : ~ 1.10000 == 0) by (vm_compute; discriminate).
  destruct (proj1 colocar_orden_mercado Escenario.broker0
              (Escenario.venta (Some 1.10000) None None) 1.10000
              (1.10000 - spread Escenario.broker0 / 2)
              eq_refl eq_refl Hnz (or_intror (conj eq_refl eq_refl)))
    as (He & Hp & _ & Hb & _).
  split; [exact He | split; [exact Hp | exact Hb]].
Defined.

(** C8.  An order below the minimum volume 0.01 never reaches the broker:
    building the order object raises [ValueError], so the call sequence
    [colocar_orden(Orden(...))] ends in that exception with the broker
    untouched: no position, no pending order, the balance as before.
    The volume is not replaced by the minimum. *)
Theorem colocar_orden_volumen_minimo :
  forall self campos,
    Orden.volumen campos < 0.01 ->
    let r := colocar_orden_nueva self campos in
    fst r = inl (ValueError (Orden.volumen campos)) /\
    snd r = self /\
    posiciones (snd r) = posiciones self /\
    ordenes_pendientes (snd r) = ordenes_pendientes self /\
    balance (snd r) = balance self.
Proof.
  intros self campos Hv r. subst r.
  unfold colocar_orden_nueva, Orden.__init__, Orden.__post_init__.
  rewrite (proj2 (Qlt_bool_iff _ _) Hv). simpl. repeat split.
Qed.

(** C8 on the order of [test_volumen_minimo]: volume 0.001. *)
Lemma colocar_orden_volumen_minimo_test :
  let campos := Orden.mk "EURUSD" "COMPRA" 0.001 None None None "" 234000 10 "market" in
  fst (colocar_orden_nueva Escenario.broker0 campos) = inl (ValueError 0.001) /\
  snd (colocar_orden_nueva Escenario.broker0 campos) = Escenario.broker0.
Proof.
  assert (Hv : 0.001 < 0.01) by reflexivity.
  destruct (colocar_orden_volumen_minimo Escenario.broker0
              (Orden.mk "EURUSD" "COMPRA" 0.001 None None None "" 234000 10 "market")
              Hv) as (H1 & H2 & _).
  split; [exact H1 | exact H2].
Defined.

(** An order object that was built carries at least the minimum volume,
    and [colocar_orden] opens it with that volume. *)
Lemma orden_construida_volumen campos orden :
  Orden.__init__ campos = inr orden ->
  orden = campos /\ 0.01 <= Orden.volumen orden.
Proof.
  unfold Orden.__init__, Orden.__post_init__.
  destruct (Qlt_bool (Orden.volumen campos) 0.01) eqn:E; [discriminate|].
  intros [= <-]. split; [reflexivity|].
  apply Qnot_lt_le. intros H. apply Qlt_bool_iff in H. congruence.
Qed.

End ColocarOrden.

(** ** [TickSimulator] *)

Section Ticks.

Import TickSimulator.

Variable normal : nat -> nat -> Q.
Variable randint : nat -> nat -> Z.

Local Abbreviation generar := (generar_ticks_para_vela normal randint).
Local Abbreviation siguiente := (obtener_siguiente_tick normal randint).

Lemma preparar_lookup velas idx fila :
  _preparar_datos velas !! idx = Some fila ->
  exists v, velas !! idx = Some v /\ Fila.vela fila = v /\
            (5 <= Fila.ticks_por_vela fila <= 100)%Z.
Proof.
  unfold _preparar_datos. rewrite list_lookup_imap.
  destruct (velas !! idx) as [v|]; simpl; [|discriminate].
  intros [= <-]. exists v. simpl.
  split; [reflexivity|]. split; [reflexivity|].
  apply clipZ_bounds. lia.
Qed.

Lemma generar_length self idx fila :
  datos_velas self !! idx = Some fila ->
  length (generar self idx) = Z.to_nat (Fila.ticks_por_vela fila).
Proof.
  intros H. unfold generar_ticks_para_vela. rewrite H.
  now rewrite length_map, length_seq.
Qed.

Lemma generar_fuera self idx :
  (length (datos_velas self) <= idx)%nat -> generar self idx = [].
Proof.
  intros H. unfold generar_ticks_para_vela.
  now rewrite (lookup_ge_None_2 _ _ H).
Qed.

(** The three ways out of [obtener_siguiente_tick]. *)
Lemma siguiente_agotado self :
  (length (datos_velas self) <= indice_actual self)%nat ->
  siguiente self = (None, self).
Proof.
  intros H. rewrite obtener_siguiente_tick_unfold_eq.
  unfold obtener_siguiente_tick_unfold.
  destruct (le_lt_dec _ _); [reflexivity | lia].
Qed.

Lemma siguiente_entrega self tick :
  (indice_actual self < length (datos_velas self))%nat ->
  default [] (ticks_actuales (cargar_vela normal randint self))
    !! tick_idx (cargar_vela normal randint self) = Some tick ->
  siguiente self = (Some tick, entregar tick (cargar_vela normal randint self)).
Proof.
  intros H Hl. rewrite obtener_siguiente_tick_unfold_eq.
  unfold obtener_siguiente_tick_unfold.
  destruct (le_lt_dec _ _); [lia|]. simpl. now rewrite Hl.
Qed.

Lemma siguiente_pasa self :
  (indice_actual self < length (datos_velas self))%nat ->
  default [] (ticks_actuales (cargar_vela normal randint self))
    !! tick_idx (cargar_vela normal randint self) = None ->
  siguiente self = siguiente (pasar_vela (cargar_vela normal randint self)).
Proof.
  intros H Hl. rewrite obtener_siguiente_tick_unfold_eq.
  unfold obtener_siguiente_tick_unfold.
  destruct (le_lt_dec _ _); [lia|]. simpl. now rewrite Hl.
Qed.

Lemma pedir_app a b self :
  fst (pedir normal randint (a + b) self) =
  fst (pedir normal randint a self)
  ++ fst (pedir normal randint b (snd (pedir normal randint a self))).
Proof.
  revert self. induction a as [|a IH]; intros self; simpl; [reflexivity|].
  now rewrite IH.
Qed.

(** While ticks of the current candle are held, the next calls hand them
    out in order. *)
Lemma pedir_resto m : forall self l k,
  ticks_actuales self = Some l ->
  tick_idx self = k ->
  (indice_actual self < length (datos_velas self))%nat ->
  (k + m = length l)%nat ->
  (0 < length l)%nat ->
  fst (pedir normal randint m self) = map Some (drop k l) /\
  ticks_actuales (snd (pedir normal randint m self)) = Some l /\
  tick_idx (snd (pedir normal randint m self)) = length l /\
  indice_actual (snd (pedir normal randint m self)) = indice_actual self /\
  datos_velas (snd (pedir normal randint m self)) = datos_velas self.
Proof.
  induction m as [|m IH]; intros self l k Hl Hk Hi Hkm Hpos.
  - simpl. replace k with (length l) by lia. rewrite drop_all.
    repeat split; [exact Hl | lia].
  - assert (Hc : cargar_vela normal randint self = self).
    { unfold cargar_vela. rewrite Hl. destruct l; [simpl in Hpos; lia | reflexivity]. }
    destruct (lookup_lt_is_Some_2 l k ltac:(lia)) as [tick Htick].
    assert (Hs : siguiente self = (Some tick, entregar tick self)).
    { rewrite <- Hc at 2. apply siguiente_entrega; [exact Hi|].
      rewrite Hc, Hl, Hk. exact Htick. }
    simpl. rewrite Hs. simpl.
    destruct (IH (entregar tick self) l (S k)) as (H1 & H2 & H3 & H4 & H5);
      try (simpl; congruence); try lia; try exact Hi.
    rewrite H1. rewrite (drop_S _ _ _ Htick). simpl.
    repeat split; assumption.
Qed.

(** C6.  Every tick generated from a candle that satisfies the candle
    invariant has its bid between the candle's low and high, and its ask is
    the bid plus the spread. *)
Theorem generar_ticks_en_rango :
  forall self vela_idx fila tick,
    datos_velas self !! vela_idx = Some fila ->
    Vela.invariante (Fila.vela fila) ->
    tick ∈ generar self vela_idx ->
    Vela.bajo (Fila.vela fila) <= Tick.bid tick /\
    Tick.bid tick <= Vela.alto (Fila.vela fila) /\
    Tick.ask tick = Tick.bid tick + spread self.
Proof.
  intros self vela_idx fila tick Hfila (Hoa & Hca & Hbo & Hbc) Hin.
  unfold generar_ticks_para_vela in Hin. rewrite Hfila in Hin.
  apply list_elem_of_fmap in Hin. destruct Hin as (i & -> & _). simpl.
  assert (Hlh : Vela.bajo (Fila.vela fila) <= Vela.alto (Fila.vela fila)).
  { eapply Qle_trans; eassumption. }
  destruct (clipQ_bounds
              (linspace (Vela.apertura (Fila.vela fila))
                 (Vela.cierre (Fila.vela fila))
                 (Z.to_nat (Fila.ticks_por_vela fila)) i + normal vela_idx i)
              _ _ Hlh) as [Hlo Hhi].
  repeat split; assumption.
Qed.

(** C7.  Every candle of a prepared set gets between 5 and 100 ticks; on an
    empty set the first call of [obtener_siguiente_tick] returns [None]; on
    a set of one candle the calls return its ticks, between 5 and 100 of
    them, and [None] from then on. *)
Theorem ticks_por_vela_acotados :
  (forall velas spread vela_idx fila,
     _preparar_datos velas !! vela_idx = Some fila ->
     (5 <= Fila.ticks_por_vela fila <= 100)%Z /\
     length (generar (__init__ velas spread) vela_idx)
     = Z.to_nat (Fila.ticks_por_vela fila) /\
     (5 <= length (generar (__init__ velas spread) vela_idx) <= 100)%nat)
  /\
  (forall spread, fst (siguiente (__init__ [] spread)) = None)
  /\
  (forall vela spread,
     let ticks := generar (__init__ [vela] spread) 0 in
     (5 <= length ticks <= 100)%nat /\
     fst (pedir normal randint (length ticks + 2) (__init__ [vela] spread))
     = map Some ticks ++ [None; None]).
Proof.
  split; [|split].
  - intros velas spread vela_idx fila Hfila.
    destruct (preparar_lookup _ _ _ Hfila) as (v & _ & _ & Hb).
    split; [exact Hb|].
    rewrite (generar_length (__init__ velas spread) vela_idx fila Hfila).
    split; [reflexivity | lia].
  - intros spread. rewrite siguiente_agotado; [reflexivity | simpl; lia].
  - intros vela spread ticks.
    set (self := __init__ [vela] spread).
    destruct (datos_velas self !! 0%nat) as [fila|] eqn:Hfila;
      [|discriminate Hfila].
    destruct (preparar_lookup [vela] 0 fila Hfila) as (v & _ & _ & Hb).
    assert (Hlen : length ticks = Z.to_nat (Fila.ticks_por_vela fila))
      by (apply generar_length; exact Hfila).
    split; [lia|].
    set (self1 := cargar_vela normal randint self).
    assert (Hself1 : self1 = mk (datos_velas self) spread [] 0 (Some ticks) 0)
      by reflexivity.
    destruct (lookup_lt_is_Some_2 ticks 0 ltac:(lia)) as [t0 Ht0].
    assert (Hs0 : siguiente self = (Some t0, entregar t0 self1)).
    { apply siguiente_entrega; [simpl; lia|].
      fold self1. rewrite Hself1. simpl. exact Ht0. }
    destruct (pedir_resto (length ticks - 1) (entregar t0 self1) ticks 1)
      as (H1 & H2 & H3 & H4 & H5);
      try (rewrite Hself1; reflexivity); try (simpl; lia); try lia.
    set (self2 := snd (pedir normal randint (length ticks - 1) (entregar t0 self1))) in *.
    assert (Hc2 : cargar_vela normal randint self2 = self2).
    { unfold cargar_vela. rewrite H2.
      destruct ticks; [simpl in Hlen; lia | reflexivity]. }
    assert (Hs2 : siguiente self2 = (None, pasar_vela self2)).
    { rewrite siguiente_pasa.
      - rewrite Hc2. apply siguiente_agotado. simpl. rewrite H4, H5. simpl. lia.
      - rewrite H4, H5. simpl. lia.
      - rewrite Hc2, H2, H3. simpl. apply lookup_ge_None_2. lia. }
    assert (Hs3 : siguiente (pasar_vela self2) = (None, pasar_vela self2)).
    { apply siguiente_agotado. simpl. rewrite H4, H5. simpl. lia. }
    replace (length ticks + 2)%nat with (1 + ((length ticks - 1) + 2))%nat by lia.
    rewrite pedir_app. cbn [pedir fst snd]. rewrite Hs0. cbn [fst snd].
    rewrite pedir_app, H1. fold self2. cbn [pedir fst snd].
    rewrite Hs2. cbn [fst snd]. rewrite Hs3. cbn [fst snd].
    rewrite <- (drop_0 ticks) at 2. rewrite (drop_S _ _ _ Ht0).
    rewrite fmap_cons. reflexivity.
Qed.

End Ticks.

(** C6 on a candle whose noise pushes every price above the high: the
    ticks stay inside the candle. *)
Lemma generar_ticks_en_rango_vela1 :
  Forall
    (fun tick =>
       Vela.bajo Escenario.vela1 <= Tick.bid tick /\
       Tick.bid tick <= Vela.alto Escenario.vela1 /\
       Tick.ask tick = Tick.bid tick + 0.0002)
    (TickSimulator.generar_ticks_para_vela (fun _ _ => 0.001) (fun _ _ => 1%Z)
       (TickSimulator.__init__ [Escenario.vela1] 0.0002) 0).
Proof.
  apply Forall_forall. intros tick Hin.
  assert (Hinv : Vela.invariante Escenario.vela1).
  { unfold Vela.invariante. simpl. repeat split; discriminate. }
  exact (generar_ticks_en_rango (fun _ _ => 0.001) (fun _ _ => 1%Z)
           (TickSimulator.__init__ [Escenario.vela1] 0.0002) 0%nat
           (Fila.mk Escenario.vela1 _ _ _) tick eq_refl Hinv Hin).
Defined.

(** C7 on the set of one candle of range 10 pips: 10 ticks. *)
Lemma ticks_por_vela_acotados_vela1 :
  exists fila,
    TickSimulator._preparar_datos [Escenario.vela1] !! 0%nat = Some fila /\
    (5 <= Fila.ticks_por_vela fila <= 100)%Z /\
    length
      (TickSimulator.generar_ticks_para_vela (fun _ _ => 0) (fun _ _ => 1%Z)
         (TickSimulator.__init__ [Escenario.vela1] 0.0002) 0)
    = Z.to_nat (Fila.ticks_por_vela fila).
Proof.
  eexists. split; [reflexivity|].
  destruct (proj1 (ticks_por_vela_acotados (fun _ _ => 0) (fun _ _ => 1%Z))
              [Escenario.vela1] 0.0002 0%nat _ eq_refl) as (H1 & H2 & _).
  split; [exact H1 | exact H2].
Defined.

(** ** The equity of the broker *)

Section Equity.

Import BrokerSimulado.

(** [obtener_posiciones_abiertas] raises and leaves the broker as it was
    when a position is open; with none it returns the empty copy and sets
    the equity to the balance plus an empty sum.  Either way only the
    equity can differ afterwards. *)
Lemma obtener_posiciones_estado self :
  let r := obtener_posiciones_abiertas self in
  objetos (snd r) = objetos self /\
  posiciones (snd r) = posiciones self /\
  ordenes_pendientes (snd r) = ordenes_pendientes self /\
  historial (snd r) = historial self /\
  balance (snd r) = balance self /\
  spread (snd r) = spread self /\
  (posiciones self <> [] -> r = (inl (NameError "np"), self)) /\
  (posiciones self = [] ->
   fst r = inr [] /\ equity (snd r) == balance self).
Proof.
  unfold obtener_posiciones_abiertas, posiciones_abiertas.
  destruct (posiciones self) as [|ref refs] eqn:E; cbn [fst snd].
  - cbn [objetos posiciones ordenes_pendientes historial balance spread equity].
    repeat split; try reflexivity; try congruence.
    cbn. unfold py_sum. cbn. ring.
  - repeat split; try reflexivity; try congruence; discriminate.
Qed.

(** [colocar_orden] and [cerrar_orden] set the equity to the balance. *)
Lemma colocar_orden_equity self orden :
  Orden.tipo_orden orden = "market" ->
  equity (snd (colocar_orden self orden)) = balance (snd (colocar_orden self orden)).
Proof. intros H. unfold colocar_orden. rewrite H. reflexivity. Qed.

Lemma cerrar_orden_equity self ticket volumen :
  ResultadoOrden.exito (fst (cerrar_orden self ticket volumen)) = true ->
  equity (snd (cerrar_orden self ticket volumen))
  = balance (snd (cerrar_orden self ticket volumen)).
Proof.
  unfold cerrar_orden.
  destruct (buscar _ _ _ _) as [[i p]|]; simpl; [reflexivity | discriminate].
Qed.

(** X8.  In every state reached from a new broker, equity and balance
    agree when no position is open. *)
Lemma equity_sin_posiciones capital comision spread_promedio lls :
  let b := llamadas lls (__init__ capital comision spread_promedio) in
  posiciones b = [] -> equity b == balance b.
Proof.
  unfold llamadas.
  assert (H0 : posiciones (__init__ capital comision spread_promedio) = [] ->
               equity (__init__ capital comision spread_promedio)
               == balance (__init__ capital comision spread_promedio))
    by (intros _; simpl; reflexivity).
  revert H0. generalize (__init__ capital comision spread_promedio) as b.
  induction lls as [|ll lls IH]; intros b Hb; simpl; [exact Hb|].
  apply IH. destruct ll as [campos|ticket volumen| |]; simpl.
  - unfold colocar_orden_nueva.
    destruct (Orden.__init__ campos) as [e|orden]; simpl; [exact Hb|].
    unfold colocar_orden.
    destruct (String.eqb (Orden.tipo_orden orden) "market"); simpl.
    + intros _. reflexivity.
    + exact Hb.
  - unfold cerrar_orden.
    destruct (buscar _ _ _ _) as [[i p]|]; simpl; [|exact Hb].
    intros _. reflexivity.
  - destruct (obtener_posiciones_estado b) as (_ & Hp & _ & _ & Hbal & _ & _ & H0).
    cbv zeta in Hp, Hbal, H0. rewrite Hp, Hbal. intros Hv.
    exact (proj2 (H0 Hv)).
  - exact Hb.
Qed.

End Equity.

(** ** Tickets *)

Section Tickets.

Import BrokerSimulado.

(** The state after a market order. *)
Lemma colocar_orden_estado self orden :
  Orden.tipo_orden orden = "market" ->
  exists posicion,
    Posicion.ticket posicion = (Z.of_nat (length (historial self)) + 1000)%Z /\
    snd (colocar_orden self orden) =
      mk (<[fresh (dom (objetos self)) := posicion]> (objetos self))
         (posiciones self ++ [fresh (dom (objetos self))])
         (ordenes_pendientes self) (historial self)
         (balance self - Orden.volumen orden * comision_por_lote self)
         (balance self - Orden.volumen orden * comision_por_lote self)
         (comision_por_lote self) (spread self).
Proof.
  intros H. unfold colocar_orden. rewrite H. simpl.
  eexists. split; [|reflexivity]. reflexivity.
Qed.

(** Two market orders in a row open two dicts, at different references,
    with one ticket. *)
Lemma dos_ordenes_mismo_ticket self o1 o2 :
  Orden.tipo_orden o1 = "market" ->
  Orden.tipo_orden o2 = "market" ->
  let b2 := snd (colocar_orden (snd (colocar_orden self o1)) o2) in
  exists ref1 ref2 p q,
    ref1 <> ref2 /\
    posiciones b2 = posiciones self ++ [ref1; ref2] /\
    leer b2 ref1 = Some p /\ leer b2 ref2 = Some q /\
    Posicion.ticket p = Posicion.ticket q.
Proof.
  intros H1 H2.
  destruct (colocar_orden_estado self o1 H1) as (p & Hp & E1).
  destruct (colocar_orden_estado (snd (colocar_orden self o1)) o2 H2)
    as (q & Hq & E2).
  simpl. rewrite E2, E1. cbn [objetos posiciones historial] in *.
  rewrite E1 in Hq. cbn [historial] in Hq.
  set (ref1 := fresh (dom (objetos self))).
  set (ref2 := fresh (dom (<[ref1 := p]> (objetos self)))).
  assert (Hne : ref1 <> ref2).
  { intros Heq.
    assert (Hin : ref1 ∈ dom (<[ref1 := p]> (objetos self))).
    { apply elem_of_dom. rewrite lookup_insert_eq. eauto. }
    rewrite Heq in Hin at 1. exact (is_fresh _ Hin). }
  exists ref1, ref2, p, q. split; [exact Hne|].
  split; [now rewrite <- (assoc_L (++))|].
  unfold leer. cbn [objetos].
  split; [rewrite lookup_insert_ne by congruence; apply lookup_insert_eq|].
  split; [apply lookup_insert_eq | congruence].
Qed.

(** C4 fails on the code.  The ticket is [len(self.historial) + 1000] and
    [colocar_orden] does not touch [historial]: two orders placed with no
    close in between get the same ticket, so two open positions held at
    the same time share it.  On the test configuration both are 1000. *)
Theorem tickets_repetidos :
  (forall self o1 o2,
     ResultadoOrden.ticket (fst (colocar_orden (snd (colocar_orden self o1)) o2))
     = ResultadoOrden.ticket (fst (colocar_orden self o1)))
  /\
  (posiciones Escenario.broker2 = [0%nat; 1%nat] /\
   exists p q,
     leer Escenario.broker2 0 = Some p /\
     leer Escenario.broker2 1 = Some q /\
     Posicion.ticket p = 1000%Z /\ Posicion.ticket q = 1000%Z /\
     Posicion.stop_loss p <> Posicion.stop_loss q).
Proof.
  split.
  - intros self o1 o2. unfold colocar_orden.
    destruct (String.eqb (Orden.tipo_orden o1) "market");
      destruct (String.eqb (Orden.tipo_orden o2) "market"); reflexivity.
  - split; [reflexivity|].
    eexists. eexists. repeat split; discriminate.
Qed.

End Tickets.

(** ** Stop loss and take profit *)

Section StopLossTakeProfit.

Import BrokerSimulado BacktestEngine.

(** With a level missing, [_verificar_sl_tp] returns at once. *)
Lemma verificar_sl_tp_sin_niveles broker posicion tick :
  Posicion.stop_loss posicion = None \/ Posicion.take_profit posicion = None ->
  _verificar_sl_tp broker posicion tick = broker.
Proof.
  unfold _verificar_sl_tp. intros [H | H]; rewrite H; [reflexivity|].
  destruct (Posicion.stop_loss posicion); reflexivity.
Qed.

(** With both levels set, [_verificar_sl_tp] calls
    [cerrar_orden(posicion['ticket'])] once when the stop or else the
    target is reached, and not at all otherwise. *)
Lemma verificar_sl_tp_compra broker posicion tick sl tp :
  Posicion.stop_loss posicion = Some sl ->
  Posicion.take_profit posicion = Some tp ->
  Posicion.tipo posicion = "COMPRA" ->
  (Tick.last tick <= sl \/ tp <= Tick.last tick ->
   _verificar_sl_tp broker posicion tick
   = snd (cerrar_orden broker (Posicion.ticket posicion) None)) /\
  (sl < Tick.last tick /\ Tick.last tick < tp ->
   _verificar_sl_tp broker posicion tick = broker).
Proof.
  intros Hsl Htp Ht. unfold _verificar_sl_tp. rewrite Hsl, Htp, Ht. simpl.
  destruct (Qle_bool (Tick.last tick) sl) eqn:E1;
    destruct (Qle_bool tp (Tick.last tick)) eqn:E2; split; intros H;
    try reflexivity.
  - destruct H as [H1 H2]. apply Qle_bool_iff in E1.
    exfalso. exact (Qlt_not_le _ _ H1 E1).
  - destruct H as [H1 H2]. apply Qle_bool_iff in E1.
    exfalso. exact (Qlt_not_le _ _ H1 E1).
  - destruct H as [H1 H2]. apply Qle_bool_iff in E2.
    exfalso. exact (Qlt_not_le _ _ H2 E2).
  - destruct H as [H | H]; apply Qle_bool_iff in H; congruence.
Qed.

Lemma verificar_sl_tp_venta broker posicion tick sl tp :
  Posicion.stop_loss posicion = Some sl ->
  Posicion.take_profit posicion = Some tp ->
  Posicion.tipo posicion = "VENTA" ->
  (sl <= Tick.last tick \/ Tick.last tick <= tp ->
   _verificar_sl_tp broker posicion tick
   = snd (cerrar_orden broker (Posicion.ticket posicion) None)) /\
  (Tick.last tick < sl /\ tp < Tick.last tick ->
   _verificar_sl_tp broker posicion tick = broker).
Proof.
  intros Hsl Htp Ht. unfold _verificar_sl_tp. rewrite Hsl, Htp, Ht. simpl.
  destruct (Qle_bool sl (Tick.last tick)) eqn:E1;
    destruct (Qle_bool (Tick.last tick) tp) eqn:E2; split; intros H;
    try reflexivity.
  - destruct H as [H1 H2]. apply Qle_bool_iff in E1.
    exfalso. exact (Qlt_not_le _ _ H1 E1).
  - destruct H as [H1 H2]. apply Qle_bool_iff in E1.
    exfalso. exact (Qlt_not_le _ _ H1 E1).
  - destruct H as [H1 H2]. apply Qle_bool_iff in E2.
    exfalso. exact (Qlt_not_le _ _ H2 E2).
  - destruct H as [H | H]; apply Qle_bool_iff in H; congruence.
Qed.

(** When the position handled is the first of the list that carries its
    ticket (as it is when tickets are unique) and its stop or target is
    reached, the turn of the loop closes that position. *)
Lemma actualizar_una_cierra_la_suya tick broker pre ref post p sl tp :
  posiciones broker = pre ++ ref :: post ->
  sin_ticket (objetos broker) (Posicion.ticket p) pre ->
  leer broker ref = Some p ->
  Some (Posicion.simbolo p) = Tick.simbolo tick ->
  Posicion.tipo p = "COMPRA" ->
  Posicion.stop_loss p = Some sl ->
  Posicion.take_profit p = Some tp ->
  Tick.last tick <= sl \/ tp <= Tick.last tick ->
  posiciones (actualizar_una tick broker ref) = pre ++ post.
Proof.
  intros Hpos Hpre Href Hsim Ht Hsl Htp Hcond.
  unfold actualizar_una. rewrite Href.
  rewrite (bool_decide_eq_true_2 _ Hsim).
  set (p' := Posicion.set_precio_actual (Tick.last tick) p).
  rewrite (proj1 (verificar_sl_tp_compra (escribir ref p' broker) p' tick sl tp
                    Hsl Htp Ht) Hcond).
  assert (Hpre' : sin_ticket (objetos (escribir ref p' broker))
                    (Posicion.ticket p') pre).
  { intros r q Hin Hq. simpl in Hq.
    destruct (decide (r = ref)) as [->|Hne].
    - exfalso. exact (Hpre ref p Hin Href eq_refl).
    - rewrite lookup_insert_ne in Hq by congruence.
      exact (Hpre r q Hin Hq). }
  rewrite (cerrar_orden_encontrada (escribir ref p' broker) _ None pre ref post p'
             Hpos Hpre' (lookup_insert_eq _ _ _) eq_refl).
  reflexivity.
Qed.

(** With a position open the tick never reaches the positions: the
    [NameError] of [obtener_posiciones_abiertas] leaves
    [_actualizar_precios_posiciones] before its loop, and the broker is as
    it was. *)
Lemma actualizar_precios_con_posiciones broker tick :
  posiciones broker <> [] ->
  _actualizar_precios_posiciones broker tick = (inl (NameError "np"), broker).
Proof.
  intros H. unfold _actualizar_precios_posiciones, obtener_posiciones_abiertas.
  destruct (posiciones broker); [contradiction | reflexivity].
Qed.

(** With no position open the loop has nothing to handle. *)
Lemma actualizar_precios_sin_posiciones broker tick :
  posiciones broker = [] ->
  _actualizar_precios_posiciones broker tick
  = (inr tt, snd (obtener_posiciones_abiertas broker)).
Proof.
  intros H. unfold _actualizar_precios_posiciones, obtener_posiciones_abiertas.
  rewrite H. reflexivity.
Qed.

(** C5 fails on the code.  The broker holds one BUY of EURUSD with stop
    1.0990 and target 1.1100; the tick is of that symbol at 1.0980, at or
    below the stop.  [_verificar_sl_tp] called on that position would close
    it, but [_actualizar_precios_posiciones] never gets there: it starts
    with [obtener_posiciones_abiertas], which raises [NameError] as soon
    as a position is open.  After the tick the position is still open, no
    trade is in the ledger and the price of the position was not
    updated; and so it is for every tick, with a symbol or without. *)
Theorem sl_tp_no_se_alcanza :
  let b := Escenario.broker_con_niveles in
  let r := _actualizar_precios_posiciones b Escenario.tick_10980 in
  posiciones b = [0%nat] /\
  (exists p,
     leer b 0 = Some p /\
     Some (Posicion.simbolo p) = Tick.simbolo Escenario.tick_10980 /\
     Posicion.tipo p = "COMPRA" /\
     Posicion.stop_loss p = Some 1.0990 /\
     Posicion.take_profit p = Some 1.1100 /\
     Tick.last Escenario.tick_10980 <= 1.0990 /\
     posiciones (_verificar_sl_tp b p Escenario.tick_10980) = [] /\
     leer (snd r) 0 = Some p) /\
  fst r = inl (NameError "np") /\
  posiciones (snd r) = [0%nat] /\
  historial (snd r) = [] /\
  (forall tick, _actualizar_precios_posiciones b tick = (inl (NameError "np"), b)).
Proof.
  cbv zeta.
  rewrite (actualizar_precios_con_posiciones Escenario.broker_con_niveles
             Escenario.tick_10980 ltac:(discriminate)).
  cbn [fst snd].
  split; [reflexivity|]. split.
  - eexists. split; [reflexivity|].
    repeat split; try reflexivity; try discriminate.
  - split; [reflexivity|]. split; [reflexivity|]. split; [reflexivity|].
    intros tick. apply actualizar_precios_con_posiciones. discriminate.
Qed.

End StopLossTakeProfit.

(** ** Metrics *)

Section MetricasVacias.

Import BacktestEngine.

Variable sqrt : Q -> Q.

(** C9.  With no trade in the ledger the metrics are computed without an
    exception and are the defaults: no trades, win rate, total result,
    maximum drawdown, Sharpe ratio and expectancy all 0. *)
Theorem calcular_metricas_sin_operaciones :
  forall capital_inicial res,
    operaciones res = [] ->
    let res' := _calcular_metricas sqrt capital_inicial res in
    calcular_metricas_try sqrt capital_inicial res = inr res' /\
    (exists m,
       metricas res' = Some m /\
       total_operaciones m = 0%nat /\
       operaciones_ganadoras m = 0%nat /\
       operaciones_perdedoras m = 0%nat /\
       win_rate m = 0 /\
       beneficio_total m = 0 /\
       drawdown_maximo m = 0 /\
       sharpe_ratio m = 0 /\
       expectancy m = 0) /\
    operaciones res' = [] /\
    equity_curve res' = equity_curve res /\
    drawdowns res' = drawdowns res.
Proof.
  intros capital_inicial res Hops res'. subst res'.
  unfold _calcular_metricas, calcular_metricas_try. rewrite Hops. simpl.
  split; [reflexivity|]. split; [|repeat split].
  eexists. repeat split.
Qed.

End MetricasVacias.

(** C9 on a run that sampled two equity points and made no trade, with
    zero initial capital: the division by the capital is not reached. *)
Lemma calcular_metricas_sin_operaciones_capital_cero :
  exists m,
    BacktestEngine.metricas
      (BacktestEngine._calcular_metricas (fun x => x) 0
         (BacktestEngine.mkResultados [] None
            [BacktestEngine.mkPunto 0 10000 10000;
             BacktestEngine.mkPunto 60 10000 10000]
            []))
    = Some m /\
    BacktestEngine.total_operaciones m = 0%nat /\
    BacktestEngine.win_rate m = 0 /\
    BacktestEngine.beneficio_total m = 0 /\
    BacktestEngine.drawdown_maximo m = 0 /\
    BacktestEngine.sharpe_ratio m = 0 /\
    BacktestEngine.expectancy m = 0.
Proof.
  destruct (calcular_metricas_sin_operaciones (fun x => x) 0
              (BacktestEngine.mkResultados [] None
                 [BacktestEngine.mkPunto 0 10000 10000;
                  BacktestEngine.mkPunto 60 10000 10000]
                 []) eq_refl)
    as (_ & (m & Hm & Ht & _ & _ & Hw & Hb & Hd & Hs & He) & _).
  exists m. repeat split; assumption.
Defined.

(** * Further properties of the code *)

(** ** Sums *)

Lemma fold_Qplus_desde (l : list Q) (a : Q) :
  fold_left Qplus l a == a + py_sum l.
Proof.
  unfold py_sum. revert a. induction l as [|x l IH]; intros a; simpl.
  - ring.
  - rewrite (IH (a + x)), (IH (0 + x)). ring.
Qed.

Lemma py_sum_cons (x : Q) (l : list Q) : py_sum (x :: l) == x + py_sum l.
Proof.
  unfold py_sum at 1. simpl. rewrite fold_Qplus_desde. ring.
Qed.

Lemma py_sum_perm (l l' : list Q) : l ≡ₚ l' -> py_sum l == py_sum l'.
Proof.
  induction 1 as [|x l l' _ IH|x y l|l l' l'' _ IH1 _ IH2].
  - reflexivity.
  - rewrite !py_sum_cons, IH. reflexivity.
  - rewrite !py_sum_cons. ring.
  - now rewrite IH1.
Qed.

(** ** [modificar_orden], [cerrar] and sequences of broker calls *)

Section BrokerMas.

Import BrokerSimulado.

Lemma buscar_posicion_primero objs ticket pre ref post p :
  sin_ticket objs ticket pre ->
  objs !! ref = Some p ->
  Posicion.ticket p = ticket ->
  buscar_posicion objs ticket (pre ++ ref :: post) = Some (ref, p).
Proof.
  induction pre as [|r pre IH]; intros Hpre Href Ht; simpl.
  - rewrite Href. now rewrite (proj2 (Z.eqb_eq _ _) Ht).
  - assert (Hrest : sin_ticket objs ticket pre).
    { intros r' q Hin. apply Hpre. apply elem_of_cons; now right. }
    destruct (objs !! r) as [q|] eqn:Er; [|now apply IH].
    assert (Hq : Posicion.ticket q <> ticket).
    { apply (Hpre r q); [apply elem_of_cons; now left | exact Er]. }
    apply Z.eqb_neq in Hq. rewrite Hq. now apply IH.
Qed.

Lemma buscar_posicion_none objs ticket refs :
  sin_ticket objs ticket refs -> buscar_posicion objs ticket refs = None.
Proof.
  induction refs as [|r refs IH]; intros H; simpl; [reflexivity|].
  assert (Hrest : sin_ticket objs ticket refs).
  { intros r' q Hin. apply H. apply elem_of_cons; now right. }
  destruct (objs !! r) as [q|] eqn:Er; [|now apply IH].
  assert (Hq : Posicion.ticket q <> ticket).
  { apply (H r q); [apply elem_of_cons; now left | exact Er]. }
  apply Z.eqb_neq in Hq. rewrite Hq. now apply IH.
Qed.

Lemma modificar_pendiente_none ticket cambios ordenes :
  Forall (fun o => OrdenPendiente.ticket o <> ticket) ordenes ->
  modificar_pendiente ticket cambios ordenes = None.
Proof.
  induction 1 as [|o l Ho _ IH]; simpl; [reflexivity|].
  apply Z.eqb_neq in Ho. rewrite Ho, IH. reflexivity.
Qed.

(** Among the open positions either one is the first to carry the ticket,
    or none carries it. *)
Lemma primera_con_ticket objs ticket refs :
  sin_ticket objs ticket refs \/
  exists pre ref post p,
    refs = pre ++ ref :: post /\ sin_ticket objs ticket pre /\
    objs !! ref = Some p /\ Posicion.ticket p = ticket.
Proof.
  induction refs as [|r refs IH].
  - left. intros r q Hin. apply elem_of_nil in Hin. destruct Hin.
  - destruct (objs !! r) as [q|] eqn:Er.
    + destruct (Z.eq_dec (Posicion.ticket q) ticket) as [Heq|Hne].
      * right. exists [], r, refs, q. repeat split; try assumption.
        intros r' q' Hin. apply elem_of_nil in Hin. destruct Hin.
      * destruct IH as [Hsin | (pre & ref & post & p & -> & Hpre & Href & Ht)].
        -- left. intros r' q' Hin Hq'. apply elem_of_cons in Hin.
           destruct Hin as [-> | Hin]; [congruence | exact (Hsin r' q' Hin Hq')].
        -- right. exists (r :: pre), ref, post, p. repeat split; try assumption.
           intros r' q' Hin Hq'. apply elem_of_cons in Hin.
           destruct Hin as [-> | Hin]; [congruence | exact (Hpre r' q' Hin Hq')].
    + destruct IH as [Hsin | (pre & ref & post & p & -> & Hpre & Href & Ht)].
      * left. intros r' q' Hin Hq'. apply elem_of_cons in Hin.
        destruct Hin as [-> | Hin]; [congruence | exact (Hsin r' q' Hin Hq')].
      * right. exists (r :: pre), ref, post, p. repeat split; try assumption.
        intros r' q' Hin Hq'. apply elem_of_cons in Hin.
        destruct Hin as [-> | Hin]; [congruence | exact (Hpre r' q' Hin Hq')].
Qed.

(** X1.  A ticket that no open position and no pending order carries:
    [modificar_orden] and [cerrar_orden] report failure and leave the
    broker as it was. *)
Theorem ticket_desconocido self ticket cambios volumen :
  sin_ticket (objetos self) ticket (posiciones self) ->
  Forall (fun o => OrdenPendiente.ticket o <> ticket) (ordenes_pendientes self) ->
  modificar_orden self ticket cambios
  = (mkModificar false None (OrdenNoEncontrada ticket), self) /\
  cerrar_orden self ticket volumen
  = (ResultadoOrden.mk false None None None (PosicionNoEncontrada ticket), self).
Proof.
  intros Hpos Hpen. split.
  - unfold modificar_orden.
    now rewrite (buscar_posicion_none _ _ _ Hpos),
      (modificar_pendiente_none _ _ _ Hpen).
  - unfold cerrar_orden. now rewrite (buscar_none _ _ _ 0%nat Hpos).
Qed.

(** X2.  [modificar_orden(ticket, {'stop_loss': sl, 'take_profit': tp})]
    succeeds on the first open position that carries the ticket: that dict
    gets the two levels and keeps every other field; no other dict, no
    list (the pending orders included, even one with the same ticket),
    neither balance nor equity changes. *)
Theorem modificar_orden_niveles self ticket sl tp pre ref post p :
  posiciones self = pre ++ ref :: post ->
  sin_ticket (objetos self) ticket pre ->
  objetos self !! ref = Some p ->
  Posicion.ticket p = ticket ->
  let r := modificar_orden self ticket [CStopLoss sl; CTakeProfit tp] in
  rm_exito (fst r) = true /\
  rm_ticket (fst r) = Some ticket /\
  objetos (snd r) !! ref =
    Some (Posicion.mk (Posicion.ticket p) (Posicion.simbolo p) (Posicion.tipo p)
            (Posicion.volumen p) (Posicion.precio_apertura p)
            (Posicion.precio_actual p) sl tp (Posicion.comision p)
            (Posicion.swap p) (Posicion.beneficio p) (Posicion.comentario p)
            (Posicion.magic p) (Posicion.estado p)) /\
  (forall ref', ref' <> ref -> objetos (snd r) !! ref' = objetos self !! ref') /\
  posiciones (snd r) = posiciones self /\
  ordenes_pendientes (snd r) = ordenes_pendientes self /\
  historial (snd r) = historial self /\
  balance (snd r) = balance self /\
  equity (snd r) = equity self.
Proof.
  intros Hpos Hpre Href Ht r. subst r. unfold modificar_orden.
  rewrite Hpos, (buscar_posicion_primero _ _ _ _ _ _ Hpre Href Ht).
  destruct p. simpl. rewrite lookup_insert_eq.
  repeat split; try reflexivity; try exact Hpos.
  intros ref' Hne. rewrite lookup_insert_ne by congruence. reflexivity.
Qed.

(** X3.  Keys that a position dict does not have are skipped: a call of
    [modificar_orden] whose [cambios] hold only such keys succeeds and
    leaves the broker as it was. *)
Theorem modificar_orden_claves_ajenas self ticket cambios pre ref post p :
  posiciones self = pre ++ ref :: post ->
  sin_ticket (objetos self) ticket pre ->
  objetos self !! ref = Some p ->
  Posicion.ticket p = ticket ->
  Forall (fun c => match c with
                   | CPrecio _ | CTipoOrden _ | COtra _ => True
                   | _ => False
                   end) cambios ->
  modificar_orden self ticket cambios
  = (mkModificar true (Some ticket) PosicionModificada, self).
Proof.
  intros Hpos Hpre Href Ht Hc. unfold modificar_orden.
  rewrite Hpos, (buscar_posicion_primero _ _ _ _ _ _ Hpre Href Ht).
  assert (Hp : fold_left cambiar_posicion cambios p = p).
  { clear -Hc. induction Hc as [|c l Hc _ IH]; simpl; [reflexivity|].
    destruct p; destruct c; try contradiction; exact IH. }
  rewrite Hp. unfold escribir. rewrite (insert_id _ _ _ Href).
  destruct self; reflexivity.
Qed.

End BrokerMas.

(** ** [cerrar]: closing every open position *)

Section CerrarTodas.

Import BrokerSimulado.

Lemma beneficio_neto_spread b b' q :
  spread b' = spread b -> beneficio_neto b' q = beneficio_neto b q.
Proof.
  intros H. unfold beneficio_neto, beneficio_bruto, precio_cierre_de.
  now rewrite H.
Qed.

Lemma abiertas_objetos b b' (refs : list nat) :
  objetos b' = objetos b -> omap (leer b') refs = omap (leer b) refs.
Proof.
  intros H. unfold leer. now rewrite H.
Qed.

(** One call of [cerrar_orden] with a ticket that some open position
    carries. *)
Lemma cerrar_orden_paso b ticket volumen :
  ticket ∈ map Posicion.ticket (posiciones_abiertas b) ->
  exists q pre ref post,
    Posicion.ticket q = ticket /\
    posiciones b = pre ++ ref :: post /\
    posiciones (snd (cerrar_orden b ticket volumen)) = pre ++ post /\
    objetos (snd (cerrar_orden b ticket volumen)) = objetos b /\
    spread (snd (cerrar_orden b ticket volumen)) = spread b /\
    posiciones_abiertas b
      ≡ₚ q :: posiciones_abiertas (snd (cerrar_orden b ticket volumen)) /\
    balance (snd (cerrar_orden b ticket volumen))
      = balance b + beneficio_neto b q /\
    equity (snd (cerrar_orden b ticket volumen))
      = balance (snd (cerrar_orden b ticket volumen)) /\
    length (historial (snd (cerrar_orden b ticket volumen)))
      = S (length (historial b)).
Proof.
  intros Hin.
  destruct (primera_con_ticket (objetos b) ticket (posiciones b))
    as [Hsin | (pre & ref & post & q & Hpos & Hpre & Href & Ht)].
  - exfalso. apply list_elem_of_fmap in Hin. destruct Hin as (q & Hq & Hin).
    unfold posiciones_abiertas in Hin. apply list_elem_of_omap in Hin.
    destruct Hin as (r & Hr & Hl). exact (Hsin r q Hr Hl (eq_sym Hq)).
  - exists q, pre, ref, post.
    rewrite (cerrar_orden_encontrada b ticket volumen pre ref post q
               Hpos Hpre Href Ht).
    cbn [snd posiciones objetos spread balance equity historial].
    repeat split; try assumption.
    + unfold posiciones_abiertas. cbn [posiciones].
      rewrite (abiertas_objetos b _ (pre ++ post)) by reflexivity.
      rewrite Hpos, !omap_app. cbn [omap list_omap].
      unfold leer at 2. rewrite Href.
      symmetry. apply Permutation_middle.
    + rewrite length_app. simpl. lia.
Qed.

Lemma cerrar_bucle ps : forall b,
  map Posicion.ticket (posiciones_abiertas b) ≡ₚ map Posicion.ticket ps ->
  let b' :=
    fold_left (fun b p => snd (cerrar_orden b (Posicion.ticket p) None)) ps b in
  posiciones_abiertas b' = [] /\
  objetos b' = objetos b /\
  (forall ref, ref ∈ posiciones b' -> ref ∈ posiciones b) /\
  length (historial b') = (length (historial b) + length ps)%nat /\
  balance b'
    == balance b + py_sum (map (beneficio_neto b) (posiciones_abiertas b)) /\
  (ps <> [] -> equity b' = balance b').
Proof.
  induction ps as [|p ps IH]; intros b Hperm; cbn [fold_left].
  - simpl in Hperm. apply Permutation_nil_r in Hperm.
    apply fmap_nil_inv in Hperm. rewrite Hperm. simpl.
    repeat split; try tauto; try lia.
    unfold py_sum. simpl. ring.
  - assert (Hin : Posicion.ticket p ∈ map Posicion.ticket (posiciones_abiertas b)).
    { rewrite Hperm. simpl. apply elem_of_cons. now left. }
    destruct (cerrar_orden_paso b (Posicion.ticket p) None Hin)
      as (q & pre & ref & post & Hq & Hpos & Hpos' & Hobj & Hspr & Hpq & Hbal
          & Heq & Hlen).
    set (b1 := snd (cerrar_orden b (Posicion.ticket p) None)) in *.
    assert (Hperm1 : map Posicion.ticket (posiciones_abiertas b1)
                     ≡ₚ map Posicion.ticket ps).
    { apply (Permutation_cons_inv (a := Posicion.ticket p)).
      rewrite <- Hq at 1.
      change (map Posicion.ticket (q :: posiciones_abiertas b1)
              ≡ₚ map Posicion.ticket (p :: ps)).
      rewrite <- Hpq. exact Hperm. }
    destruct (IH b1 Hperm1) as (H1 & H2 & H3 & H4 & H5 & H6).
    split; [exact H1|]. split; [congruence|].
    split.
    { intros r Hr. apply H3 in Hr. rewrite Hpos' in Hr. rewrite Hpos.
      apply elem_of_app in Hr. apply elem_of_app.
      destruct Hr as [Hr|Hr]; [now left | right; apply elem_of_cons; now right]. }
    split; [rewrite H4, Hlen; simpl; lia|].
    split.
    + rewrite H5, Hbal.
      rewrite (py_sum_perm _ _ (Permutation_map (beneficio_neto b) Hpq)).
      change (map (beneficio_neto b) (q :: posiciones_abiertas b1))
        with (beneficio_neto b q :: map (beneficio_neto b) (posiciones_abiertas b1)).
      rewrite py_sum_cons.
      assert (Hf : map (beneficio_neto b1) (posiciones_abiertas b1)
                   = map (beneficio_neto b) (posiciones_abiertas b1)).
      { apply map_ext. intros x. now apply beneficio_neto_spread. }
      rewrite Hf. ring.
    + intros _. destruct ps as [|p' ps'].
      * simpl. exact Heq.
      * apply H6. discriminate.
Qed.

(** X4.  [cerrar] closes every open position, also when positions share a
    ticket: the open list ends empty, [historial] grows by the number of
    positions that were open, the balance moves by the sum of their net
    results, and the equity equals the balance afterwards. *)
Theorem cerrar_cierra_todas self :
  bien_formado self ->
  posiciones (cerrar self) = [] /\
  length (historial (cerrar self))
    = (length (historial self) + length (posiciones self))%nat /\
  balance (cerrar self)
    == balance self
       + py_sum (map (beneficio_neto self) (posiciones_abiertas self)) /\
  (posiciones self <> [] -> equity (cerrar self) = balance (cerrar self)).
Proof.
  intros [_ Hvivas]. unfold cerrar.
  destruct (cerrar_bucle (posiciones_abiertas self) self (reflexivity _))
    as (H1 & H2 & H3 & H4 & H5 & H6).
  cbv zeta in H1, H2, H3, H4, H5, H6.
  set (b' := fold_left
               (fun b p => snd (cerrar_orden b (Posicion.ticket p) None))
               (posiciones_abiertas self) self) in *.
  assert (Hlen : length (posiciones_abiertas self) = length (posiciones self)).
  { unfold posiciones_abiertas. clear -Hvivas.
    induction (posiciones self) as [|r l IH]; [reflexivity|]. simpl.
    destruct (Hvivas r ltac:(apply elem_of_cons; now left)) as [q Hq].
    unfold leer at 1. rewrite Hq. simpl. f_equal. apply IH.
    intros r' Hr'. apply Hvivas. apply elem_of_cons. now right. }
  clearbody b'. split.
  - unfold posiciones_abiertas in H1.
    destruct (posiciones b') as [|r l]; [reflexivity|]. exfalso.
    assert (Hr : r ∈ posiciones self).
    { apply H3. apply elem_of_cons. now left. }
    destruct (Hvivas r Hr) as [q Hq].
    simpl in H1. unfold leer at 1 in H1. rewrite H2, Hq in H1. discriminate.
  - split; [rewrite H4, Hlen; reflexivity|]. split; [exact H5|].
    intros Hne. apply H6. intros Habs.
    rewrite Habs in Hlen. destruct (posiciones self); [contradiction | discriminate].
Qed.

End CerrarTodas.

(** X4 on the broker that holds two positions with one ticket. *)
Lemma cerrar_cierra_todas_broker2 :
  BrokerSimulado.posiciones (BrokerSimulado.cerrar Escenario.broker2) = [] /\
  length (BrokerSimulado.historial (BrokerSimulado.cerrar Escenario.broker2))
  = 2%nat.
Proof.
  assert (Hbf : BrokerSimulado.bien_formado Escenario.broker2).
  { split.
    - change (NoDup [0%nat; 1%nat]). apply NoDup_cons. split.
      + intros H. apply elem_of_cons in H. destruct H as [H|H]; [discriminate|].
        apply elem_of_nil in H. destruct H.
      + apply NoDup_singleton.
    - intros ref Href. change (ref ∈ [0%nat; 1%nat]) in Href.
      apply elem_of_cons in Href. destruct Href as [-> | Href].
      + eexists. reflexivity.
      + apply elem_of_cons in Href. destruct Href as [-> | Href].
        * eexists. reflexivity.
        * apply elem_of_nil in Href. destruct Href. }
  destruct (cerrar_cierra_todas Escenario.broker2 Hbf) as (H1 & H2 & _).
  split; [exact H1 | exact H2].
Defined.

(** ** Runs of broker calls *)

Section Corridas.

Import BrokerSimulado.

Lemma py_sum_snoc (l : list Q) (x : Q) : py_sum (l ++ [x]) == py_sum l + x.
Proof.
  rewrite (py_sum_perm (l ++ [x]) (x :: l)).
  - rewrite py_sum_cons. ring.
  - rewrite Permutation_app_comm. reflexivity.
Qed.

(** The state after a market order, with the commission of the new dict. *)
Lemma colocar_orden_estado_comision self orden :
  Orden.tipo_orden orden = "market" ->
  exists posicion,
    snd (colocar_orden self orden) =
      mk (<[fresh (dom (objetos self)) := posicion]> (objetos self))
         (posiciones self ++ [fresh (dom (objetos self))])
         (ordenes_pendientes self) (historial self)
         (balance self - Orden.volumen orden * comision_por_lote self)
         (balance self - Orden.volumen orden * comision_por_lote self)
         (comision_por_lote self) (spread self) /\
    Posicion.ticket posicion = (Z.of_nat (length (historial self)) + 1000)%Z /\
    Posicion.comision posicion = Orden.volumen orden * comision_por_lote self /\
    Posicion.volumen posicion = Orden.volumen orden /\
    Posicion.precio_actual posicion = Posicion.precio_apertura posicion /\
    Posicion.tipo posicion = Orden.tipo orden.
Proof.
  intros H. unfold colocar_orden. rewrite H. simpl.
  eexists. split; [reflexivity|]. repeat split.
Qed.

Lemma fresco_no_listado self :
  bien_formado self -> fresh (dom (objetos self)) ∉ posiciones self.
Proof.
  intros [_ Hvivas] Hin. apply Hvivas in Hin. apply elem_of_dom in Hin.
  exact (is_fresh _ Hin).
Qed.

Lemma omap_insert_no_listado (objs : gmap nat Posicion.t) ref p (refs : list nat) :
  ref ∉ refs ->
  omap (fun r => <[ref := p]> objs !! r) refs = omap (fun r => objs !! r) refs.
Proof.
  intros Hno. apply list_omap_ext.
  induction refs as [|r l IH]; constructor.
  - rewrite lookup_insert_ne; [destruct (objs !! r); constructor; reflexivity|].
    intros ->. apply Hno. apply elem_of_cons. now left.
  - apply IH. intros Hin. apply Hno. apply elem_of_cons. now right.
Qed.

(** The open dicts after a market order: the old ones and the new one. *)
Lemma colocar_orden_abiertas self orden :
  bien_formado self ->
  Orden.tipo_orden orden = "market" ->
  exists posicion,
    Posicion.comision posicion = Orden.volumen orden * comision_por_lote self /\
    posiciones_abiertas (snd (colocar_orden self orden))
    = posiciones_abiertas self ++ [posicion] /\
    bien_formado (snd (colocar_orden self orden)).
Proof.
  intros Hbf Hm. pose proof (fresco_no_listado self Hbf) as Hfresh.
  destruct Hbf as [Hnd Hvivas].
  destruct (colocar_orden_estado_comision self orden Hm)
    as (pos & E & _ & Hc & _).
  rewrite E. set (ref := fresh (dom (objetos self))) in *.
  exists pos. split; [exact Hc|]. split.
  - unfold posiciones_abiertas, leer. cbn [posiciones objetos].
    rewrite omap_app. cbn [omap list_omap]. rewrite lookup_insert_eq.
    f_equal. now apply omap_insert_no_listado.
  - split; cbn [posiciones objetos].
    + apply NoDup_app. split; [exact Hnd|]. split; [|apply NoDup_singleton].
      intros x Hx Hx'. apply list_elem_of_singleton in Hx'. subst x.
      exact (Hfresh Hx).
    + intros r Hr. apply elem_of_app in Hr. destruct Hr as [Hr|Hr].
      * destruct (decide (r = ref)) as [->|Hne].
        -- rewrite lookup_insert_eq. eauto.
        -- rewrite lookup_insert_ne by congruence. now apply Hvivas.
      * apply list_elem_of_singleton in Hr. subst r.
        rewrite lookup_insert_eq. eauto.
Qed.

End Corridas.

Section Contabilidad.

Import BrokerSimulado.

(** The two outcomes of [cerrar_orden]. *)
Lemma cerrar_orden_casos b ticket volumen :
  snd (cerrar_orden b ticket volumen) = b \/
  exists q precio_cierre,
    posiciones_abiertas b
      ≡ₚ q :: posiciones_abiertas (snd (cerrar_orden b ticket volumen)) /\
    historial (snd (cerrar_orden b ticket volumen))
      = historial b
        ++ [Operacion.mk
              (Posicion.set_estado "cerrada"
                 (Posicion.set_beneficio (beneficio_neto b q) q))
              precio_cierre] /\
    balance (snd (cerrar_orden b ticket volumen))
      = balance b + beneficio_neto b q /\
    ordenes_pendientes (snd (cerrar_orden b ticket volumen))
      = ordenes_pendientes b /\
    (bien_formado b -> bien_formado (snd (cerrar_orden b ticket volumen))).
Proof.
  destruct (primera_con_ticket (objetos b) ticket (posiciones b))
    as [Hsin | (pre & ref & post & q & Hpos & Hpre & Href & Ht)].
  - left. unfold cerrar_orden. now rewrite (buscar_none _ _ _ 0%nat Hsin).
  - right. exists q, (precio_cierre_de b q).
    rewrite (cerrar_orden_encontrada b ticket volumen pre ref post q
               Hpos Hpre Href Ht).
    cbn [snd posiciones objetos balance historial ordenes_pendientes].
    split.
    { unfold posiciones_abiertas, leer. cbn [posiciones objetos].
      rewrite Hpos, !omap_app. cbn [omap list_omap]. rewrite Href.
      symmetry. apply Permutation_middle. }
    split; [reflexivity|]. split; [reflexivity|]. split; [reflexivity|].
    intros [Hnd Hvivas]. rewrite Hpos in Hnd, Hvivas.
    split; cbn [posiciones objetos].
    + apply NoDup_app in Hnd. destruct Hnd as (Hn1 & Hn2 & Hn3).
      apply NoDup_cons in Hn3. destruct Hn3 as [_ Hn3].
      apply NoDup_app. split; [exact Hn1|]. split; [|exact Hn3].
      intros x Hx Hx'. apply (Hn2 x Hx). apply elem_of_cons. now right.
    + intros r Hr. apply Hvivas. apply elem_of_app in Hr. apply elem_of_app.
      destruct Hr as [Hr|Hr]; [now left | right; apply elem_of_cons; now right].
Qed.

(** [obtener_posiciones_abiertas] keeps the open dicts and
    well-formedness. *)
Lemma obtener_posiciones_campos b :
  posiciones_abiertas (snd (obtener_posiciones_abiertas b))
  = posiciones_abiertas b /\
  (bien_formado b -> bien_formado (snd (obtener_posiciones_abiertas b))).
Proof.
  destruct (obtener_posiciones_estado b) as (Ho & Hp & _).
  cbv zeta in Ho, Hp.
  unfold posiciones_abiertas, leer, bien_formado. rewrite Ho, Hp.
  split; [reflexivity | tauto].
Qed.

Lemma llamar_contable K b ll :
  bien_formado b -> contable K b ->
  bien_formado (llamar b ll) /\ contable K (llamar b ll).
Proof.
  intros Hbf Hc. destruct ll as [campos|ticket volumen| |]; cbn [llamar].
  - unfold colocar_orden_nueva.
    destruct (Orden.__init__ campos) as [e|orden]; cbn [snd]; [now split|].
    destruct (String.eqb (Orden.tipo_orden orden) "market") eqn:Em.
    + apply String.eqb_eq in Em.
      destruct (colocar_orden_abiertas b orden Hbf Em) as (pos & Hcom & Hab & Hbf').
      split; [exact Hbf'|].
      destruct (colocar_orden_estado_comision b orden Em) as (pos' & E & _).
      unfold contable in *. rewrite Hab. rewrite E in *. cbn [balance historial].
      rewrite map_app. cbn [map]. rewrite py_sum_snoc, Hcom, Hc. ring.
    + unfold colocar_orden. rewrite Em. cbn [snd]. split.
      * destruct Hbf as [Hnd Hv]. split; assumption.
      * exact Hc.
  - destruct (cerrar_orden_casos b ticket volumen)
      as [E | (q & pc & Hperm & Hh & Hb & _ & Hbf')].
    + rewrite E. now split.
    + split; [now apply Hbf'|].
      unfold contable in *. rewrite Hh, Hb, !map_app. cbn [map].
      rewrite !py_sum_snoc.
      rewrite (py_sum_perm _ _ (Permutation_map Posicion.comision Hperm)) in Hc.
      cbn [map] in Hc. rewrite py_sum_cons in Hc. rewrite Hc.
      destruct q; unfold Operacion.beneficio; cbn. ring.
  - destruct (obtener_posiciones_campos b) as [Hab Hbf'].
    destruct (obtener_posiciones_estado b) as (_ & _ & _ & Hh & Hbal & _).
    cbv zeta in Hh, Hbal.
    split; [now apply Hbf'|].
    unfold contable in *. rewrite Hab, Hh, Hbal. exact Hc.
  - now split.
Qed.

(** Every state reached from a new broker is well formed. *)
Lemma bien_formado_alcanzable capital comision spread_promedio lls :
  bien_formado (llamadas lls (__init__ capital comision spread_promedio)) /\
  contable capital (llamadas lls (__init__ capital comision spread_promedio)).
Proof.
  unfold llamadas.
  assert (H0 : bien_formado (__init__ capital comision spread_promedio) /\
               contable capital (__init__ capital comision spread_promedio)).
  { split.
    - split; [apply NoDup_nil_2|]. intros r Hr. apply elem_of_nil in Hr. destruct Hr.
    - unfold contable. cbn. unfold py_sum. cbn. ring. }
  revert H0. generalize (__init__ capital comision spread_promedio) as b.
  induction lls as [|ll lls IH]; intros b [Hbf Hc]; cbn [fold_left]; [now split|].
  apply IH. now apply llamar_contable.
Qed.

(** X5.  The ledger identity: after any run of calls on a new broker the
    balance is the initial capital, minus the commission of every position
    opened (open or closed since), plus the net result booked for every
    closed trade. *)
Theorem balance_contable capital comision spread_promedio lls :
  let b := llamadas lls (__init__ capital comision spread_promedio) in
  balance b ==
    capital
    - py_sum (map Posicion.comision (posiciones_abiertas b))
    - py_sum (map (fun op => Posicion.comision (Operacion.posicion op))
                (historial b))
    + py_sum (map Operacion.beneficio (historial b)).
Proof.
  exact (proj2 (bien_formado_alcanzable capital comision spread_promedio lls)).
Qed.

End Contabilidad.

Section EquityInvariante.

Import BrokerSimulado.

Lemma py_sum_ceros (l : list Q) : Forall (fun x => x = 0) l -> py_sum l == 0.
Proof.
  induction 1 as [|x l Hx _ IH]; [reflexivity|].
  rewrite py_sum_cons, IH, Hx. ring.
Qed.

(** The dict a market order opens starts with no result. *)
Lemma colocar_orden_abiertas_beneficio self orden :
  bien_formado self ->
  String.eqb (Orden.tipo_orden orden) "market" = true ->
  exists posicion,
    Posicion.beneficio posicion = 0 /\
    posiciones_abiertas (snd (colocar_orden self orden))
    = posiciones_abiertas self ++ [posicion].
Proof.
  intros Hbf Em. pose proof (fresco_no_listado self Hbf) as Hfresh.
  unfold colocar_orden. rewrite Em. cbv zeta. cbn [snd].
  eexists. split; [|].
  2:{ unfold posiciones_abiertas, leer. cbn [posiciones objetos].
      rewrite omap_app. cbn [omap list_omap]. rewrite lookup_insert_eq.
      f_equal. now apply omap_insert_no_listado. }
  reflexivity.
Qed.

(** What every call keeps: the equity agrees with the balance and no open
    dict carries a result. *)
Lemma llamar_equity b ll :
  bien_formado b ->
  equity b == balance b ->
  Forall (fun p => Posicion.beneficio p = 0) (posiciones_abiertas b) ->
  equity (llamar b ll) == balance (llamar b ll) /\
  Forall (fun p => Posicion.beneficio p = 0) (posiciones_abiertas (llamar b ll)).
Proof.
  intros Hbf He Hz. destruct ll as [campos|ticket volumen| |]; cbn [llamar].
  - unfold colocar_orden_nueva.
    destruct (Orden.__init__ campos) as [e|orden]; cbn [snd]; [now split|].
    destruct (String.eqb (Orden.tipo_orden orden) "market") eqn:Em.
    + destruct (colocar_orden_abiertas_beneficio b orden Hbf Em)
        as (pos & Hpos & Hab).
      rewrite Hab. split.
      * unfold colocar_orden. rewrite Em. reflexivity.
      * apply Forall_app. split; [exact Hz|]. now constructor.
    + unfold colocar_orden. rewrite Em. cbn [snd]. now split.
  - split.
    + unfold cerrar_orden.
      destruct (buscar _ _ _ _) as [[i p]|]; cbn [snd equity balance];
        [reflexivity | exact He].
    + destruct (cerrar_orden_casos b ticket volumen)
        as [E | (q & pc & Hperm & _)].
      * now rewrite E.
      * rewrite Hperm in Hz. now inversion Hz.
  - destruct (obtener_posiciones_campos b) as [Hab _].
    destruct (obtener_posiciones_estado b) as (_ & _ & _ & _ & Hbal & _ & H1 & H0).
    cbv zeta in Hbal, H1, H0. rewrite Hab. split; [|exact Hz].
    destruct (posiciones b) as [|ref refs] eqn:Ep.
    + rewrite Hbal. exact (proj2 (H0 eq_refl)).
    + rewrite (H1 ltac:(discriminate)). exact He.
  - now split.
Qed.

(** C2.  After every run of [colocar_orden], [cerrar_orden],
    [obtener_posiciones_abiertas] and [obtener_estado_cuenta] calls on a
    new broker the equity is the balance plus the results carried by the
    open positions, and it is the balance when no position is open.  (No
    open dict ever carries a result other than 0: [colocar_orden] writes 0
    and the loop of [obtener_posiciones_abiertas], the only code that
    would write another, raises before its first write.) *)
Theorem equity_es_balance_mas_beneficios capital comision spread_promedio lls :
  let b := llamadas lls (__init__ capital comision spread_promedio) in
  equity b
  == balance b + py_sum (map Posicion.beneficio (posiciones_abiertas b)) /\
  (posiciones b = [] -> equity b == balance b).
Proof.
  cbv zeta.
  assert (H : equity (llamadas lls (__init__ capital comision spread_promedio))
              == balance (llamadas lls (__init__ capital comision spread_promedio))
              /\ Forall (fun p => Posicion.beneficio p = 0)
                   (posiciones_abiertas
                      (llamadas lls (__init__ capital comision spread_promedio)))).
  { unfold llamadas.
    assert (H0 : (bien_formado (__init__ capital comision spread_promedio) /\
                  contable capital (__init__ capital comision spread_promedio)) /\
                 equity (__init__ capital comision spread_promedio)
                 == balance (__init__ capital comision spread_promedio) /\
                 Forall (fun p => Posicion.beneficio p = 0)
                   (posiciones_abiertas
                      (__init__ capital comision spread_promedio))).
    { split; [|split; [reflexivity | constructor]].
      exact (bien_formado_alcanzable capital comision spread_promedio []). }
    revert H0. generalize (__init__ capital comision spread_promedio) as b.
    induction lls as [|ll lls IH]; intros b ([Hbf Hc] & He & Hz);
      cbn [fold_left]; [now split|].
    apply IH. split.
    - now apply llamar_contable.
    - now apply llamar_equity. }
  destruct H as [He Hz]. split; [|intros _; exact He].
  rewrite He.
  assert (Hs : py_sum (map Posicion.beneficio
                         (posiciones_abiertas
                            (llamadas lls
                               (__init__ capital comision spread_promedio))))
               == 0).
  { apply py_sum_ceros. apply Forall_fmap. exact Hz. }
  rewrite Hs. ring.
Qed.

End EquityInvariante.

Section IdaYVuelta.

Import BrokerSimulado.

(** X6.  Opening a market position and closing it at once, when no other
    open position carries the new ticket: the open list is as before, one
    trade is added to [historial], and the balance has lost the commission
    twice (once at the fill, once inside the net result) and half the
    spread on the volume, for a BUY and for a SELL alike. *)
Theorem abrir_y_cerrar self orden :
  bien_formado self ->
  Orden.tipo_orden orden = "market" ->
  sin_ticket (objetos self) (Z.of_nat (length (historial self)) + 1000)
    (posiciones self) ->
  let b1 := snd (colocar_orden self orden) in
  let r := cerrar_orden b1 (Z.of_nat (length (historial self)) + 1000) None in
  ResultadoOrden.exito (fst r) = true /\
  posiciones (snd r) = posiciones self /\
  length (historial (snd r)) = S (length (historial self)) /\
  balance (snd r) ==
    balance self
    - 2 * (Orden.volumen orden * comision_por_lote self)
    - spread self / 2 * Orden.volumen orden * 100000.
Proof.
  intros Hbf Hm Hsin b1 r. subst r b1.
  pose proof (fresco_no_listado self Hbf) as Hfresh.
  destruct (colocar_orden_estado_comision self orden Hm)
    as (pos & E & Ht & Hc & Hv & Hpa & Htipo).
  rewrite E. set (ref := fresh (dom (objetos self))) in *.
  set (b1 := mk _ _ _ _ _ _ _ _).
  assert (Hpre : sin_ticket (objetos b1)
                   (Z.of_nat (length (historial self)) + 1000) (posiciones self)).
  { intros r q Hr Hq. cbn [b1 objetos] in Hq.
    rewrite lookup_insert_ne in Hq by (intros ->; exact (Hfresh Hr)).
    exact (Hsin r q Hr Hq). }
  rewrite (cerrar_orden_encontrada b1 _ None (posiciones self) ref [] pos
             eq_refl Hpre (lookup_insert_eq _ _ _) Ht).
  cbn [fst snd ResultadoOrden.exito posiciones historial balance b1].
  split; [reflexivity|]. split; [now rewrite app_nil_r|].
  split; [rewrite length_app; simpl; lia|].
  unfold beneficio_bruto, precio_cierre_de.
  change (spread b1) with (spread self).
  rewrite Hpa, Hc, Hv.
  destruct (String.eqb (Posicion.tipo pos) "COMPRA"); ring.
Qed.

(** X6 on the test configuration: a 0.1-lot BUY opened and closed at once
    costs 0.25 + 0.25 + 1.00. *)
Lemma abrir_y_cerrar_broker0 :
  let b1 := snd (colocar_orden Escenario.broker0
                   (Escenario.compra (Some 1.10000) None None)) in
  balance (snd (cerrar_orden b1 1000 None)) == 10000 - 1.5 /\
  posiciones (snd (cerrar_orden b1 1000 None)) = [].
Proof.
  assert (Hbf : bien_formado Escenario.broker0).
  { split; [apply NoDup_nil_2|]. intros r Hr. apply elem_of_nil in Hr. destruct Hr. }
  assert (Hsin : sin_ticket (objetos Escenario.broker0)
                   (Z.of_nat (length (historial Escenario.broker0)) + 1000)
                   (posiciones Escenario.broker0)).
  { intros r q Hr. apply elem_of_nil in Hr. destruct Hr. }
  destruct (abrir_y_cerrar Escenario.broker0
              (Escenario.compra (Some 1.10000) None None) Hbf eq_refl Hsin)
    as (_ & Hp & _ & Hb).
  split; [|exact Hp]. cbv zeta. rewrite Hb. reflexivity.
Defined.

(** X7.  No call of the broker fills or drops a pending order: after any
    run of calls the pending orders held before are still the first of
    the list, unchanged; limit and stop orders are only ever queued. *)
Theorem pendientes_solo_se_acumulan lls self :
  exists nuevas,
    ordenes_pendientes (llamadas lls self) = ordenes_pendientes self ++ nuevas /\
    Forall (fun o => OrdenPendiente.estado o = "pendiente" /\
                     OrdenPendiente.tipo_orden o <> "market") nuevas.
Proof.
  unfold llamadas. revert self.
  induction lls as [|ll lls IH]; intros self; cbn [fold_left].
  - exists []. split; [now rewrite app_nil_r | constructor].
  - destruct (IH (llamar self ll)) as (nuevas & E & Hn).
    assert (Hpaso : exists n1,
               ordenes_pendientes (llamar self ll) = ordenes_pendientes self ++ n1 /\
               Forall (fun o => OrdenPendiente.estado o = "pendiente" /\
                                OrdenPendiente.tipo_orden o <> "market") n1).
    { destruct ll as [campos|ticket volumen| |]; cbn [llamar].
      - unfold colocar_orden_nueva.
        destruct (Orden.__init__ campos) as [e|orden]; cbn [snd].
        + exists []. split; [now rewrite app_nil_r | constructor].
        + unfold colocar_orden.
          destruct (String.eqb (Orden.tipo_orden orden) "market") eqn:Em;
            cbn [snd ordenes_pendientes].
          * exists []. split; [now rewrite app_nil_r | constructor].
          * eexists. split; [reflexivity|]. constructor; [|constructor].
            split; [reflexivity|]. cbn. intros Habs. rewrite Habs in Em.
            discriminate.
      - destruct (cerrar_orden_casos self ticket volumen)
          as [Es | (q & pc & _ & _ & _ & Hp & _)].
        + rewrite Es. exists []. split; [now rewrite app_nil_r | constructor].
        + rewrite Hp. exists []. split; [now rewrite app_nil_r | constructor].
      - destruct (obtener_posiciones_estado self) as (_ & _ & Hp & _).
        cbv zeta in Hp. rewrite Hp.
        exists []. split; [now rewrite app_nil_r | constructor].
      - exists []. split; [now rewrite app_nil_r | constructor]. }
    destruct Hpaso as (n1 & E1 & Hn1).
    exists (n1 ++ nuevas). split.
    + rewrite E, E1. now rewrite <- (assoc_L (++)).
    + apply Forall_app. now split.
Qed.

End IdaYVuelta.

(** X1 on a new broker: ticket 1000 is not known yet. *)
Lemma ticket_desconocido_broker0 :
  BrokerSimulado.modificar_orden Escenario.broker0 1000
    [BrokerSimulado.CStopLoss (Some 1.0990)]
  = (BrokerSimulado.mkModificar false None (BrokerSimulado.OrdenNoEncontrada 1000),
     Escenario.broker0) /\
  BrokerSimulado.cerrar_orden Escenario.broker0 1000 None
  = (ResultadoOrden.mk false None None None (PosicionNoEncontrada 1000),
     Escenario.broker0).
Proof.
  apply ticket_desconocido.
  - intros r q Hr. apply elem_of_nil in Hr. destruct Hr.
  - constructor.
Defined.

(** X2 on the broker with two positions of ticket 1000: the levels go to
    the first one. *)
Lemma modificar_orden_niveles_broker2 :
  let r := BrokerSimulado.modificar_orden Escenario.broker2 1000
             [BrokerSimulado.CStopLoss (Some 1.0950);
              BrokerSimulado.CTakeProfit (Some 1.1050)] in
  BrokerSimulado.rm_exito (fst r) = true /\
  (exists p, BrokerSimulado.leer (snd r) 0 = Some p /\
             Posicion.stop_loss p = Some 1.0950 /\
             Posicion.take_profit p = Some 1.1050) /\
  BrokerSimulado.leer (snd r) 1 = BrokerSimulado.leer Escenario.broker2 1.
Proof.
  assert (Hpre : BrokerSimulado.sin_ticket
                   (BrokerSimulado.objetos Escenario.broker2) 1000 []).
  { intros r q Hr. apply elem_of_nil in Hr. destruct Hr. }
  destruct (BrokerSimulado.leer Escenario.broker2 0) as [p|] eqn:Ep;
    [|discriminate Ep].
  assert (Ht : Posicion.ticket p = 1000%Z).
  { injection Ep as <-. reflexivity. }
  destruct (modificar_orden_niveles Escenario.broker2 1000 (Some 1.0950)
              (Some 1.1050) [] 0%nat [1%nat] p eq_refl Hpre Ep Ht)
    as (He & _ & Hp & Hotros & _).
  cbv zeta. split; [exact He|]. split.
  - eexists. split; [exact Hp|]. split; reflexivity.
  - apply Hotros. discriminate.
Defined.

(** X3: a key that no position dict has. *)
Lemma modificar_orden_claves_ajenas_broker1 :
  BrokerSimulado.modificar_orden Escenario.broker1 1000
    [BrokerSimulado.COtra "trailing"; BrokerSimulado.CTipoOrden "limit"]
  = (BrokerSimulado.mkModificar true (Some 1000%Z) BrokerSimulado.PosicionModificada,
     Escenario.broker1).
Proof.
  assert (Hpre : BrokerSimulado.sin_ticket
                   (BrokerSimulado.objetos Escenario.broker1) 1000 []).
  { intros r q Hr. apply elem_of_nil in Hr. destruct Hr. }
  destruct (BrokerSimulado.leer Escenario.broker1 0) as [p|] eqn:Ep;
    [|discriminate Ep].
  assert (Ht : Posicion.ticket p = 1000%Z).
  { injection Ep as <-. reflexivity. }
  apply (modificar_orden_claves_ajenas Escenario.broker1 1000 _ [] 0%nat [] p
           eq_refl Hpre Ep Ht).
  repeat constructor.
Defined.

(** X8 on a run that opens a position, asks for the open positions (which
    raises), closes the position and asks again. *)
Lemma equity_sin_posiciones_corrida :
  let b := BrokerSimulado.llamadas
             [BrokerSimulado.LlColocar (Escenario.compra (Some 1.10000) None None);
              BrokerSimulado.LlPosiciones;
              BrokerSimulado.LlCerrar 1000 None;
              BrokerSimulado.LlPosiciones]
             (BrokerSimulado.__init__ 10000 2.5 2.0) in
  BrokerSimulado.posiciones b = [] /\
  BrokerSimulado.equity b == BrokerSimulado.balance b.
Proof.
  cbv zeta. split; [reflexivity|].
  apply (equity_sin_posiciones 10000 2.5 2.0
           [BrokerSimulado.LlColocar (Escenario.compra (Some 1.10000) None None);
            BrokerSimulado.LlPosiciones;
            BrokerSimulado.LlCerrar 1000 None;
            BrokerSimulado.LlPosiciones]).
  reflexivity.
Defined.

(** ** The tick stream as a whole *)

Section Flujo.

Import TickSimulator.

Variable normal : nat -> nat -> Q.
Variable randint : nat -> nat -> Z.

Local Abbreviation generar := (generar_ticks_para_vela normal randint).
Local Abbreviation siguiente := (obtener_siguiente_tick normal randint).
Local Abbreviation cargar := (cargar_vela normal randint).
Local Abbreviation quedan := (pendientes normal randint).

(** The ticks of a candle depend on the frame and the spread only. *)
Lemma generar_ext s1 s2 i :
  datos_velas s1 = datos_velas s2 -> spread s1 = spread s2 ->
  generar s1 i = generar s2 i.
Proof.
  intros Hd Hs. unfold generar_ticks_para_vela. now rewrite Hd, Hs.
Qed.

Lemma cargar_campos s :
  datos_velas (cargar s) = datos_velas s /\ spread (cargar s) = spread s /\
  indice_actual (cargar s) = indice_actual s /\
  ticks_generados (cargar s) = ticks_generados s.
Proof.
  unfold cargar_vela. destruct (ticks_actuales s) as [[|]|]; repeat split.
Qed.

(** A call that hands out a tick. *)
Lemma siguiente_un_tick s tick :
  (indice_actual s < length (datos_velas s))%nat ->
  default [] (ticks_actuales (cargar s)) !! tick_idx (cargar s) = Some tick ->
  exists s',
    siguiente s = (Some tick, s') /\
    quedan s = tick :: quedan s' /\
    datos_velas s' = datos_velas s /\ spread s' = spread s /\
    indice_actual s' = indice_actual s /\
    ticks_generados s' = ticks_generados s ++ [tick].
Proof.
  intros Hi Hl. destruct (cargar_campos s) as (Hd & Hs & Hidx & Hg).
  exists (entregar tick (cargar s)).
  split; [now apply siguiente_entrega|].
  assert (Hc : cargar (entregar tick (cargar s)) = entregar tick (cargar s)).
  { unfold cargar_vela at 1. cbn [entregar ticks_actuales].
    destruct (ticks_actuales (cargar s)) as [[|x l]|]; try reflexivity;
      simpl in Hl; rewrite lookup_nil in Hl; discriminate. }
  split.
  - unfold pendientes. rewrite Hc. cbn [entregar indice_actual datos_velas
      ticks_actuales tick_idx]. rewrite Hidx, Hd.
    destruct (Nat.ltb_spec (indice_actual s) (length (datos_velas s))); [|lia].
    rewrite (drop_S _ _ _ Hl). cbn [app]. f_equal. f_equal. f_equal.
    apply map_ext. intros i. apply generar_ext; cbn; [now rewrite Hd | now rewrite Hs].
  - cbn [entregar datos_velas spread indice_actual ticks_generados].
    repeat split; congruence.
Qed.

(** A call that finds the candle in hand used up and moves on. *)
Lemma siguiente_otra_vela s :
  (indice_actual s < length (datos_velas s))%nat ->
  default [] (ticks_actuales (cargar s)) !! tick_idx (cargar s) = None ->
  siguiente s = siguiente (pasar_vela (cargar s)) /\
  quedan (pasar_vela (cargar s)) = quedan s /\
  datos_velas (pasar_vela (cargar s)) = datos_velas s /\
  spread (pasar_vela (cargar s)) = spread s /\
  indice_actual (pasar_vela (cargar s)) = S (indice_actual s) /\
  ticks_generados (pasar_vela (cargar s)) = ticks_generados s.
Proof.
  intros Hi Hl. destruct (cargar_campos s) as (Hd & Hs & Hidx & Hg).
  split; [now apply siguiente_pasa|].
  split; [|cbn [pasar_vela datos_velas spread indice_actual ticks_generados];
           repeat split; congruence].
  set (s2 := pasar_vela (cargar s)).
  assert (Hgen : forall i, generar s2 i = generar s i).
  { intros i. apply generar_ext; cbn; assumption. }
  unfold pendientes at 2.
  destruct (Nat.ltb_spec (indice_actual s) (length (datos_velas s))); [|lia].
  apply lookup_ge_None in Hl. rewrite (drop_ge _ _ Hl). cbn [app].
  unfold pendientes.
  change (indice_actual s2) with (S (indice_actual (cargar s))).
  change (datos_velas s2) with (datos_velas (cargar s)).
  rewrite Hidx, Hd.
  destruct (Nat.ltb_spec (S (indice_actual s)) (length (datos_velas s))) as [Hlt|Hge].
  - assert (Hc2 : cargar s2 =
                  mk (datos_velas s2) (spread s2) (ticks_generados s2)
                     (indice_actual s2) (Some (generar s2 (indice_actual s2))) 0)
      by reflexivity.
    rewrite Hc2. cbn [ticks_actuales tick_idx default]. rewrite drop_0.
    change (indice_actual s2) with (S (indice_actual (cargar s))). rewrite Hidx.
    replace (length (datos_velas s) - S (indice_actual s))%nat
      with (S (length (datos_velas s) - S (S (indice_actual s))))%nat by lia.
    cbn [seq map concat]. rewrite Hgen. f_equal. f_equal.
    apply map_ext. exact Hgen.
  - replace (length (datos_velas s) - S (indice_actual s))%nat with 0%nat by lia.
    reflexivity.
Qed.

(** One call of [obtener_siguiente_tick] against the ticks still to come:
    it hands out the first of them, or [None] when none is left. *)
Lemma siguiente_quedan n : forall s,
  (length (datos_velas s) - indice_actual s = n)%nat ->
  (quedan s = [] ->
   fst (siguiente s) = None /\
   datos_velas (snd (siguiente s)) = datos_velas s /\
   spread (snd (siguiente s)) = spread s /\
   ticks_generados (snd (siguiente s)) = ticks_generados s /\
   (indice_actual s <= length (datos_velas s) ->
    indice_actual (snd (siguiente s)) = length (datos_velas s))%nat) /\
  (forall tick resto, quedan s = tick :: resto ->
   exists s',
     siguiente s = (Some tick, s') /\ quedan s' = resto /\
     datos_velas s' = datos_velas s /\ spread s' = spread s /\
     ticks_generados s' = ticks_generados s ++ [tick] /\
     (indice_actual s <= indice_actual s' < length (datos_velas s))%nat).
Proof.
  induction n as [|n IH]; intros s Hn.
  - assert (Hge : (length (datos_velas s) <= indice_actual s)%nat) by lia.
    rewrite (siguiente_agotado normal randint s Hge). cbn [fst snd].
    split.
    + intros _. repeat split. lia.
    + intros tick resto Hq. unfold pendientes in Hq.
      destruct (Nat.ltb_spec (indice_actual s) (length (datos_velas s)));
        [lia | discriminate].
  - assert (Hi : (indice_actual s < length (datos_velas s))%nat) by lia.
    destruct (default [] (ticks_actuales (cargar s)) !! tick_idx (cargar s))
      as [t|] eqn:Hl.
    + destruct (siguiente_un_tick s t Hi Hl)
        as (s' & Hs & Hq & Hd & Hsp & Hidx & Hg).
      split.
      * intros Habs. rewrite Habs in Hq. discriminate.
      * intros tick resto Hq'. rewrite Hq in Hq'. injection Hq' as <- <-.
        exists s'. repeat split; try assumption; lia.
    + destruct (siguiente_otra_vela s Hi Hl)
        as (Hs & Hq & Hd & Hsp & Hidx & Hg).
      destruct (IH (pasar_vela (cargar s)) ltac:(rewrite Hd, Hidx; lia))
        as [IH1 IH2].
      rewrite Hs, <- Hq. split.
      * intros Hq0. destruct (IH1 Hq0) as (H1 & H2 & H3 & H4 & H5).
        repeat split; try congruence.
        intros _. rewrite H5; [congruence | rewrite Hd, Hidx; lia].
      * intros tick resto Hq'. destruct (IH2 tick resto Hq')
          as (s' & E & Hr & H2 & H3 & H4 & H5).
        exists s'. repeat split; try congruence; rewrite Hd, Hidx in H5; lia.
Qed.

(** The loop of [simular_todos_ticks] with enough turns. *)
Lemma simular_bucle_quedan fuel : forall s todos,
  (length (quedan s) < fuel)%nat ->
  exists s',
    simular_bucle normal randint fuel s todos = Some (todos ++ quedan s, s') /\
    datos_velas s' = datos_velas s /\ spread s' = spread s /\
    ticks_generados s' = ticks_generados s ++ quedan s /\
    quedan s' = [].
Proof.
  induction fuel as [|fuel IH]; intros s todos Hf; [lia|].
  destruct (siguiente_quedan _ s eq_refl) as [H0 H1].
  cbn [simular_bucle]. destruct (quedan s) as [|tick resto] eqn:Hq.
  - destruct (H0 eq_refl) as (Hn & Hd & Hs & Hg & _).
    destruct (siguiente s) as [o s'] eqn:E. cbn [fst snd] in *. subst o.
    exists s'. rewrite !app_nil_r. repeat split; try assumption.
    destruct (siguiente_quedan _ s' eq_refl) as [_ H1'].
    destruct (quedan s') as [|t' r'] eqn:Hq'; [reflexivity|]. exfalso.
    destruct (H1' t' r' eq_refl) as (s'' & _ & _ & _ & _ & _ & Hidx).
    destruct (siguiente_quedan _ s eq_refl) as [H0' _].
    destruct (H0' Hq) as (_ & _ & _ & _ & Hfin). rewrite E in Hfin.
    cbn [snd] in Hfin.
    unfold pendientes in Hq'.
    destruct (Nat.ltb_spec (indice_actual s') (length (datos_velas s')));
      [|discriminate].
    unfold pendientes in Hq.
    destruct (Nat.ltb_spec (indice_actual s) (length (datos_velas s))) as [Hlt|Hge].
    + rewrite Hfin in * by lia. rewrite Hd in *. lia.
    + rewrite (siguiente_agotado normal randint s Hge) in E.
      injection E as <-. lia.
  - destruct (H1 tick resto eq_refl) as (s' & E & Hr & Hd & Hs & Hg & _).
    rewrite E. simpl in Hf.
    destruct (IH s' (todos ++ [tick]) ltac:(rewrite Hr; lia))
      as (s'' & E' & Hd' & Hs' & Hg' & Hq').
    exists s''. rewrite E', Hr, <- (assoc_L (++)). cbn [app].
    repeat split; try congruence.
    rewrite Hg', Hg, Hr, <- (assoc_L (++)). reflexivity.
Qed.

End Flujo.

Section FlujoCompleto.

Import TickSimulator.

Variable normal : nat -> nat -> Q.
Variable randint : nat -> nat -> Z.

Local Abbreviation generar := (generar_ticks_para_vela normal randint).
Local Abbreviation siguiente := (obtener_siguiente_tick normal randint).
Local Abbreviation quedan := (pendientes normal randint).

(** At the start of the frame with no candle in hand, everything is still
    to come. *)
Lemma quedan_inicio s :
  indice_actual s = 0%nat ->
  ticks_actuales s = None \/ ticks_actuales s = Some [] ->
  quedan s = concat (map (generar s) (seq 0 (length (datos_velas s)))).
Proof.
  intros Hi Ht. unfold pendientes. rewrite Hi.
  assert (Hc : cargar_vela normal randint s =
               mk (datos_velas s) (spread s) (ticks_generados s) 0
                  (Some (generar s 0)) 0).
  { unfold cargar_vela. rewrite Hi. destruct Ht as [-> | ->]; reflexivity. }
  rewrite Hc. cbn [ticks_actuales tick_idx default]. rewrite drop_0.
  destruct (length (datos_velas s)) as [|n]; [reflexivity|].
  change (0 <? S n)%nat with true. cbn iota.
  replace (S n - 1)%nat with n by lia. reflexivity.
Qed.

Lemma total_ticks_concat s :
  length (concat (map (generar s) (seq 0 (length (datos_velas s)))))
  = total_ticks (datos_velas s).
Proof.
  assert (H : forall suf pre,
             datos_velas s = pre ++ suf ->
             length (concat (map (generar s) (seq (length pre) (length suf))))
             = total_ticks suf).
  { induction suf as [|fila suf IH]; intros pre Hd; [reflexivity|].
    cbn [length seq map concat]. rewrite length_app.
    rewrite (generar_length normal randint s (length pre) fila).
    - change (total_ticks (fila :: suf))
        with (Z.to_nat (Fila.ticks_por_vela fila) + total_ticks suf)%nat.
      f_equal.
      specialize (IH (pre ++ [fila])). rewrite length_app in IH.
      cbn [length] in IH. rewrite Nat.add_1_r in IH. apply IH.
      now rewrite <- (assoc_L (++)).
    - rewrite Hd. now rewrite list_lookup_middle. }
  exact (H (datos_velas s) [] eq_refl).
Qed.

Lemma total_ticks_preparados velas :
  (5 * length velas <= total_ticks (_preparar_datos velas) <= 100 * length velas)%nat.
Proof.
  assert (Hlen : length (_preparar_datos velas) = length velas)
    by (unfold _preparar_datos; apply length_imap).
  assert (Hall : Forall (fun fila => (5 <= Fila.ticks_por_vela fila <= 100)%Z)
                   (_preparar_datos velas)).
  { apply Forall_lookup. intros i fila Hf.
    destruct (preparar_lookup velas i fila Hf) as (_ & _ & _ & Hb). exact Hb. }
  rewrite <- Hlen. clear Hlen. unfold total_ticks.
  induction Hall as [|fila l Hf _ IH]; [cbn; lia|].
  change (list_sum (map (fun fila => Z.to_nat (Fila.ticks_por_vela fila)) (fila :: l)))
    with (Z.to_nat (Fila.ticks_por_vela fila)
          + list_sum (map (fun fila => Z.to_nat (Fila.ticks_por_vela fila)) l))%nat.
  cbn [length]. lia.
Qed.

(** X9.  [simular_todos_ticks] on a new simulator ends and returns the
    ticks of every candle, candle after candle, each candle's ticks in the
    order generated; they are also what [ticks_generados] holds then; the
    next call of [obtener_siguiente_tick] returns [None]; and there are
    between 5 and 100 ticks per candle of the frame in all. *)
Theorem simular_todos_ticks_completo velas spread fuel :
  let s := __init__ velas spread in
  let todos := concat (map (generar s) (seq 0 (length velas))) in
  (length todos < fuel)%nat ->
  exists s',
    simular_todos_ticks normal randint fuel s = Some (todos, s') /\
    ticks_generados s' = todos /\
    fst (siguiente s') = None /\
    (5 * length velas <= length todos <= 100 * length velas)%nat.
Proof.
  intros s todos Hf.
  assert (Hlen : length (datos_velas s) = length velas)
    by (cbn; unfold _preparar_datos; apply length_imap).
  assert (Hq : quedan s = todos).
  { rewrite (quedan_inicio s eq_refl (or_introl eq_refl)). now rewrite Hlen. }
  destruct (simular_bucle_quedan normal randint fuel s [] ltac:(rewrite Hq; exact Hf))
    as (s' & E & Hd & Hs & Hg & Hq').
  exists s'. unfold simular_todos_ticks. rewrite E, Hq. cbn [app].
  split; [reflexivity|]. split; [rewrite Hg, Hq; reflexivity|]. split.
  - destruct (siguiente_quedan normal randint _ s' eq_refl) as [H0 _].
    exact (proj1 (H0 Hq')).
  - subst todos. rewrite <- Hlen, total_ticks_concat, Hlen.
    exact (total_ticks_preparados velas).
Qed.

Lemma usar_datos s u :
  datos_velas (usar normal randint s u) = datos_velas s /\
  spread (usar normal randint s u) = spread s /\
  ((indice_actual s <= length (datos_velas s))%nat ->
   (indice_actual (usar normal randint s u) <= length (datos_velas s))%nat).
Proof.
  destruct u; cbn [usar].
  - destruct (siguiente_quedan normal randint _ s eq_refl) as [H0 H1].
    destruct (quedan s) as [|tick resto].
    + destruct (H0 eq_refl) as (_ & Hd & Hs & _ & Hfin).
      repeat split; try assumption. intros Hi. rewrite (Hfin Hi). lia.
    + destruct (H1 tick resto eq_refl) as (s' & E & _ & Hd & Hs & _ & Hidx).
      rewrite E. cbn [snd]. repeat split; try assumption. lia.
  - cbn. repeat split. lia.
Qed.

Lemma usos_datos usos : forall s,
  (indice_actual s <= length (datos_velas s))%nat ->
  datos_velas (fold_left (usar normal randint) usos s) = datos_velas s /\
  (indice_actual (fold_left (usar normal randint) usos s)
   <= length (datos_velas s))%nat.
Proof.
  induction usos as [|u usos IH]; intros s Hi; cbn [fold_left]; [now split|].
  destruct (usar_datos s u) as (Hd & _ & Hidx).
  destruct (IH (usar normal randint s u) ltac:(rewrite Hd; auto)) as [H1 H2].
  rewrite Hd in *. now split.
Qed.

(** X10.  Restart: whatever was done with a simulator before (calls of
    [obtener_siguiente_tick] and of [reset], in any number and order),
    [reset] followed by [simular_todos_ticks] returns as many ticks as the
    frame calls for, the count of a first full run. *)
Theorem reset_misma_cuenta velas spread usos fuel :
  let s := fold_left (usar normal randint) usos (__init__ velas spread) in
  (total_ticks (_preparar_datos velas) < fuel)%nat ->
  exists todos s',
    simular_todos_ticks normal randint fuel (reset s) = Some (todos, s') /\
    length todos = total_ticks (_preparar_datos velas) /\
    ticks_generados s' = todos.
Proof.
  intros s Hf.
  destruct (usos_datos usos (__init__ velas spread) ltac:(cbn; lia)) as [Hd _].
  fold s in Hd. cbn [__init__ datos_velas] in Hd.
  assert (Hq : quedan (reset s)
               = concat (map (generar (reset s))
                           (seq 0 (length (datos_velas (reset s)))))).
  { apply quedan_inicio; [reflexivity | now right]. }
  assert (Hlen : length (quedan (reset s)) = total_ticks (_preparar_datos velas)).
  { rewrite Hq, total_ticks_concat. cbn [reset datos_velas]. now rewrite Hd. }
  destruct (simular_bucle_quedan normal randint fuel (reset s) []
              ltac:(rewrite Hlen; exact Hf))
    as (s' & E & _ & _ & Hg & _).
  exists (quedan (reset s)), s'. unfold simular_todos_ticks.
  rewrite E. cbn [app]. split; [reflexivity|]. split; [exact Hlen|].
  rewrite Hg. reflexivity.
Qed.

(** X11.  [progreso] stays between 0 and 1 whatever calls were made, and
    is 1 once a call of [obtener_siguiente_tick] has returned [None] on a
    frame that is not empty. *)
Theorem progreso_acotado velas spread usos :
  let s := fold_left (usar normal randint) usos (__init__ velas spread) in
  0 <= progreso s /\ progreso s <= 1 /\
  (fst (siguiente s) = None -> velas <> [] ->
   progreso (snd (siguiente s)) == 1).
Proof.
  intros s.
  destruct (usos_datos usos (__init__ velas spread) ltac:(cbn; lia)) as [Hd Hi].
  fold s in Hd, Hi. cbn [__init__ datos_velas] in Hd, Hi.
  assert (Hlen : length (_preparar_datos velas) = length velas)
    by (unfold _preparar_datos; apply length_imap).
  assert (Hfrac : forall i n : nat, (i <= n)%nat -> (0 < n)%nat ->
            0 <= inject_Z (Z.of_nat i) / inject_Z (Z.of_nat n) /\
            inject_Z (Z.of_nat i) / inject_Z (Z.of_nat n) <= 1).
  { intros i n Hin Hn.
    assert (Hpos : 0 < inject_Z (Z.of_nat n)).
    { change 0 with (inject_Z 0). rewrite <- Zlt_Qlt. lia. }
    split.
    - apply Qle_shift_div_l; [exact Hpos|]. rewrite Qmult_0_l.
      change 0 with (inject_Z 0). rewrite <- Zle_Qle. lia.
    - apply Qle_shift_div_r; [exact Hpos|]. rewrite Qmult_1_l.
      rewrite <- Zle_Qle. lia. }
  split; [|split].
  - unfold progreso. rewrite Hd.
    destruct (Nat.eqb_spec (length (_preparar_datos velas)) 0);
      [apply Qle_refl | apply Hfrac; lia].
  - unfold progreso. rewrite Hd.
    destruct (Nat.eqb_spec (length (_preparar_datos velas)) 0);
      [discriminate | apply Hfrac; lia].
  - intros Hn Hne.
    destruct (siguiente_quedan normal randint _ s eq_refl) as [H0 H1].
    destruct (quedan s) as [|tick resto].
    + destruct (H0 eq_refl) as (_ & Hd' & _ & _ & Hfin).
      unfold progreso. rewrite Hd', Hfin, Hd by (rewrite Hd; exact Hi).
      destruct (Nat.eqb_spec (length (_preparar_datos velas)) 0) as [E|E].
      * rewrite Hlen in E. destruct velas; [contradiction | discriminate].
      * unfold Qdiv. apply Qmult_inv_r. intros Habs.
        unfold Qeq in Habs. cbn [Qnum Qden inject_Z] in Habs. lia.
    + destruct (H1 tick resto eq_refl) as (s' & E & _).
      rewrite E in Hn. discriminate.
Qed.

End FlujoCompleto.

(** ** Timestamps of the ticks of a candle *)

Section Tiempos.

Import TickSimulator.

Variable normal : nat -> nat -> Q.
Variable randint : nat -> nat -> Z.

Lemma generar_lookup s idx fila i tick :
  datos_velas s !! idx = Some fila ->
  generar_ticks_para_vela normal randint s idx !! i = Some tick ->
  (i < Z.to_nat (Fila.ticks_por_vela fila))%nat /\
  Tick.timestamp tick
  = Vela.timestamp (Fila.vela fila)
    + inject_Z (Z.of_nat i * 60)
      / inject_Z (Z.of_nat (Z.to_nat (Fila.ticks_por_vela fila))) /\
  Tick.last tick = (Tick.bid tick + Tick.ask tick) / 2 /\
  Tick.ask tick = Tick.bid tick + spread s /\
  Tick.simbolo tick = None.
Proof.
  intros Hf Hl. unfold generar_ticks_para_vela in Hl. rewrite Hf in Hl.
  apply list_lookup_fmap_Some in Hl. destruct Hl as (k & -> & Hk).
  apply lookup_seq in Hk. destruct Hk as [-> Hlt]. cbn. repeat split. exact Hlt.
Qed.

Lemma fraccion_minuto (i j n : nat) :
  (i < j)%nat -> (j < n)%nat ->
  0 <= inject_Z (Z.of_nat i * 60) / inject_Z (Z.of_nat n) /\
  inject_Z (Z.of_nat i * 60) / inject_Z (Z.of_nat n)
  < inject_Z (Z.of_nat j * 60) / inject_Z (Z.of_nat n) /\
  inject_Z (Z.of_nat j * 60) / inject_Z (Z.of_nat n) < 60.
Proof.
  intros Hij Hjn.
  assert (Hpos : 0 < inject_Z (Z.of_nat n)).
  { change 0 with (inject_Z 0). rewrite <- Zlt_Qlt. lia. }
  split; [|split].
  - apply Qle_shift_div_l; [exact Hpos|]. rewrite Qmult_0_l.
    change 0 with (inject_Z 0). rewrite <- Zle_Qle. lia.
  - unfold Qdiv. apply Qmult_lt_compat_r.
    + now apply Qinv_lt_0_compat.
    + rewrite <- Zlt_Qlt. lia.
  - apply Qlt_shift_div_r; [exact Hpos|].
    change 60 with (inject_Z 60). rewrite <- inject_Z_mult, <- Zlt_Qlt. lia.
Qed.

(** X12.  The ticks of a candle are stamped in strictly increasing order,
    from the candle's own timestamp on and always less than 60 seconds
    after it (whatever the timeframe of the candle); the last price of a
    tick is the middle of bid and ask. *)
Theorem ticks_en_orden s idx fila i j ti tj :
  datos_velas s !! idx = Some fila ->
  generar_ticks_para_vela normal randint s idx !! i = Some ti ->
  generar_ticks_para_vela normal randint s idx !! j = Some tj ->
  (i < j)%nat ->
  Vela.timestamp (Fila.vela fila) <= Tick.timestamp ti /\
  Tick.timestamp ti < Tick.timestamp tj /\
  Tick.timestamp tj < Vela.timestamp (Fila.vela fila) + 60 /\
  Tick.last ti == Tick.bid ti + spread s / 2.
Proof.
  intros Hf Hi Hj Hij.
  destruct (generar_lookup s idx fila i ti Hf Hi) as (_ & Eti & Hlast & Hask & _).
  destruct (generar_lookup s idx fila j tj Hf Hj) as (Hjn & Etj & _).
  destruct (fraccion_minuto i j _ Hij Hjn) as (H0 & H1 & H2).
  rewrite Eti, Etj. split; [|split; [|split]].
  - rewrite <- (Qplus_0_r (Vela.timestamp (Fila.vela fila))) at 1.
    now apply Qplus_le_r.
  - now apply Qplus_lt_r.
  - now apply Qplus_lt_r.
  - rewrite Hlast, Hask. field.
Qed.

End Tiempos.

(** X12 on the candle of the scenarios: its first two ticks. *)
Lemma ticks_en_orden_vela1 :
  exists ti tj,
    TickSimulator.generar_ticks_para_vela (fun _ _ => 0) (fun _ _ => 1%Z)
      (TickSimulator.__init__ [Escenario.vela1] 0.0002) 0 !! 0%nat = Some ti /\
    TickSimulator.generar_ticks_para_vela (fun _ _ => 0) (fun _ _ => 1%Z)
      (TickSimulator.__init__ [Escenario.vela1] 0.0002) 0 !! 1%nat = Some tj /\
    Tick.timestamp ti < Tick.timestamp tj /\
    Tick.timestamp tj < Vela.timestamp Escenario.vela1 + 60.
Proof.
  eexists. eexists. split; [reflexivity|]. split; [reflexivity|].
  destruct (ticks_en_orden (fun _ _ => 0) (fun _ _ => 1%Z)
              (TickSimulator.__init__ [Escenario.vela1] 0.0002) 0%nat
              _ 0%nat 1%nat _ _ eq_refl eq_refl eq_refl ltac:(lia))
    as (_ & H1 & H2 & _).
  split; [exact H1 | exact H2].
Defined.

(** X9 on the frame of one candle: 10 ticks, found within 11 turns. *)
Lemma simular_todos_ticks_completo_vela1 :
  exists todos s',
    TickSimulator.simular_todos_ticks (fun _ _ => 0) (fun _ _ => 1%Z) 11
      (TickSimulator.__init__ [Escenario.vela1] 0.0002) = Some (todos, s') /\
    length todos = 10%nat /\
    TickSimulator.ticks_generados s' = todos.
Proof.
  destruct (simular_todos_ticks_completo (fun _ _ => 0) (fun _ _ => 1%Z)
              [Escenario.vela1] 0.0002 11)
    as (s' & E & Hg & _).
  - apply Nat.ltb_lt. reflexivity.
  - eexists. exists s'. split; [exact E|]. split; [reflexivity | exact Hg].
Defined.

(** X10 after two ticks, a reset and another tick. *)
Lemma reset_misma_cuenta_vela1 :
  exists todos s',
    TickSimulator.simular_todos_ticks (fun _ _ => 0) (fun _ _ => 1%Z) 11
      (TickSimulator.reset
         (fold_left (TickSimulator.usar (fun _ _ => 0) (fun _ _ => 1%Z))
            [TickSimulator.USiguiente; TickSimulator.USiguiente;
             TickSimulator.UReset; TickSimulator.USiguiente]
            (TickSimulator.__init__ [Escenario.vela1] 0.0002)))
    = Some (todos, s') /\
    length todos = 10%nat.
Proof.
  destruct (reset_misma_cuenta (fun _ _ => 0) (fun _ _ => 1%Z)
              [Escenario.vela1] 0.0002
              [TickSimulator.USiguiente; TickSimulator.USiguiente;
               TickSimulator.UReset; TickSimulator.USiguiente] 11)
    as (todos & s' & E & Hl & _).
  - apply Nat.ltb_lt. reflexivity.
  - exists todos, s'. split; [exact E | exact Hl].
Defined.

(** X11 once the ten ticks of the candle were handed out. *)
Lemma progreso_acotado_vela1 :
  let s := fold_left (TickSimulator.usar (fun _ _ => 0) (fun _ _ => 1%Z))
             (repeat TickSimulator.USiguiente 10)
             (TickSimulator.__init__ [Escenario.vela1] 0.0002) in
  TickSimulator.progreso s <= 1 /\
  TickSimulator.progreso
    (snd (TickSimulator.obtener_siguiente_tick (fun _ _ => 0) (fun _ _ => 1%Z) s))
  == 1.
Proof.
  destruct (progreso_acotado (fun _ _ => 0) (fun _ _ => 1%Z)
              [Escenario.vela1] 0.0002 (repeat TickSimulator.USiguiente 10))
    as (_ & H1 & H2).
  cbv zeta. split; [exact H1|]. apply H2; [reflexivity | discriminate].
Defined.

(** ** Loading the data and the window handed to the strategy *)

Section Datos.

Import BacktestEngine.

Lemma en_rango_iff ini fin v :
  en_rango ini fin v = true <->
  ini <= Vela.timestamp v /\ Vela.timestamp v <= fin.
Proof.
  unfold en_rango. rewrite andb_true_iff, !Qle_bool_iff. tauto.
Qed.

Lemma preparar_velas velas :
  map Fila.vela (TickSimulator._preparar_datos velas) = velas.
Proof.
  apply list_eq. intros i. unfold TickSimulator._preparar_datos.
  rewrite list_lookup_fmap, list_lookup_imap.
  destruct (velas !! i); reflexivity.
Qed.

Lemma filter_vacio {A} (f : A -> bool) (l : list A) :
  List.filter f l = [] -> Forall (fun x => f x = false) l.
Proof.
  induction l as [|x l IH]; simpl; [constructor|].
  destruct (f x) eqn:E; [discriminate|]. intros H. constructor; auto.
Qed.

Lemma filter_todos {A} (f : A -> bool) (l : list A) :
  Forall (fun x => f x = true) (List.filter f l).
Proof.
  induction l as [|x l IH]; simpl; [constructor|].
  destruct (f x) eqn:E; [constructor; assumption | assumption].
Qed.

(** X13.  [cargar_datos] fails when the entry timeframe is not among the
    frames, and when none of its candles lies in the date range (bounds
    included); otherwise the simulator is built over exactly the candles of
    the entry timeframe that lie in the range, in their order, with the
    spread divided by 10000, and every frame kept for the strategy holds
    in-range candles only. *)
Theorem cargar_datos_resultado tf ini fin spread_promedio
    (datos : gmap string (list Vela.t)) :
  match cargar_datos tf ini fin spread_promedio datos with
  | inl (TimeframeNoEncontrado tf') => tf' = tf /\ datos !! tf = None
  | inl SinDatosEnRango =>
      exists df, datos !! tf = Some df /\
        Forall (fun v => ~ (ini <= Vela.timestamp v /\ Vela.timestamp v <= fin)) df
  | inr c =>
      exists df, datos !! tf = Some df /\
        map Fila.vela (TickSimulator.datos_velas (simulador c))
        = List.filter (en_rango ini fin) df /\
        TickSimulator.datos_velas (simulador c) <> [] /\
        TickSimulator.spread (simulador c) = spread_promedio / 10000 /\
        TickSimulator.indice_actual (simulador c) = 0%nat /\
        forall tf' df', datos_multi_tf c !! tf' = Some df' ->
          Forall (fun v => ini <= Vela.timestamp v /\ Vela.timestamp v <= fin) df'
  end.
Proof.
  unfold cargar_datos. destruct (datos !! tf) as [df|] eqn:Hdf; [|now split].
  destruct (Nat.eqb_spec (length (List.filter (en_rango ini fin) df)) 0) as [E|E].
  - exists df. split; [reflexivity|].
    apply nil_length_inv in E. apply filter_vacio in E.
    eapply Forall_impl; [exact E|]. cbn. intros v Hv Hr.
    apply en_rango_iff in Hr. congruence.
  - exists df. split; [reflexivity|]. cbn [simulador datos_multi_tf].
    split; [apply preparar_velas|]. split.
    + intros Habs. apply E.
      rewrite <- (preparar_velas (List.filter (en_rango ini fin) df)).
      cbn [TickSimulator.__init__ TickSimulator.datos_velas] in Habs.
      now rewrite Habs.
    + split; [reflexivity|]. split; [reflexivity|].
      intros tf' df' Hl. rewrite lookup_fmap in Hl.
      destruct (datos !! tf') as [orig|]; [|discriminate].
      injection Hl as <-.
      eapply Forall_impl; [apply filter_todos|]. cbn. intros v Hv.
      now apply en_rango_iff.
Qed.

(** X14.  No look-ahead: every frame [_obtener_datos_actualizados] hands
    to the strategy is not empty, holds at most 500 candles, all stamped
    at or before the tick's timestamp, and is the tail of the loaded frame
    cut at that timestamp. *)
Theorem datos_actualizados_sin_futuro (datos : gmap string (list Vela.t))
    timestamp tf df :
  _obtener_datos_actualizados datos timestamp !! tf = Some df ->
  df <> [] /\ (length df <= 500)%nat /\
  Forall (fun v => Vela.timestamp v <= timestamp) df /\
  exists orig,
    datos !! tf = Some orig /\
    df `suffix_of`
      List.filter (fun v => Qle_bool (Vela.timestamp v) timestamp) orig.
Proof.
  unfold _obtener_datos_actualizados. rewrite lookup_omap.
  destruct (datos !! tf) as [orig|]; [|discriminate].
  change (Some orig ≫= _) with
    (let f := List.filter (fun v => Qle_bool (Vela.timestamp v) timestamp) orig in
     if (0 <? length f)%nat
     then Some (df_tail (Nat.min 500 (length f)) f) else None).
  set (f := List.filter _ orig). cbv zeta.
  assert (Hm : exists m, m = Nat.min 500 (length f)) by (eexists; reflexivity).
  destruct Hm as [m Hm]. rewrite <- Hm.
  destruct (Nat.ltb_spec 0 (length f)) as [Hpos|Hpos]; [|discriminate].
  intros H. apply (inj Some) in H. subst df. unfold df_tail.
  assert (Hlen : length (drop (length f - m) f) = m).
  { rewrite length_drop. lia. }
  split; [|split; [|split]].
  - intros Habs. rewrite Habs in Hlen. simpl in Hlen. lia.
  - rewrite Hlen. lia.
  - apply Forall_drop. eapply Forall_impl; [apply filter_todos|].
    cbn. intros v Hv. now apply Qle_bool_iff.
  - exists orig. split; [reflexivity | apply suffix_drop].
Qed.

(** A tick that names no symbol passes every position by. *)
Lemma actualizar_una_sin_simbolo tick broker ref :
  Tick.simbolo tick = None -> actualizar_una tick broker ref = broker.
Proof.
  intros H. unfold actualizar_una.
  destruct (BrokerSimulado.leer broker ref) as [p|]; [|reflexivity].
  rewrite H. reflexivity.
Qed.

(** X15.  The ticks of [TickSimulator] carry no ['simbolo'] key, so a turn
    of the loop of [_actualizar_precios_posiciones] passes every position
    by, and the call does no more than its opening call of
    [obtener_posiciones_abiertas]: no position gets the tick's price, no
    stop loss or take profit closes one, and the dicts, the open list,
    [historial] and the balance are as before. *)
Theorem ticks_sin_simbolo normal randint sim vela_idx tick broker :
  tick ∈ TickSimulator.generar_ticks_para_vela normal randint sim vela_idx ->
  let r := _actualizar_precios_posiciones broker tick in
  (forall b ref, actualizar_una tick b ref = b) /\
  snd r = snd (BrokerSimulado.obtener_posiciones_abiertas broker) /\
  BrokerSimulado.posiciones (snd r) = BrokerSimulado.posiciones broker /\
  BrokerSimulado.historial (snd r) = BrokerSimulado.historial broker /\
  BrokerSimulado.balance (snd r) = BrokerSimulado.balance broker /\
  BrokerSimulado.objetos (snd r) = BrokerSimulado.objetos broker.
Proof.
  intros Hin r. subst r.
  assert (Hs : Tick.simbolo tick = None).
  { unfold TickSimulator.generar_ticks_para_vela in Hin.
    destruct (TickSimulator.datos_velas sim !! vela_idx).
    - apply list_elem_of_fmap in Hin. destruct Hin as (i & -> & _). reflexivity.
    - apply elem_of_nil in Hin. destruct Hin. }
  split; [intros b ref; now apply actualizar_una_sin_simbolo|].
  assert (E : snd (_actualizar_precios_posiciones broker tick)
              = snd (BrokerSimulado.obtener_posiciones_abiertas broker)).
  { unfold _actualizar_precios_posiciones.
    destruct (BrokerSimulado.obtener_posiciones_abiertas broker)
      as [[e|refs] b]; cbn [snd]; [reflexivity|].
    induction refs as [|ref refs IH]; cbn [fold_left]; [reflexivity|].
    now rewrite (actualizar_una_sin_simbolo tick b ref Hs). }
  rewrite E.
  destruct (obtener_posiciones_estado broker) as (Ho & Hp & _ & Hh & Hb & _).
  cbv zeta in Ho, Hp, Hh, Hb. repeat split; assumption.
Qed.

End Datos.

(** X14 on two timeframes, at a timestamp before any H1 candle. *)
Lemma datos_actualizados_sin_futuro_m1 :
  BacktestEngine._obtener_datos_actualizados Escenario.datos_m1_h1 60 !! "M1"
  = Some (take 2 Escenario.velas_m1) /\
  Forall (fun v => Vela.timestamp v <= 60) (take 2 Escenario.velas_m1) /\
  BacktestEngine._obtener_datos_actualizados Escenario.datos_m1_h1 60 !! "H1"
  = None.
Proof.
  assert (E : BacktestEngine._obtener_datos_actualizados
                Escenario.datos_m1_h1 60 !! "M1"
              = Some (take 2 Escenario.velas_m1))
    by (vm_compute; reflexivity).
  split; [exact E|]. split.
  - exact (proj1 (proj2 (proj2 (datos_actualizados_sin_futuro _ _ _ _ E)))).
  - vm_compute. reflexivity.
Defined.

(** X15 on the first tick of the candle of the scenarios and the broker
    that holds a position with levels. *)
Lemma ticks_sin_simbolo_broker2 :
  exists tick,
    TickSimulator.generar_ticks_para_vela (fun _ _ => 0) (fun _ _ => 1%Z)
      Escenario.simulador_vela1 0 !! 0%nat = Some tick /\
    BrokerSimulado.posiciones
      (snd (BacktestEngine._actualizar_precios_posiciones
              Escenario.broker2 tick))
    = BrokerSimulado.posiciones Escenario.broker2.
Proof.
  eexists. split; [vm_compute; reflexivity|].
  refine (proj1 (proj2 (proj2 (ticks_sin_simbolo (fun _ _ => 0) (fun _ _ => 1%Z)
                                 Escenario.simulador_vela1 0 _
                                 Escenario.broker2 _)))).
  eapply list_elem_of_lookup_2 with (i := 0%nat). vm_compute. reflexivity.
Defined.

(** ** Metrics of a ledger with trades *)

Section MetricasConOperaciones.

Import BacktestEngine.

Variable sqrt : Q -> Q.

Lemma Qle_bool_false x y : Qle_bool x y = false -> y < x.
Proof.
  intros H. apply Qnot_le_lt. intros Hle. apply Qle_bool_iff in Hle. congruence.
Qed.

(** The running maximum is at or above the value it stands beside, and
    positive when the values are. *)
Lemma expanding_max_cota xs : forall tope,
  Forall (fun e => 0 < e) xs ->
  match tope with Some t => 0 < t | None => True end ->
  Forall2 (fun e m => 0 < e /\ e <= m) xs (expanding_max tope xs).
Proof.
  induction xs as [|x xs IH]; intros tope Hxs Ht; [constructor|].
  inversion Hxs as [|? ? Hx Hxs']; subst. cbn [expanding_max].
  constructor.
  - split; [exact Hx|]. destruct tope as [t|]; [|apply Qle_refl].
    unfold Qmax. destruct (Qle_bool x t) eqn:E;
      [now apply Qle_bool_iff | apply Qle_refl].
  - apply IH; [exact Hxs'|]. destruct tope as [t|]; [|exact Hx].
    unfold Qmax. destruct (Qle_bool x t); assumption.
Qed.

(** On a curve that never falls the running maximum is the value itself. *)
Lemma expanding_max_creciente xs : forall tope,
  StronglySorted Qle xs ->
  match tope with Some t => Forall (fun e => t <= e) xs | None => True end ->
  Forall2 (fun e m => m == e) xs (expanding_max tope xs).
Proof.
  induction xs as [|x xs IH]; intros tope Hs Ht; [constructor|].
  inversion Hs as [|? ? Hs' Hx]; subst. cbn [expanding_max].
  assert (Hm : match tope with Some t => Qmax x t | None => x end == x).
  { destruct tope as [t|]; [|reflexivity].
    inversion Ht as [|? ? Htx _]; subst. unfold Qmax.
    destruct (Qle_bool x t) eqn:E; [|reflexivity].
    apply Qle_bool_iff in E. now apply Qle_antisym. }
  constructor; [exact Hm|].
  apply IH; [exact Hs'|].
  eapply Forall_impl; [exact Hx|]. cbn. intros e He. now rewrite Hm.
Qed.

Lemma zip_with_Forall2 {A B C} (f : A -> B -> C) (R : A -> B -> Prop)
    (P : C -> Prop) xs ys :
  Forall2 R xs ys -> (forall x y, R x y -> P (f x y)) ->
  Forall P (zip_with f xs ys).
Proof.
  intros H HP. induction H as [|x y xs ys Hxy _ IH]; cbn [zip_with];
    constructor; auto.
Qed.

Lemma drawdown_cota e m :
  0 < e -> e <= m -> -100 < (e - m) / m * 100 /\ (e - m) / m * 100 <= 0.
Proof.
  intros He Hem.
  assert (Hm : 0 < m) by (eapply Qlt_le_trans; eassumption).
  assert (H1 : -1 < (e - m) / m).
  { apply Qlt_shift_div_l; [exact Hm|]. lra. }
  assert (H2 : (e - m) / m <= 0).
  { apply Qle_shift_div_r; [exact Hm|]. lra. }
  split; lra.
Qed.

Lemma serie_min_elem x xs : fold_left Qmin xs x ∈ x :: xs.
Proof.
  revert x. induction xs as [|y xs IH]; intros x; cbn [fold_left].
  - apply elem_of_cons. now left.
  - specialize (IH (Qmin x y)). apply elem_of_cons in IH.
    destruct IH as [IH | IH].
    + rewrite IH. unfold Qmin. destruct (Qle_bool x y).
      * apply elem_of_cons. now left.
      * apply elem_of_cons. right. apply elem_of_cons. now left.
    + apply elem_of_cons. right. apply elem_of_cons. now right.
Qed.

Lemma py_abs_cota d c :
  - c < d -> d <= 0 -> 0 <= py_abs d /\ py_abs d < c.
Proof.
  intros H1 H2. unfold py_abs. destruct (Qle_bool 0 d) eqn:E.
  - apply Qle_bool_iff in E. split; lra.
  - apply Qle_bool_false in E. split; lra.
Qed.

Lemma py_abs_cero d : d == 0 -> py_abs d == 0.
Proof.
  intros H. unfold py_abs. destruct (Qle_bool 0 d); lra.
Qed.

(** Winners and losers are disjoint parts of the ledger. *)
Lemma ganadoras_y_perdedoras (ops : list Operacion.t) :
  (length (filter (fun op => Qlt_bool 0 (Operacion.beneficio op)) ops)
   + length (filter (fun op => Qlt_bool (Operacion.beneficio op) 0) ops)
   <= length ops)%nat.
Proof.
  induction ops as [|op ops IH]; [reflexivity|].
  rewrite !filter_cons.
  destruct (decide (Qlt_bool 0 (Operacion.beneficio op))) as [H1|H1];
    destruct (decide (Qlt_bool (Operacion.beneficio op) 0)) as [H2|H2];
    cbn [length]; try lia.
  exfalso. apply Is_true_true in H1, H2.
  apply Qlt_bool_iff in H1, H2. lra.
Qed.

Lemma fraccion_acotada (i n : nat) :
  (i <= n)%nat -> (0 < n)%nat ->
  0 <= inject_Z (Z.of_nat i) / inject_Z (Z.of_nat n) * 100 /\
  inject_Z (Z.of_nat i) / inject_Z (Z.of_nat n) * 100 <= 100.
Proof.
  intros Hin Hn.
  assert (Hpos : 0 < inject_Z (Z.of_nat n)).
  { change 0 with (inject_Z 0). rewrite <- Zlt_Qlt. lia. }
  assert (H0 : 0 <= inject_Z (Z.of_nat i) / inject_Z (Z.of_nat n)).
  { apply Qle_shift_div_l; [exact Hpos|]. rewrite Qmult_0_l.
    change 0 with (inject_Z 0). rewrite <- Zle_Qle. lia. }
  assert (H1 : inject_Z (Z.of_nat i) / inject_Z (Z.of_nat n) <= 1).
  { apply Qle_shift_div_r; [exact Hpos|]. rewrite Qmult_1_l.
    rewrite <- Zle_Qle. lia. }
  split; lra.
Qed.

(** X16.  With trades in the ledger and a capital other than 0 the
    metrics are computed without an exception: the count is the ledger's
    length, winners and losers together are no more than that (a trade at
    exactly 0 is neither), the win rate lies between 0 and 100, the
    expectancy is 0 when there is no winner or no loser, the Sharpe ratio
    is 0 on an equity curve of at most two points, and the annualised
    return is the total return times 252 over the number of trades. *)
Theorem metricas_con_operaciones capital_inicial res :
  operaciones res <> [] ->
  ~ capital_inicial == 0 ->
  exists m,
    calcular_metricas_try sqrt capital_inicial res
    = inr (_calcular_metricas sqrt capital_inicial res) /\
    metricas (_calcular_metricas sqrt capital_inicial res) = Some m /\
    operaciones (_calcular_metricas sqrt capital_inicial res) = operaciones res /\
    total_operaciones m = length (operaciones res) /\
    (operaciones_ganadoras m + operaciones_perdedoras m
     <= total_operaciones m)%nat /\
    0 <= win_rate m /\ win_rate m <= 100 /\
    beneficio_total m = py_sum (map Operacion.beneficio (operaciones res)) /\
    (operaciones_ganadoras m = 0%nat \/ operaciones_perdedoras m = 0%nat ->
     expectancy m = 0) /\
    ((length (equity_curve res) <= 2)%nat -> sharpe_ratio m = 0) /\
    (exists rt ra,
       retorno_total m = Some rt /\ retorno_anualizado m = Some ra /\
       rt == beneficio_total m / capital_inicial * 100 /\
       ra == rt * 252 / inject_Z (Z.of_nat (total_operaciones m))).
Proof.
  intros Hops Hcap.
  assert (Hc : Qeq_bool capital_inicial 0 = false).
  { destruct (Qeq_bool capital_inicial 0) eqn:E; [|reflexivity].
    apply Qeq_bool_eq in E. contradiction. }
  unfold _calcular_metricas, calcular_metricas_try.
  destruct (operaciones res) as [|op ops] eqn:Eops; [contradiction|].
  cbv zeta. rewrite Hc.
  set (todas := op :: ops).
  set (ganadoras := filter (fun o => Qlt_bool 0 (Operacion.beneficio o)) todas).
  set (perdedoras := filter (fun o => Qlt_bool (Operacion.beneficio o) 0) todas).
  assert (Hgp : (length ganadoras + length perdedoras <= length todas)%nat)
    by apply ganadoras_y_perdedoras.
  assert (Hlen : (0 < length todas)%nat) by (cbn; lia).
  eexists. split; [reflexivity|].
  cbn [metricas operaciones total_operaciones operaciones_ganadoras
       operaciones_perdedoras win_rate beneficio_total expectancy sharpe_ratio
       retorno_total retorno_anualizado].
  split; [reflexivity|]. split; [reflexivity|]. split; [reflexivity|].
  split; [exact Hgp|].
  split; [apply fraccion_acotada; lia|].
  split; [apply fraccion_acotada; lia|].
  split; [reflexivity|].
  split.
  { intros [H|H].
    - destruct ganadoras; [reflexivity | discriminate].
    - destruct perdedoras; [|discriminate].
      destruct ganadoras; reflexivity. }
  split.
  { intros Hcurve. unfold calcular_sharpe.
    destruct (equity_curve res) as [|a [|b [|c l]]]; try reflexivity.
    cbn in Hcurve. lia. }
  eexists _, _. split; [reflexivity|]. split; [reflexivity|].
  split; [reflexivity|].
  cbn [total_operaciones]. unfold Qdiv. ring.
Qed.

(** X17.  With trades in the ledger, a capital other than 0 and an equity
    curve of positive values: the stored drawdowns are as many as the
    curve's points, each above -100 and at most 0; the maximum drawdown is
    at least 0 and below 100; and it is 0 when the curve never falls. *)
Theorem drawdown_acotado capital_inicial res :
  operaciones res <> [] ->
  ~ capital_inicial == 0 ->
  Forall (fun p => 0 < pe_equity p) (equity_curve res) ->
  let res' := _calcular_metricas sqrt capital_inicial res in
  exists m,
    metricas res' = Some m /\
    length (drawdowns res') = length (equity_curve res) /\
    Forall (fun d => -100 < d /\ d <= 0) (drawdowns res') /\
    0 <= drawdown_maximo m /\ drawdown_maximo m < 100 /\
    (StronglySorted Qle (map pe_equity (equity_curve res)) ->
     drawdown_maximo m == 0).
Proof.
  intros Hops Hcap Hpos res'. subst res'.
  assert (Hc : Qeq_bool capital_inicial 0 = false).
  { destruct (Qeq_bool capital_inicial 0) eqn:E; [|reflexivity].
    apply Qeq_bool_eq in E. contradiction. }
  unfold _calcular_metricas, calcular_metricas_try.
  destruct (operaciones res) as [|op ops] eqn:Eops; [contradiction|].
  cbv zeta. rewrite Hc.
  set (serie := map pe_equity (equity_curve res)).
  assert (Hserie : Forall (fun e => 0 < e) serie).
  { subst serie. apply Forall_fmap. exact Hpos. }
  set (dds := zip_with (fun e m => (e - m) / m * 100) serie
                (expanding_max None serie)).
  assert (Hdds : Forall (fun d => -100 < d /\ d <= 0) dds).
  { subst dds.
    apply (zip_with_Forall2 _ _ _ _ _ (expanding_max_cota serie None Hserie I)).
    intros e m [He Hem]. now apply drawdown_cota. }
  assert (Hlen : length dds = length (equity_curve res)).
  { subst dds.
    pose proof (expanding_max_cota serie None Hserie I) as H2.
    apply Forall2_length in H2. rewrite length_zip_with, <- H2.
    subst serie. rewrite length_map. lia. }
  eexists. split; [reflexivity|].
  cbn [drawdowns drawdown_maximo].
  split; [exact Hlen|]. split; [exact Hdds|].
  destruct dds as [|d ds] eqn:Edds.
  - cbn. split; [lra|]. split; [lra|]. intros _. reflexivity.
  - change (0 <? length (d :: ds))%nat with true. cbn iota.
    assert (Hin : serie_min (d :: ds) ∈ d :: ds) by apply serie_min_elem.
    pose proof (proj1 (Forall_forall _ _) Hdds _ Hin) as [Hlo Hhi].
    destruct (py_abs_cota (serie_min (d :: ds)) 100 Hlo Hhi) as [Ha Hb].
    split; [exact Ha|]. split; [exact Hb|].
    intros Hsorted. apply py_abs_cero.
    assert (Hcero : Forall (fun x => x == 0) (d :: ds)).
    { rewrite <- Edds.
      assert (H2 : Forall2 (fun e m => 0 < e /\ m == e) serie
                     (expanding_max None serie)).
      { pose proof (expanding_max_creciente serie None Hsorted I) as Hc2.
        pose proof (expanding_max_cota serie None Hserie I) as Hc3.
        clear -Hc2 Hc3. revert Hc3.
        induction Hc2 as [|e m es ms Hme _ IH]; intros Hc3; [constructor|].
        inversion Hc3 as [|? ? ? ? [He _] Hc3']; subst.
        constructor; [now split | now apply IH]. }
      apply (zip_with_Forall2 _ _ _ _ _ H2).
      intros e m [He Hme]. unfold Qdiv. rewrite Hme.
      assert (Hne : ~ e == 0) by lra.
      field. exact Hne. }
    exact (proj1 (Forall_forall _ _) Hcero _ Hin).
Qed.

End MetricasConOperaciones.

(** ** The end of a run *)

Section Finalizar.

Import BrokerSimulado BacktestEngine.

Variable sqrt : Q -> Q.

(** What [cerrar] leaves of a broker whose open list holds live
    references. *)
Lemma cerrar_resumen self :
  bien_formado self ->
  posiciones (cerrar self) = [] /\
  length (historial (cerrar self))
  = (length (historial self) + length (posiciones self))%nat.
Proof.
  intros [_ Hvivas]. unfold cerrar.
  destruct (cerrar_bucle (posiciones_abiertas self) self (reflexivity _))
    as (H1 & H2 & H3 & H4 & _).
  cbv zeta in H1, H2, H3, H4.
  set (b' := fold_left
               (fun b p => snd (cerrar_orden b (Posicion.ticket p) None))
               (posiciones_abiertas self) self) in *.
  assert (Hlen : length (posiciones_abiertas self) = length (posiciones self)).
  { unfold posiciones_abiertas. clear -Hvivas.
    induction (posiciones self) as [|r l IH]; [reflexivity|]. simpl.
    destruct (Hvivas r ltac:(apply elem_of_cons; now left)) as [q Hq].
    unfold leer at 1. rewrite Hq. simpl. f_equal. apply IH.
    intros r' Hr'. apply Hvivas. apply elem_of_cons. now right. }
  clearbody b'. split.
  - unfold posiciones_abiertas in H1.
    destruct (posiciones b') as [|r l]; [reflexivity|]. exfalso.
    assert (Hr : r ∈ posiciones self).
    { apply H3. apply elem_of_cons. now left. }
    destruct (Hvivas r Hr) as [q Hq].
    simpl in H1. unfold leer at 1 in H1. rewrite H2, Hq in H1. discriminate.
  - rewrite H4, Hlen. reflexivity.
Qed.

(** X18.  [_finalizar_backtest] leaves no position open, and the ledger of
    the results is the broker's whole history, the positions closed at
    the end included: with a capital other than 0 the metrics count the
    trades closed during the run plus the positions that were still open;
    the equity curve is not touched (the closing at the end adds no point
    to it). *)
Theorem finalizar_backtest_cuenta capital_inicial broker res :
  bien_formado broker ->
  ~ capital_inicial == 0 ->
  let r := _finalizar_backtest sqrt capital_inicial broker res in
  posiciones (fst r) = [] /\
  operaciones (snd r) = historial (fst r) /\
  equity_curve (snd r) = equity_curve res /\
  exists m,
    metricas (snd r) = Some m /\
    total_operaciones m
    = (length (historial broker) + length (posiciones broker))%nat.
Proof.
  intros Hbf Hcap r. subst r.
  destruct (cerrar_resumen broker Hbf) as [Hvac Hlen].
  assert (Hc : Qeq_bool capital_inicial 0 = false).
  { destruct (Qeq_bool capital_inicial 0) eqn:E; [|reflexivity].
    apply Qeq_bool_eq in E. contradiction. }
  unfold _finalizar_backtest. cbv zeta. cbn [fst snd].
  unfold obtener_historial, _calcular_metricas, calcular_metricas_try.
  cbn [operaciones equity_curve drawdowns metricas].
  split; [exact Hvac|].
  destruct (historial (cerrar broker)) as [|op ops] eqn:Eh.
  - cbn [operaciones equity_curve metricas]. split; [reflexivity|].
    split; [reflexivity|]. eexists. split; [reflexivity|].
    cbn [total_operaciones]. cbn [length] in Hlen. exact Hlen.
  - cbv zeta. rewrite Hc. cbn [operaciones equity_curve metricas].
    split; [reflexivity|]. split; [reflexivity|].
    eexists. split; [reflexivity|]. cbn [total_operaciones]. exact Hlen.
Qed.

End Finalizar.

(** The two positions of [broker2], closed at the end of a run, as the
    ledger of the results; the curve falls and recovers. *)
Lemma operaciones_broker2 :
  length (BrokerSimulado.historial (BrokerSimulado.cerrar Escenario.broker2))
  = 2%nat.
Proof. vm_compute. reflexivity. Qed.

(** X16 on that ledger with capital 10000 and two equity points. *)
Lemma metricas_con_operaciones_broker2 :
  exists m,
    BacktestEngine.metricas
      (BacktestEngine._calcular_metricas (fun x => x) 10000
         (BacktestEngine.mkResultados
            (BrokerSimulado.historial (BrokerSimulado.cerrar Escenario.broker2))
            None
            [BacktestEngine.mkPunto 0 10000 10000;
             BacktestEngine.mkPunto 60 9990 10000]
            []))
    = Some m /\
    BacktestEngine.total_operaciones m = 2%nat /\
    0 <= BacktestEngine.win_rate m /\ BacktestEngine.win_rate m <= 100 /\
    BacktestEngine.sharpe_ratio m = 0.
Proof.
  assert (Hops : BacktestEngine.operaciones
                   (BacktestEngine.mkResultados
                      (BrokerSimulado.historial
                         (BrokerSimulado.cerrar Escenario.broker2))
                      None
                      [BacktestEngine.mkPunto 0 10000 10000;
                       BacktestEngine.mkPunto 60 9990 10000]
                      []) <> []).
  { intros H. apply (f_equal (@length _)) in H.
    cbn [BacktestEngine.operaciones] in H.
    rewrite operaciones_broker2 in H. discriminate. }
  assert (Hcap : ~ 10000 == 0) by (intros H; discriminate H).
  destruct (metricas_con_operaciones (fun x => x) 10000 _ Hops Hcap)
    as (m & _ & Hm & _ & Ht & _ & Hw0 & Hw1 & _ & _ & Hs & _).
  exists m. split; [exact Hm|].
  split; [rewrite Ht; exact operaciones_broker2|].
  split; [exact Hw0|]. split; [exact Hw1|].
  apply Hs. cbn. lia.
Defined.

(** X17 on the same ledger and a curve that falls and recovers. *)
Lemma drawdown_acotado_broker2 :
  exists m,
    BacktestEngine.metricas
      (BacktestEngine._calcular_metricas (fun x => x) 10000
         (BacktestEngine.mkResultados
            (BrokerSimulado.historial (BrokerSimulado.cerrar Escenario.broker2))
            None
            [BacktestEngine.mkPunto 0 10000 10000;
             BacktestEngine.mkPunto 60 9990 10000;
             BacktestEngine.mkPunto 120 10010 10000]
            []))
    = Some m /\
    0 <= BacktestEngine.drawdown_maximo m /\
    BacktestEngine.drawdown_maximo m < 100.
Proof.
  assert (Hops : BacktestEngine.operaciones
                   (BacktestEngine.mkResultados
                      (BrokerSimulado.historial
                         (BrokerSimulado.cerrar Escenario.broker2))
                      None
                      [BacktestEngine.mkPunto 0 10000 10000;
                       BacktestEngine.mkPunto 60 9990 10000;
                       BacktestEngine.mkPunto 120 10010 10000]
                      []) <> []).
  { intros H. apply (f_equal (@length _)) in H.
    cbn [BacktestEngine.operaciones] in H.
    rewrite operaciones_broker2 in H. discriminate. }
  assert (Hcap : ~ 10000 == 0) by (intros H; discriminate H).
  assert (Hpos : Forall (fun p => 0 < BacktestEngine.pe_equity p)
                   (BacktestEngine.equity_curve
                      (BacktestEngine.mkResultados
                         (BrokerSimulado.historial
                            (BrokerSimulado.cerrar Escenario.broker2))
                         None
                         [BacktestEngine.mkPunto 0 10000 10000;
                          BacktestEngine.mkPunto 60 9990 10000;
                          BacktestEngine.mkPunto 120 10010 10000]
                         []))).
  { cbn [BacktestEngine.equity_curve]. repeat constructor. }
  destruct (drawdown_acotado (fun x => x) 10000 _ Hops Hcap Hpos)
    as (m & Hm & _ & _ & H0 & H1 & _).
  exists m. split; [exact Hm|]. split; [exact H0 | exact H1].
Defined.

(** X18 on the broker that still holds its two positions at the end. *)
Lemma finalizar_backtest_cuenta_broker2 :
  BrokerSimulado.posiciones
    (fst (BacktestEngine._finalizar_backtest (fun x => x) 10000
            Escenario.broker2 (BacktestEngine.mkResultados [] None [] [])))
  = [] /\
  exists m,
    BacktestEngine.metricas
      (snd (BacktestEngine._finalizar_backtest (fun x => x) 10000
              Escenario.broker2 (BacktestEngine.mkResultados [] None [] [])))
    = Some m /\
    BacktestEngine.total_operaciones m = 2%nat.
Proof.
  assert (Hbf : BrokerSimulado.bien_formado Escenario.broker2).
  { exact (proj1 (bien_formado_alcanzable 10000 2.5 2.0
                    [BrokerSimulado.LlColocar
                       (Escenario.compra (Some 1.10000) None None);
                     BrokerSimulado.LlColocar
                       (Escenario.compra (Some 1.10000) (Some 1.0990)
                          (Some 1.1100))])). }
  assert (Hcap : ~ 10000 == 0) by (intros H; discriminate H).
  destruct (finalizar_backtest_cuenta (fun x => x) 10000 Escenario.broker2
              (BacktestEngine.mkResultados [] None [] []) Hbf Hcap)
    as (Hp & _ & _ & m & Hm & Ht).
  split; [exact Hp|]. exists m. split; [exact Hm | exact Ht].
Defined.

(** ** The risk manager *)

Section Riesgo.

Import RiskManager.

Lemma py_abs_no_negativo d : 0 <= py_abs d.
Proof.
  unfold py_abs. destruct (Qle_bool 0 d) eqn:E.
  - now apply Qle_bool_iff.
  - apply Qle_bool_false in E. lra.
Qed.

Lemma py_max_cota a b : a <= py_max a b.
Proof.
  unfold py_max. destruct (Qlt_bool a b) eqn:E; [|apply Qle_refl].
  apply Qlt_bool_iff in E. lra.
Qed.

Lemma redondeo_par_cota x : (Qfloor x <= redondeo_par x)%Z.
Proof.
  unfold redondeo_par. cbv zeta.
  destruct (Qlt_bool (x - inject_Z (Qfloor x)) (1 # 2)); [lia|].
  destruct (Qlt_bool (1 # 2) (x - inject_Z (Qfloor x))); [lia|].
  destruct (Z.even (Qfloor x)); lia.
Qed.

(** Rounding to two decimals does not take a volume below 0.01. *)
Lemma py_round2_minimo x : 0.01 <= x -> 0.01 <= py_round2 x.
Proof.
  intros H. unfold py_round2.
  assert (H1 : (1 <= Qfloor (x * 100))%Z).
  { change 1%Z with (Qfloor 1). apply Qfloor_resp_le. lra. }
  pose proof (redondeo_par_cota (x * 100)) as H2.
  assert (H3 : inject_Z 1 <= inject_Z (redondeo_par (x * 100))).
  { rewrite <- Zle_Qle. lia. }
  apply Qle_shift_div_l; [reflexivity|].
  change (inject_Z 1) with 1 in H3. lra.
Qed.

Lemma volumen_minimo self senal :
  0.01 <= ConfigRiesgo.lotaje_minimo (config self) ->
  0.01 <= _calcular_volumen self senal.
Proof.
  intros H. unfold _calcular_volumen. cbv zeta.
  destruct (distancia_precio self senal) as [d|]; [|exact H].
  destruct (Qeq_bool (d * 10000 * 10) 0); [exact H|].
  apply py_round2_minimo.
  eapply Qle_trans; [exact H | apply py_max_cota].
Qed.

(** What makes a level dict give a positive distance. *)
Lemma stop_loss_forma self senal precio dir :
  Senal.precio_entrada senal = Some precio ->
  Senal.direccion senal = Some dir ->
  0 < precio ->
  let csl := ConfigRiesgo.stop_loss (config self) in
  (Nivel.tipo csl = Some "atr" /\
   exists m, Nivel.multiplicador_atr csl = Some m /\
             0 < default 0.001 (Senal.atr senal) * m) \/
  (Nivel.tipo csl = Some "fijo" /\
   exists p, Nivel.puntos_fijo csl = Some p /\ 0 < p) \/
  (Nivel.tipo csl = Some "porcentaje" /\
   exists p, Nivel.porcentaje csl = Some p /\ 0 < p) ->
  exists d, 0 < d /\
    _calcular_stop_loss self senal
    = Some (if String.eqb dir "COMPRA" then precio - d else precio + d).
Proof.
  intros Hp Hd Hpos csl H. unfold _calcular_stop_loss, desplazar.
  fold csl. rewrite Hp, Hd. cbn [mbind option_bind].
  destruct H as [(Ht & m & Hm & Hd1) | [(Ht & p & Hq & Hd1) | (Ht & p & Hq & Hd1)]];
    rewrite Ht; cbn [mbind option_bind]; simpl String.eqb; cbn iota;
    rewrite ?Hm, ?Hq; cbn [mbind option_bind].
  - eexists. split; [exact Hd1 | reflexivity].
  - exists (p / 10000). split; [|reflexivity].
    apply Qlt_shift_div_l; [reflexivity | lra].
  - exists (precio * (p / 100)). split; [|reflexivity].
    apply Qmult_lt_0_compat; [exact Hpos|].
    apply Qlt_shift_div_l; [reflexivity | lra].
Qed.

Lemma take_profit_forma self senal precio dir sl :
  Senal.precio_entrada senal = Some precio ->
  Senal.direccion senal = Some dir ->
  0 < precio ->
  ~ sl == precio ->
  let ctp := ConfigRiesgo.take_profit (config self) in
  (Nivel.tipo ctp = Some "rr" /\
   exists r, Nivel.ratio_riesgo_recompensa ctp = Some r /\ 0 < r) \/
  (Nivel.tipo ctp = Some "fijo" /\
   exists p, Nivel.puntos_fijo ctp = Some p /\ 0 < p) \/
  (Nivel.tipo ctp = Some "porcentaje" /\
   exists p, Nivel.porcentaje ctp = Some p /\ 0 < p) ->
  exists d, 0 < d /\
    _calcular_take_profit self senal (Some sl)
    = Some (if String.eqb dir "COMPRA" then precio + d else precio - d) /\
    (forall r, Nivel.tipo ctp = Some "rr" ->
               Nivel.ratio_riesgo_recompensa ctp = Some r ->
               d = py_abs (precio - sl) * r).
Proof.
  intros Hp Hd Hpos Hsl ctp H. unfold _calcular_take_profit, desplazar.
  fold ctp. rewrite Hp, Hd. cbn [mbind option_bind].
  destruct H as [(Ht & r & Hm & Hd1) | [(Ht & p & Hq & Hd1) | (Ht & p & Hq & Hd1)]];
    rewrite Ht; cbn [mbind option_bind]; simpl String.eqb; cbn iota;
    rewrite ?Hm, ?Hq; cbn [mbind option_bind].
  - exists (py_abs (precio - sl) * r). split; [|split].
    + apply Qmult_lt_0_compat; [|exact Hd1].
      unfold py_abs. destruct (Qle_bool 0 (precio - sl)) eqn:E.
      * apply Qle_bool_iff in E.
        destruct (Qlt_le_dec 0 (precio - sl)) as [Hlt|Hle]; [exact Hlt|].
        exfalso. apply Hsl. lra.
      * apply Qle_bool_false in E. lra.
    + reflexivity.
    + intros r' _ Hr'. congruence.
  - exists (p / 10000). split; [|split; [reflexivity|]].
    + apply Qlt_shift_div_l; [reflexivity | lra].
    + intros r Habs. discriminate.
  - exists (precio * (p / 100)). split; [|split; [reflexivity|]].
    + apply Qmult_lt_0_compat; [exact Hpos|].
      apply Qlt_shift_div_l; [reflexivity | lra].
    + intros r Habs. discriminate.
Qed.

(** X19.  With a positive entry price and level dicts of a known kind
    with positive figures, the stop loss and the take profit exist and lie
    on opposite sides of the entry: below and above it for ['COMPRA'],
    above and below for any other direction; under ['rr'] the distance to
    the take profit is the ratio times the distance to the stop loss. *)
Theorem niveles_a_ambos_lados self senal precio dir :
  Senal.precio_entrada senal = Some precio ->
  Senal.direccion senal = Some dir ->
  0 < precio ->
  let csl := ConfigRiesgo.stop_loss (config self) in
  let ctp := ConfigRiesgo.take_profit (config self) in
  (Nivel.tipo csl = Some "atr" /\
   exists m, Nivel.multiplicador_atr csl = Some m /\
             0 < default 0.001 (Senal.atr senal) * m) \/
  (Nivel.tipo csl = Some "fijo" /\
   exists p, Nivel.puntos_fijo csl = Some p /\ 0 < p) \/
  (Nivel.tipo csl = Some "porcentaje" /\
   exists p, Nivel.porcentaje csl = Some p /\ 0 < p) ->
  (Nivel.tipo ctp = Some "rr" /\
   exists r, Nivel.ratio_riesgo_recompensa ctp = Some r /\ 0 < r) \/
  (Nivel.tipo ctp = Some "fijo" /\
   exists p, Nivel.puntos_fijo ctp = Some p /\ 0 < p) \/
  (Nivel.tipo ctp = Some "porcentaje" /\
   exists p, Nivel.porcentaje ctp = Some p /\ 0 < p) ->
  exists sl tp,
    _calcular_stop_loss self senal = Some sl /\
    _calcular_take_profit self senal (Some sl) = Some tp /\
    (dir = "COMPRA" -> sl < precio /\ precio < tp) /\
    (dir <> "COMPRA" -> tp < precio /\ precio < sl) /\
    (forall r, Nivel.tipo ctp = Some "rr" ->
               Nivel.ratio_riesgo_recompensa ctp = Some r ->
               py_abs (tp - precio) == r * py_abs (precio - sl)).
Proof.
  intros Hp Hd Hpos csl ctp Hsl Htp.
  destruct (stop_loss_forma self senal precio dir Hp Hd Hpos Hsl)
    as (d1 & Hd1 & Esl).
  set (sl := if String.eqb dir "COMPRA" then precio - d1 else precio + d1) in *.
  assert (Hne : ~ sl == precio).
  { subst sl. destruct (String.eqb dir "COMPRA"); lra. }
  destruct (take_profit_forma self senal precio dir sl Hp Hd Hpos Hne Htp)
    as (d2 & Hd2 & Etp & Hrr).
  exists sl, (if String.eqb dir "COMPRA" then precio + d2 else precio - d2).
  split; [exact Esl|]. split; [exact Etp|]. subst sl.
  split; [|split].
  - intros ->. rewrite String.eqb_refl. split; lra.
  - intros Hdir. apply String.eqb_neq in Hdir. rewrite Hdir. split; lra.
  - intros r Ht Hr. specialize (Hrr r Ht Hr).
    assert (Hd2' : 0 <= py_abs (if String.eqb dir "COMPRA"
                                then precio - (precio - d1)
                                else precio - (precio + d1)))
      by apply py_abs_no_negativo.
    destruct (String.eqb dir "COMPRA").
    + assert (E1 : precio + d2 - precio == d2) by ring.
      unfold py_abs at 1. destruct (Qle_bool 0 (precio + d2 - precio)) eqn:E.
      * rewrite E1, Hrr. ring.
      * apply Qle_bool_false in E. lra.
    + assert (E1 : precio - d2 - precio == - d2) by ring.
      unfold py_abs at 1. destruct (Qle_bool 0 (precio - d2 - precio)) eqn:E.
      * apply Qle_bool_iff in E. lra.
      * rewrite E1, Hrr. ring.
Qed.

(** X20.  [_calcular_volumen] never goes below 0.01 when the configured
    minimum lot is at least 0.01, whatever the signal and the rest of the
    configuration (a missing key, a zero distance): the constructor of
    [Orden] accepts the volume. *)
Theorem volumen_aceptado self senal campos :
  0.01 <= ConfigRiesgo.lotaje_minimo (config self) ->
  Orden.volumen campos = _calcular_volumen self senal ->
  0.01 <= _calcular_volumen self senal /\
  Orden.__init__ campos = inr campos.
Proof.
  intros H Hv. pose proof (volumen_minimo self senal H) as Hmin.
  split; [exact Hmin|]. unfold Orden.__init__, Orden.__post_init__.
  rewrite Hv. destruct (Qlt_bool (_calcular_volumen self senal) 0.01) eqn:E;
    [|reflexivity].
  apply Qlt_bool_iff in E. lra.
Qed.

(** The shape of an order that [preparar_orden] returns. *)
Lemma preparar_orden_devuelta self senal orden self' :
  preparar_orden self senal = (inr orden, self') ->
  exists sl tp,
    _calcular_stop_loss self senal = Some sl /\
    Orden.stop_loss orden = Some sl /\
    Orden.take_profit orden = Some tp /\
    Orden.tipo_orden orden = "market" /\
    0.01 <= Orden.volumen orden.
Proof.
  unfold preparar_orden. cbv zeta.
  destruct (Senal.simbolo senal) as [simbolo|]; [|discriminate].
  destruct (Senal.direccion senal) as [direccion|]; [|discriminate].
  destruct (Senal.precio_entrada senal) as [precio|] eqn:Hp; [|discriminate].
  unfold Orden.__init__, Orden.__post_init__. cbn [Orden.volumen].
  destruct (Qlt_bool (_calcular_volumen self senal) 0.01) eqn:Ev; [discriminate|].
  assert (Hv : 0.01 <= _calcular_volumen self senal).
  { apply Qnot_lt_le. intros Hlt. apply Qlt_bool_iff in Hlt. congruence. }
  destruct (_calcular_stop_loss self senal) as [sl|] eqn:Esl;
    cbn [_actualizar_riesgo_acumulado]; [|discriminate].
  destruct (Qeq_bool precio 0); [discriminate|].
  destruct (_calcular_take_profit self senal (Some sl)) as [tp|] eqn:Etp;
    [|discriminate].
  intros [= <- <-]. exists sl, tp. repeat split; try reflexivity. exact Hv.
Qed.

(** X21.  What [preparar_orden] returns and leaves behind, for every
    manager and signal: an order it returns carries a stop loss and a take
    profit, a volume of at least 0.01, and the day's count has advanced by
    one and the day's risk by the distance from the entry to the stop over
    the entry; when it raises for a level that is [None], either no stop
    loss was computed and the manager is as before, or the stop loss was
    there and the day's count and risk were moved in that same way
    although no order came out (the risk stays equal when the stop is at
    the entry); when it raises for another reason the manager is as
    before. *)
Theorem preparar_orden_casos self senal :
  match preparar_orden self senal with
  | (inr orden, self') =>
      exists sl tp precio,
        _calcular_stop_loss self senal = Some sl /\
        Senal.precio_entrada senal = Some precio /\
        Orden.stop_loss orden = Some sl /\
        Orden.take_profit orden = Some tp /\
        Orden.precio orden = Some precio /\
        Orden.tipo_orden orden = "market" /\
        0.01 <= Orden.volumen orden /\
        operaciones_hoy self' = S (operaciones_hoy self) /\
        riesgo_acumulado_hoy self'
        = riesgo_acumulado_hoy self + py_abs (precio - sl) / precio
  | (inl (ErrorPreparando TypeError), self') =>
      (_calcular_stop_loss self senal = None /\ self' = self) \/
      (exists sl precio,
         _calcular_stop_loss self senal = Some sl /\
         Senal.precio_entrada senal = Some precio /\
         _calcular_take_profit self senal (Some sl) = None /\
         operaciones_hoy self' = S (operaciones_hoy self) /\
         riesgo_acumulado_hoy self'
         = riesgo_acumulado_hoy self + py_abs (precio - sl) / precio)
  | (inl _, self') => self' = self
  end.
Proof.
  unfold preparar_orden. cbv zeta.
  destruct (Senal.simbolo senal) as [simbolo|]; [|reflexivity].
  destruct (Senal.direccion senal) as [direccion|]; [|reflexivity].
  destruct (Senal.precio_entrada senal) as [precio|] eqn:Hp; [|reflexivity].
  unfold Orden.__init__, Orden.__post_init__. cbn [Orden.volumen].
  destruct (Qlt_bool (_calcular_volumen self senal) 0.01) eqn:Ev; [reflexivity|].
  assert (Hv : 0.01 <= _calcular_volumen self senal).
  { apply Qnot_lt_le. intros Hlt. apply Qlt_bool_iff in Hlt. congruence. }
  destruct (_calcular_stop_loss self senal) as [sl|] eqn:Esl.
  - cbn [_actualizar_riesgo_acumulado].
    destruct (Qeq_bool precio 0); [reflexivity|].
    destruct (_calcular_take_profit self senal (Some sl)) as [tp|] eqn:Etp.
    + exists sl, tp, precio. repeat split; try reflexivity. exact Hv.
    + right. exists sl, precio. repeat split; try reflexivity. exact Etp.
  - cbn [_actualizar_riesgo_acumulado]. left. split; reflexivity.
Qed.

(** The day's count after one signal of the loop. *)
Lemma validar_senal_cuenta self hoy senal :
  (operaciones_hoy self <= max_operaciones_diarias self)%nat ->
  let r := validar_senal self hoy senal in
  max_operaciones_diarias (snd r) = max_operaciones_diarias self /\
  config (snd r) = config self /\
  (operaciones_hoy (snd r) <= max_operaciones_diarias self)%nat /\
  (fst r = true ->
   (operaciones_hoy (snd r) < max_operaciones_diarias self)%nat).
Proof.
  intros H. unfold validar_senal, _verificar_reinicio_diario.
  destruct (bool_decide (hoy <> ultimo_reinicio self));
    cbn [max_operaciones_diarias operaciones_hoy riesgo_maximo_diario
         riesgo_acumulado_hoy config].
  - destruct (Nat.leb_spec (max_operaciones_diarias self) 0);
      [cbn; repeat split; try lia; discriminate|].
    repeat match goal with
           | |- context [if ?c then _ else _] => destruct c
           end; cbn; repeat split; try lia; try discriminate.
  - destruct (Nat.leb_spec (max_operaciones_diarias self) (operaciones_hoy self));
      [cbn; repeat split; try lia; discriminate|].
    repeat match goal with
           | |- context [if ?c then _ else _] => destruct c
           end; cbn; repeat split; try lia; try discriminate.
Qed.

Lemma preparar_orden_cuenta self senal :
  max_operaciones_diarias (snd (preparar_orden self senal))
  = max_operaciones_diarias self /\
  config (snd (preparar_orden self senal)) = config self /\
  (operaciones_hoy (snd (preparar_orden self senal))
   <= S (operaciones_hoy self))%nat.
Proof.
  unfold preparar_orden. cbv zeta.
  destruct (Senal.simbolo senal); [|cbn; repeat split; lia].
  destruct (Senal.direccion senal); [|cbn; repeat split; lia].
  destruct (Senal.precio_entrada senal) as [precio|]; [|cbn; repeat split; lia].
  destruct (Orden.__init__ _); [cbn; repeat split; lia|].
  destruct (_calcular_stop_loss self senal) as [sl|];
    cbn [_actualizar_riesgo_acumulado].
  - destruct (Qeq_bool precio 0); [cbn; repeat split; lia|].
    destruct (_calcular_take_profit self senal (Some sl));
      cbn; repeat split; lia.
  - cbn; repeat split; lia.
Qed.

Lemma procesar_senales_cuenta senales : forall self,
  (operaciones_hoy self <= max_operaciones_diarias self)%nat ->
  max_operaciones_diarias (snd (procesar_senales self senales))
  = max_operaciones_diarias self /\
  (operaciones_hoy (snd (procesar_senales self senales))
   <= max_operaciones_diarias self)%nat.
Proof.
  induction senales as [|[hoy senal] resto IH]; intros self H;
    cbn [procesar_senales]; [cbn; split; [reflexivity | exact H]|].
  destruct (validar_senal_cuenta self hoy senal H) as (Hm & _ & Hle & Hlt).
  destruct (validar_senal self hoy senal) as [valida self1].
  cbn [fst snd] in Hm, Hle, Hlt.
  destruct valida.
  - specialize (Hlt eq_refl).
    destruct (preparar_orden_cuenta self1 senal) as (Hm2 & _ & Hle2).
    destruct (preparar_orden self1 senal) as [[e|orden] self2];
      cbn [fst snd] in Hm2, Hle2 |- *.
    + split; [congruence | lia].
    + destruct (IH self2 ltac:(lia)) as [Hm3 Hle3].
      destruct (procesar_senales self2 resto) as [[e|ordenes] self3];
        cbn [fst snd] in Hm3, Hle3 |- *; split; (congruence || lia).
  - destruct (IH self1 ltac:(lia)) as [Hm3 Hle3].
    split; [congruence | lia].
Qed.

(** X22.  Through the gate of the engine's loop ([validar_senal], then
    [preparar_orden]) the day's count of a new manager never passes 10,
    whatever the signals, the dates the clock shows and the point where an
    [ErrorRiesgo] ends the loop. *)
Theorem limite_diario cfg hoy senales :
  (operaciones_hoy (snd (procesar_senales (__init__ cfg hoy) senales))
   <= 10)%nat.
Proof.
  destruct (procesar_senales_cuenta senales (__init__ cfg hoy) ltac:(cbn; lia))
    as [_ H].
  exact H.
Qed.

(** X23.  Every order [preparar_orden] returns is a market order, so
    [BrokerSimulado.colocar_orden] fills it at once and never queues it:
    the result reports success, one position is added to the open list
    with the order's volume and levels, the pending orders and the ledger
    stay as they were, and the commission is taken from the balance. *)
Theorem orden_preparada_se_ejecuta self senal orden self' broker :
  preparar_orden self senal = (inr orden, self') ->
  let r := BrokerSimulado.colocar_orden broker orden in
  ResultadoOrden.exito (fst r) = true /\
  ResultadoOrden.mensaje (fst r) = OrdenEjecutada /\
  BrokerSimulado.ordenes_pendientes (snd r)
  = BrokerSimulado.ordenes_pendientes broker /\
  BrokerSimulado.historial (snd r) = BrokerSimulado.historial broker /\
  BrokerSimulado.balance (snd r)
  = BrokerSimulado.balance broker
    - Orden.volumen orden * BrokerSimulado.comision_por_lote broker /\
  exists ref posicion,
    BrokerSimulado.posiciones (snd r)
    = BrokerSimulado.posiciones broker ++ [ref] /\
    BrokerSimulado.leer (snd r) ref = Some posicion /\
    Posicion.volumen posicion = Orden.volumen orden /\
    0.01 <= Posicion.volumen posicion /\
    is_Some (Posicion.stop_loss posicion) /\
    is_Some (Posicion.take_profit posicion) /\
    Posicion.stop_loss posicion = _calcular_stop_loss self senal.
Proof.
  intros E r. subst r.
  destruct (preparar_orden_devuelta self senal orden self' E)
    as (sl & tp & Hsl & Hosl & Hotp & Hm & Hv).
  unfold BrokerSimulado.colocar_orden. rewrite Hm.
  change (String.eqb "market" "market") with true. cbv zeta. cbn iota.
  cbn [fst snd ResultadoOrden.exito ResultadoOrden.mensaje
       BrokerSimulado.ordenes_pendientes BrokerSimulado.historial
       BrokerSimulado.balance BrokerSimulado.posiciones].
  repeat (split; [reflexivity|]).
  eexists _, _. split; [reflexivity|]. split.
  { unfold BrokerSimulado.leer. cbn [BrokerSimulado.objetos].
    apply lookup_insert_eq. }
  cbn [Posicion.volumen Posicion.stop_loss Posicion.take_profit].
  split; [reflexivity|]. split; [exact Hv|].
  rewrite Hosl, Hotp, Hsl. repeat split; eauto.
Qed.

End Riesgo.

(** X19 on the configuration and the signal of the tests: a BUY at
    1.10000 with ATR 0.0010, stop loss at 1.5 ATR, take profit at 2:1. *)
Lemma niveles_a_ambos_lados_prueba :
  exists sl tp,
    RiskManager._calcular_stop_loss Escenario.gestor0 Escenario.senal_prueba
    = Some sl /\
    RiskManager._calcular_take_profit Escenario.gestor0 Escenario.senal_prueba
      (Some sl) = Some tp /\
    sl < 1.10000 /\ 1.10000 < tp /\
    py_abs (tp - 1.10000) == 2.0 * py_abs (1.10000 - sl).
Proof.
  destruct (niveles_a_ambos_lados Escenario.gestor0 Escenario.senal_prueba
              1.10000 "COMPRA" eq_refl eq_refl ltac:(reflexivity))
    as (sl & tp & Hsl & Htp & Hc & _ & Hrr).
  - left. split; [reflexivity|]. exists 1.5. split; reflexivity.
  - left. split; [reflexivity|]. exists 2.0. split; reflexivity.
  - exists sl, tp. split; [exact Hsl|]. split; [exact Htp|].
    destruct (Hc eq_refl) as [H1 H2]. split; [exact H1|]. split; [exact H2|].
    exact (Hrr 2.0 eq_refl eq_refl).
Defined.

(** X20 on the same manager and signal. *)
Lemma volumen_aceptado_prueba :
  0.01 <= RiskManager._calcular_volumen Escenario.gestor0 Escenario.senal_prueba /\
  Orden.__init__
    (Orden.mk "EURUSD" "COMPRA"
       (RiskManager._calcular_volumen Escenario.gestor0 Escenario.senal_prueba)
       (Some 1.10000) None None EmptyString 234000 10 "market")
  = inr (Orden.mk "EURUSD" "COMPRA"
           (RiskManager._calcular_volumen Escenario.gestor0 Escenario.senal_prueba)
           (Some 1.10000) None None EmptyString 234000 10 "market").
Proof.
  apply (volumen_aceptado Escenario.gestor0 Escenario.senal_prueba);
    [discriminate | reflexivity].
Defined.

(** X23 on the order prepared for that signal and the new broker. *)
Lemma orden_preparada_se_ejecuta_prueba :
  exists orden,
    fst (RiskManager.preparar_orden Escenario.gestor0 Escenario.senal_prueba)
    = inr orden /\
    ResultadoOrden.exito
      (fst (BrokerSimulado.colocar_orden Escenario.broker0 orden)) = true.
Proof.
  eexists. split; [vm_compute; reflexivity|].
  refine (proj1 (orden_preparada_se_ejecuta Escenario.gestor0
                   Escenario.senal_prueba _
                   (snd (RiskManager.preparar_orden Escenario.gestor0
                           Escenario.senal_prueba))
                   Escenario.broker0 _)).
  vm_compute. reflexivity.
Defined.

(** ** The order manager *)

Section Reintentos.

Import OrderManager.

Lemma colocar_orden_exito b orden :
  ResultadoOrden.exito (fst (BrokerSimulado.colocar_orden b orden)) = true.
Proof.
  unfold BrokerSimulado.colocar_orden.
  destruct (String.eqb (Orden.tipo_orden orden) "market"); reflexivity.
Qed.

(** X24.  [_colocar_orden_con_reintentos] over the simulated broker, with
    the three attempts of [__init__]: an order below the minimum volume
    fails at the constructor in each attempt, so the broker is never
    reached, 2 + 4 seconds are slept and the result is the failure that
    quotes the last exception; any other order goes to the broker exactly
    once, in the first attempt, with no sleep, and the broker's result is
    returned. *)
Theorem reintentos_una_vez self orden_dict :
  max_reintentos self = 3%nat ->
  let r := _colocar_orden_con_reintentos self orden_dict in
  (Orden.volumen orden_dict < 0.01 ->
   fst r = fallo (IntentosFallaron
                    (Some (DeExcepcion (ValueError (Orden.volumen orden_dict))))) /\
   broker (snd r) = broker self /\
   dormido (snd r) = (dormido self + 6)%nat) /\
  (0.01 <= Orden.volumen orden_dict ->
   fst r = del_broker
             (fst (BrokerSimulado.colocar_orden (broker self) orden_dict)) /\
   snd r = con_broker
             (snd (BrokerSimulado.colocar_orden (broker self) orden_dict)) self /\
   exito (fst r) = true).
Proof.
  intros Hmax r. subst r. unfold _colocar_orden_con_reintentos.
  destruct self as [b ts be rec blo tmin maxo maxr lec dor].
  cbn [max_reintentos] in Hmax. subst maxr.
  cbn [max_reintentos seq broker dormido]. split.
  - intros Hv. apply Qlt_bool_iff in Hv.
    assert (E0 : Orden.__init__ orden_dict
                 = inl (ValueError (Orden.volumen orden_dict))).
    { unfold Orden.__init__, Orden.__post_init__. now rewrite Hv. }
    cbn [reintentar]. rewrite E0.
    cbn [max_reintentos dormir Nat.sub Nat.ltb Nat.leb Nat.add Nat.mul
         broker trailing_stop break_even ordenes_recientes bloqueos_simbolo
         tiempo_minimo_entre_ordenes max_ordenes_por_simbolo lecturas dormido
         fst snd].
    split; [reflexivity|]. split; [reflexivity|]. lia.
  - intros Hv.
    assert (E0 : Orden.__init__ orden_dict = inr orden_dict).
    { unfold Orden.__init__, Orden.__post_init__.
      destruct (Qlt_bool (Orden.volumen orden_dict) 0.01) eqn:E; [|reflexivity].
      apply Qlt_bool_iff in E. lra. }
    cbn [reintentar]. rewrite E0. cbn [broker].
    pose proof (colocar_orden_exito b orden_dict) as Hex.
    destruct (BrokerSimulado.colocar_orden b orden_dict) as [resultado b'].
    cbn [fst snd] in Hex |- *. rewrite Hex. cbn [fst snd].
    split; [reflexivity|]. split; [reflexivity|]. exact Hex.
Qed.

End Reintentos.

Section Stops.

Import OrderManager.

Lemma con_broker_mismo self : con_broker (broker self) self = self.
Proof. destruct self; reflexivity. Qed.

Lemma escribir_mismo b ref p :
  BrokerSimulado.objetos b !! ref = Some p -> BrokerSimulado.escribir ref p b = b.
Proof.
  intros H. unfold BrokerSimulado.escribir. rewrite (insert_id _ _ _ H).
  destruct b; reflexivity.
Qed.

Lemma escribir_dos b ref p q :
  BrokerSimulado.escribir ref q (BrokerSimulado.escribir ref p b)
  = BrokerSimulado.escribir ref q b.
Proof.
  unfold BrokerSimulado.escribir.
  cbn [BrokerSimulado.objetos BrokerSimulado.posiciones
       BrokerSimulado.ordenes_pendientes BrokerSimulado.historial
       BrokerSimulado.balance BrokerSimulado.equity
       BrokerSimulado.comision_por_lote BrokerSimulado.spread].
  now rewrite insert_insert_eq.
Qed.

(** The dict [p] with another stop loss. *)
Lemma con_stop_loss_dos p a b :
  BrokerSimulado.cambiar_posicion
    (BrokerSimulado.cambiar_posicion p (BrokerSimulado.CStopLoss a))
    (BrokerSimulado.CStopLoss b)
  = BrokerSimulado.cambiar_posicion p (BrokerSimulado.CStopLoss b).
Proof. destruct p; reflexivity. Qed.

Lemma con_stop_loss_mismo p :
  BrokerSimulado.cambiar_posicion p
    (BrokerSimulado.CStopLoss (Posicion.stop_loss p)) = p.
Proof. destruct p; reflexivity. Qed.

(** [modificar_orden] with a new stop loss, when the dict in hand is the
    first of the open list with its ticket. *)
Lemma modificar_stop_loss b ref p pre post nuevo :
  BrokerSimulado.posiciones b = pre ++ ref :: post ->
  BrokerSimulado.sin_ticket (BrokerSimulado.objetos b) (Posicion.ticket p) pre ->
  BrokerSimulado.objetos b !! ref = Some p ->
  snd (BrokerSimulado.modificar_orden b (Posicion.ticket p)
         [BrokerSimulado.CStopLoss nuevo])
  = BrokerSimulado.escribir ref
      (BrokerSimulado.cambiar_posicion p (BrokerSimulado.CStopLoss nuevo)) b.
Proof.
  intros Hpos Hpre Href. unfold BrokerSimulado.modificar_orden.
  rewrite Hpos, (buscar_posicion_primero _ _ _ _ _ _ Hpre Href eq_refl).
  reflexivity.
Qed.

(** How a stop loss may move: up for a BUY, down for a SELL, not at all
    for a dict of another kind or without a stop loss. *)
Lemma ajuste_transitivo (tipo : string) (a b c : option Q) :
  match a, b with
  | Some s, Some s' =>
      (tipo = "COMPRA" -> s <= s') /\ (tipo = "VENTA" -> s' <= s) /\
      (tipo <> "COMPRA" -> tipo <> "VENTA" -> s' = s)
  | None, None => True
  | _, _ => False
  end ->
  match b, c with
  | Some s, Some s' =>
      (tipo = "COMPRA" -> s <= s') /\ (tipo = "VENTA" -> s' <= s) /\
      (tipo <> "COMPRA" -> tipo <> "VENTA" -> s' = s)
  | None, None => True
  | _, _ => False
  end ->
  match a, c with
  | Some s, Some s' =>
      (tipo = "COMPRA" -> s <= s') /\ (tipo = "VENTA" -> s' <= s) /\
      (tipo <> "COMPRA" -> tipo <> "VENTA" -> s' = s)
  | None, None => True
  | _, _ => False
  end.
Proof.
  destruct a as [x|], b as [y|], c as [z|]; try tauto.
  intros (H1 & H2 & H3) (H4 & H5 & H6). repeat split.
  - intros Ht. specialize (H1 Ht). specialize (H4 Ht). lra.
  - intros Ht. specialize (H2 Ht). specialize (H5 Ht). lra.
  - intros Hc Hv. rewrite (H6 Hc Hv). exact (H3 Hc Hv).
Qed.

(** One of the two adjustments on the dict [p] at [ref]: the manager comes
    out with the same dict but for its stop loss, moved as
    [ajuste_transitivo] says. *)
Lemma trailing_stop_paso self ref p pre post :
  BrokerSimulado.posiciones (broker self) = pre ++ ref :: post ->
  BrokerSimulado.sin_ticket (BrokerSimulado.objetos (broker self))
    (Posicion.ticket p) pre ->
  BrokerSimulado.objetos (broker self) !! ref = Some p ->
  exists sl,
    _aplicar_trailing_stop self ref
    = con_broker
        (BrokerSimulado.escribir ref
           (BrokerSimulado.cambiar_posicion p (BrokerSimulado.CStopLoss sl))
           (broker self)) self /\
    match Posicion.stop_loss p, sl with
    | Some s, Some s' =>
        (Posicion.tipo p = "COMPRA" -> s <= s') /\
        (Posicion.tipo p = "VENTA" -> s' <= s) /\
        (Posicion.tipo p <> "COMPRA" -> Posicion.tipo p <> "VENTA" -> s' = s)
    | None, None => True
    | _, _ => False
    end.
Proof.
  intros Hpos Hpre Href.
  assert (Hnada : exists sl,
            self = con_broker
                     (BrokerSimulado.escribir ref
                        (BrokerSimulado.cambiar_posicion p
                           (BrokerSimulado.CStopLoss sl)) (broker self)) self /\
            match Posicion.stop_loss p, sl with
            | Some s, Some s' =>
                (Posicion.tipo p = "COMPRA" -> s <= s') /\
                (Posicion.tipo p = "VENTA" -> s' <= s) /\
                (Posicion.tipo p <> "COMPRA" -> Posicion.tipo p <> "VENTA" -> s' = s)
            | None, None => True
            | _, _ => False
            end).
  { exists (Posicion.stop_loss p). split.
    - rewrite con_stop_loss_mismo, (escribir_mismo _ _ _ Href).
      now rewrite con_broker_mismo.
    - destruct (Posicion.stop_loss p); [|exact I].
      repeat split; intros; (apply Qle_refl || reflexivity). }
  unfold _aplicar_trailing_stop.
  destruct (negb (TrailingStop.habilitado (trailing_stop self))); [exact Hnada|].
  unfold BrokerSimulado.leer. rewrite Href. cbv zeta.
  destruct (Posicion.stop_loss p) as [s|] eqn:Es; [|exact Hnada].
  destruct (String.eqb (Posicion.tipo p) "COMPRA") eqn:Ec.
  - apply String.eqb_eq in Ec.
    destruct (Qle_bool _ _); [|exact Hnada].
    destruct (Qlt_bool s _) eqn:El; [|exact Hnada].
    apply Qlt_bool_iff in El.
    eexists (Some _). split.
    + rewrite (modificar_stop_loss _ _ _ _ _ _ Hpos Hpre Href). reflexivity.
    + repeat split; intros; try lra; congruence.
  - apply String.eqb_neq in Ec.
    destruct (String.eqb (Posicion.tipo p) "VENTA") eqn:Ev; [|exact Hnada].
    apply String.eqb_eq in Ev.
    destruct (Qle_bool _ _); [|exact Hnada].
    destruct (Qlt_bool _ s) eqn:El; [|exact Hnada].
    apply Qlt_bool_iff in El.
    eexists (Some _). split.
    + rewrite (modificar_stop_loss _ _ _ _ _ _ Hpos Hpre Href). reflexivity.
    + repeat split; intros; try lra; congruence.
Qed.

Lemma break_even_paso self ref p pre post :
  BrokerSimulado.posiciones (broker self) = pre ++ ref :: post ->
  BrokerSimulado.sin_ticket (BrokerSimulado.objetos (broker self))
    (Posicion.ticket p) pre ->
  BrokerSimulado.objetos (broker self) !! ref = Some p ->
  exists sl,
    _aplicar_break_even self ref
    = con_broker
        (BrokerSimulado.escribir ref
           (BrokerSimulado.cambiar_posicion p (BrokerSimulado.CStopLoss sl))
           (broker self)) self /\
    match Posicion.stop_loss p, sl with
    | Some s, Some s' =>
        (Posicion.tipo p = "COMPRA" -> s <= s') /\
        (Posicion.tipo p = "VENTA" -> s' <= s) /\
        (Posicion.tipo p <> "COMPRA" -> Posicion.tipo p <> "VENTA" -> s' = s)
    | None, None => True
    | _, _ => False
    end.
Proof.
  intros Hpos Hpre Href.
  assert (Hnada : exists sl,
            self = con_broker
                     (BrokerSimulado.escribir ref
                        (BrokerSimulado.cambiar_posicion p
                           (BrokerSimulado.CStopLoss sl)) (broker self)) self /\
            match Posicion.stop_loss p, sl with
            | Some s, Some s' =>
                (Posicion.tipo p = "COMPRA" -> s <= s') /\
                (Posicion.tipo p = "VENTA" -> s' <= s) /\
                (Posicion.tipo p <> "COMPRA" -> Posicion.tipo p <> "VENTA" -> s' = s)
            | None, None => True
            | _, _ => False
            end).
  { exists (Posicion.stop_loss p). split.
    - rewrite con_stop_loss_mismo, (escribir_mismo _ _ _ Href).
      now rewrite con_broker_mismo.
    - destruct (Posicion.stop_loss p); [|exact I].
      repeat split; intros; (apply Qle_refl || reflexivity). }
  unfold _aplicar_break_even.
  destruct (negb (BreakEven.habilitado (break_even self))); [exact Hnada|].
  unfold BrokerSimulado.leer. rewrite Href. cbv zeta.
  destruct (Posicion.stop_loss p) as [s|] eqn:Es; [|exact Hnada].
  destruct (String.eqb (Posicion.tipo p) "COMPRA") eqn:Ec.
  - apply String.eqb_eq in Ec.
    destruct (Qle_bool _ _); [|exact Hnada].
    destruct (Qlt_bool s _) eqn:El; [|exact Hnada].
    apply Qlt_bool_iff in El.
    eexists (Some _). split.
    + rewrite (modificar_stop_loss _ _ _ _ _ _ Hpos Hpre Href). reflexivity.
    + repeat split; intros; try lra; congruence.
  - apply String.eqb_neq in Ec.
    destruct (String.eqb (Posicion.tipo p) "VENTA") eqn:Ev; [|exact Hnada].
    apply String.eqb_eq in Ev.
    destruct (Qle_bool _ _); [|exact Hnada].
    destruct (Qlt_bool _ s) eqn:El; [|exact Hnada].
    apply Qlt_bool_iff in El.
    eexists (Some _). split.
    + rewrite (modificar_stop_loss _ _ _ _ _ _ Hpos Hpre Href). reflexivity.
    + repeat split; intros; try lra; congruence.
Qed.

(** X25.  The trailing stop and the break even of the loop body of
    [gestionar_ordenes_abiertas] on a position, when its dict is the
    first of the open list with its ticket: the broker comes out as it
    was but for the stop loss of that dict, which is never loosened (it
    only rises for ['COMPRA'] and only falls for ['VENTA']), is never set
    on a position that had none, and stays put for any other [tipo]; the
    take profit, the prices, the other dicts, the lists and the balance
    are untouched. *)
Theorem stop_solo_se_ajusta self ref p pre post :
  BrokerSimulado.posiciones (broker self) = pre ++ ref :: post ->
  BrokerSimulado.sin_ticket (BrokerSimulado.objetos (broker self))
    (Posicion.ticket p) pre ->
  BrokerSimulado.objetos (broker self) !! ref = Some p ->
  exists sl,
    gestionar_una self ref
    = con_broker
        (BrokerSimulado.escribir ref
           (BrokerSimulado.cambiar_posicion p (BrokerSimulado.CStopLoss sl))
           (broker self)) self /\
    match Posicion.stop_loss p, sl with
    | Some s, Some s' =>
        (Posicion.tipo p = "COMPRA" -> s <= s') /\
        (Posicion.tipo p = "VENTA" -> s' <= s) /\
        (Posicion.tipo p <> "COMPRA" -> Posicion.tipo p <> "VENTA" -> s' = s)
    | None, None => True
    | _, _ => False
    end.
Proof.
  intros Hpos Hpre Href. unfold gestionar_una.
  destruct (trailing_stop_paso self ref p pre post Hpos Hpre Href)
    as (sl1 & E1 & H1).
  rewrite E1.
  set (p1 := BrokerSimulado.cambiar_posicion p (BrokerSimulado.CStopLoss sl1)) in *.
  set (self1 := con_broker (BrokerSimulado.escribir ref p1 (broker self)) self).
  assert (Hno : ref ∉ pre).
  { intros Hin. exact (Hpre ref p Hin Href eq_refl). }
  assert (Ht1 : Posicion.ticket p1 = Posicion.ticket p)
    by (subst p1; destruct p; reflexivity).
  assert (Htipo : Posicion.tipo p1 = Posicion.tipo p)
    by (subst p1; destruct p; reflexivity).
  assert (Hsl1 : Posicion.stop_loss p1 = sl1)
    by (subst p1; destruct p; reflexivity).
  assert (Hpos1 : BrokerSimulado.posiciones (broker self1) = pre ++ ref :: post)
    by exact Hpos.
  assert (Href1 : BrokerSimulado.objetos (broker self1) !! ref = Some p1).
  { cbn. apply lookup_insert_eq. }
  assert (Hpre1 : BrokerSimulado.sin_ticket
                    (BrokerSimulado.objetos (broker self1))
                    (Posicion.ticket p1) pre).
  { intros r q Hr Hq. rewrite Ht1. cbn in Hq.
    rewrite lookup_insert_ne in Hq by (intros ->; contradiction).
    exact (Hpre r q Hr Hq). }
  destruct (break_even_paso self1 ref p1 pre post Hpos1 Hpre1 Href1)
    as (sl2 & E2 & H2).
  exists sl2. split.
  - rewrite E2. subst self1 p1. cbn [broker con_broker trailing_stop break_even
      ordenes_recientes bloqueos_simbolo tiempo_minimo_entre_ordenes
      max_ordenes_por_simbolo max_reintentos lecturas dormido].
    now rewrite escribir_dos, con_stop_loss_dos.
  - rewrite Hsl1, Htipo in H2.
    exact (ajuste_transitivo (Posicion.tipo p) _ _ _ H1 H2).
Qed.

End Stops.

(** X24 on an order of 0.001 lot sent through the manager of the new
    broker. *)
Lemma reintentos_una_vez_volumen_bajo :
  OrderManager.broker
    (snd (OrderManager._colocar_orden_con_reintentos Escenario.gestor_ordenes0
            (Orden.mk "EURUSD" "COMPRA" 0.001 (Some 1.10000) None None
               EmptyString 234000 10 "market")))
  = Escenario.broker0 /\
  OrderManager.dormido
    (snd (OrderManager._colocar_orden_con_reintentos Escenario.gestor_ordenes0
            (Orden.mk "EURUSD" "COMPRA" 0.001 (Some 1.10000) None None
               EmptyString 234000 10 "market")))
  = 6%nat.
Proof.
  destruct (reintentos_una_vez Escenario.gestor_ordenes0
              (Orden.mk "EURUSD" "COMPRA" 0.001 (Some 1.10000) None None
                 EmptyString 234000 10 "market") eq_refl) as [H _].
  destruct (H ltac:(reflexivity)) as (_ & Hb & Hd).
  split; [exact Hb | exact Hd].
Defined.

(** X25 on the first position of the broker with two positions with
    levels, 49 pips in profit. *)
Lemma stop_solo_se_ajusta_a_10500 :
  exists p sl,
    BrokerSimulado.leer (OrderManager.broker Escenario.gestor_ordenes_a_10500)
      0 = Some p /\
    OrderManager.gestionar_una Escenario.gestor_ordenes_a_10500 0
    = OrderManager.con_broker
        (BrokerSimulado.escribir 0
           (BrokerSimulado.cambiar_posicion p (BrokerSimulado.CStopLoss sl))
           (OrderManager.broker Escenario.gestor_ordenes_a_10500))
        Escenario.gestor_ordenes_a_10500 /\
    match Posicion.stop_loss p, sl with
    | Some s, Some s' =>
        (Posicion.tipo p = "COMPRA" -> s <= s') /\
        (Posicion.tipo p = "VENTA" -> s' <= s) /\
        (Posicion.tipo p <> "COMPRA" -> Posicion.tipo p <> "VENTA" -> s' = s)
    | None, None => True
    | _, _ => False
    end.
Proof.
  destruct (BrokerSimulado.leer
              (OrderManager.broker Escenario.gestor_ordenes_a_10500) 0)
    as [p|] eqn:Ep; [|vm_compute in Ep; discriminate Ep].
  assert (Hpos : BrokerSimulado.posiciones
                   (OrderManager.broker Escenario.gestor_ordenes_a_10500)
                 = [] ++ 0%nat :: [1%nat]) by (vm_compute; reflexivity).
  assert (Hpre : BrokerSimulado.sin_ticket
                   (BrokerSimulado.objetos
                      (OrderManager.broker Escenario.gestor_ordenes_a_10500))
                   (Posicion.ticket p) []).
  { intros r q Hr. apply elem_of_nil in Hr. destruct Hr. }
  destruct (stop_solo_se_ajusta Escenario.gestor_ordenes_a_10500 0%nat p []
              [1%nat] Hpos Hpre Ep) as (sl & E & H).
  exists p, sl. split; [reflexivity|]. split; [exact E | exact H].
Defined.

(** ** The protections of the order manager *)

Section Proteccion.

Import OrderManager.

Variable reloj : nat -> Q.
Variable contiene_error : MensajeGestor -> bool.

(** What the attempts leave of the manager: the broker is the one before,
    or the one after a single [colocar_orden]; the result is a failed
    result of the manager's own or the broker's result. *)
Lemma reintentar_campos orden_dict intentos : forall ultimo_error self,
  let r := reintentar orden_dict intentos ultimo_error self in
  bloqueos_simbolo (snd r) = bloqueos_simbolo self /\
  max_ordenes_por_simbolo (snd r) = max_ordenes_por_simbolo self /\
  (broker (snd r) = broker self \/
   broker (snd r)
   = snd (BrokerSimulado.colocar_orden (broker self) orden_dict)) /\
  ((exists ue, fst r = fallo (IntentosFallaron ue)) \/
   (exists res, fst r = del_broker res)).
Proof.
  induction intentos as [|intento resto IH]; intros ue self; cbn [reintentar].
  - repeat split; eauto.
  - unfold Orden.__init__, Orden.__post_init__.
    destruct (Qlt_bool (Orden.volumen orden_dict) 0.01) eqn:Ev.
    + fold (Orden.__post_init__ orden_dict). fold (Orden.__init__ orden_dict).
      specialize (IH (Some (DeExcepcion (ValueError (Orden.volumen orden_dict))))
                    (if (intento <? max_reintentos self - 1)%nat
                     then dormir ((intento + 1) * 2) self else self)).
      cbv zeta in IH.
      replace (bloqueos_simbolo
                 (if (intento <? max_reintentos self - 1)%nat
                  then dormir ((intento + 1) * 2) self else self))
        with (bloqueos_simbolo self) in IH
        by (destruct (intento <? max_reintentos self - 1)%nat; reflexivity).
      replace (max_ordenes_por_simbolo
                 (if (intento <? max_reintentos self - 1)%nat
                  then dormir ((intento + 1) * 2) self else self))
        with (max_ordenes_por_simbolo self) in IH
        by (destruct (intento <? max_reintentos self - 1)%nat; reflexivity).
      replace (broker
                 (if (intento <? max_reintentos self - 1)%nat
                  then dormir ((intento + 1) * 2) self else self))
        with (broker self) in IH
        by (destruct (intento <? max_reintentos self - 1)%nat; reflexivity).
      exact IH.
    + pose proof (colocar_orden_exito (broker self) orden_dict) as Hex.
      destruct (BrokerSimulado.colocar_orden (broker self) orden_dict)
        as [resultado b].
      cbn [fst snd] in Hex |- *. rewrite Hex. cbn [fst snd].
      repeat split; eauto.
Qed.

Lemma registrar_campos self simbolo tipo precio :
  let s' := _registrar_orden_reciente reloj self simbolo tipo precio in
  bloqueos_simbolo s' = bloqueos_simbolo self /\
  max_ordenes_por_simbolo s' = max_ordenes_por_simbolo self /\
  broker s' = broker self.
Proof. repeat split. Qed.

(** One call of [colocar_orden_con_proteccion] on a manager that holds no
    block: the broker comes out as it was, or with the equity set by
    [obtener_posiciones_abiertas], or, when no position was open, with the
    order placed after that. *)
Lemma proteccion_paso self od :
  bloqueos_simbolo self = ∅ ->
  let r := colocar_orden_con_proteccion reloj contiene_error self od in
  let b1 := snd (BrokerSimulado.obtener_posiciones_abiertas (broker self)) in
  bloqueos_simbolo (snd r) = ∅ /\
  max_ordenes_por_simbolo (snd r) = max_ordenes_por_simbolo self /\
  (forall s, mensaje (fst r) <> SimboloBloqueado s) /\
  (broker (snd r) = broker self \/ broker (snd r) = b1 \/
   (BrokerSimulado.posiciones (broker self) = [] /\
    broker (snd r) = snd (BrokerSimulado.colocar_orden b1 od))) /\
  (BrokerSimulado.posiciones (broker self) <> [] ->
   exito (fst r) = false /\ broker (snd r) = broker self).
Proof.
  intros Hb r b1. subst r.
  unfold colocar_orden_con_proteccion. cbv zeta.
  unfold _simbolo_bloqueado. rewrite Hb, lookup_empty.
  assert (Hcola : forall s1 : t,
            bloqueos_simbolo s1 = ∅ ->
            max_ordenes_por_simbolo s1 = max_ordenes_por_simbolo self ->
            broker s1 = broker self ->
            let r :=
              match _puede_colocar_orden s1 (Orden.simbolo od) with
              | (inl _, self3) => (fallo ErrorGestion, self3)
              | (inr puede, self3) =>
                  if negb puede
                  then (fallo (LimiteAlcanzado (Orden.simbolo od)), self3)
                  else
                    let '(resultado, self4) :=
                      _colocar_orden_con_reintentos self3 od in
                    if exito resultado
                    then
                      (resultado,
                       if negb (exito resultado)
                          && contiene_error (mensaje resultado)
                       then _bloquear_simbolo reloj
                              (_registrar_orden_reciente reloj self4
                                 (Orden.simbolo od) (Orden.tipo od)
                                 (precio resultado))
                              (Orden.simbolo od) 60
                       else _registrar_orden_reciente reloj self4
                              (Orden.simbolo od) (Orden.tipo od)
                              (precio resultado))
                    else (resultado, self4)
              end in
            bloqueos_simbolo (snd r) = ∅ /\
            max_ordenes_por_simbolo (snd r) = max_ordenes_por_simbolo self /\
            (forall s, mensaje (fst r) <> SimboloBloqueado s) /\
            (broker (snd r) = broker self \/ broker (snd r) = b1 \/
             (BrokerSimulado.posiciones (broker self) = [] /\
              broker (snd r) = snd (BrokerSimulado.colocar_orden b1 od))) /\
            (BrokerSimulado.posiciones (broker self) <> [] ->
             exito (fst r) = false /\ broker (snd r) = broker self)).
  { intros s1 Hb1 Hm1 Hbr1. unfold _puede_colocar_orden.
    rewrite Hbr1. subst b1.
    unfold BrokerSimulado.obtener_posiciones_abiertas.
    destruct (BrokerSimulado.posiciones (broker self)) as [|ref refs] eqn:Ep;
      cbv zeta; cbn [snd].
    - set (b1 := BrokerSimulado.mk _ _ _ _ _ _ _ _).
      cbn [omap list_omap List.filter length].
      destruct (Nat.ltb_spec 0 (max_ordenes_por_simbolo s1)) as [Hlt|Hge];
        cbn [negb].
      + unfold _colocar_orden_con_reintentos.
        destruct (reintentar_campos od
                    (seq 0 (max_reintentos (con_broker b1 s1))) None
                    (con_broker b1 s1)) as (R1 & R2 & R3 & R4).
        destruct (reintentar od (seq 0 (max_reintentos (con_broker b1 s1))) None
                    (con_broker b1 s1)) as [resultado self4].
        cbn [fst snd broker con_broker bloqueos_simbolo max_ordenes_por_simbolo]
          in R1, R2, R3, R4.
        assert (Hmsg : forall s, mensaje resultado <> SimboloBloqueado s).
        { intros s. destruct R4 as [[ue ->] | [res ->]]; discriminate. }
        destruct (exito resultado) eqn:Ex; cbn [negb andb fst snd].
        * destruct (registrar_campos self4 (Orden.simbolo od) (Orden.tipo od)
                      (precio resultado)) as (G1 & G2 & G3).
          cbv zeta in G1, G2, G3. rewrite G1, G2, G3, R1, R2.
          split; [exact Hb1|]. split; [exact Hm1|]. split; [exact Hmsg|].
          split; [|intros Habs; contradiction].
          destruct R3 as [-> | ->]; [right; now left | right; right; now split].
        * rewrite R1, R2.
          split; [exact Hb1|]. split; [exact Hm1|]. split; [exact Hmsg|].
          split; [|intros Habs; contradiction].
          destruct R3 as [-> | ->]; [right; now left | right; right; now split].
      + cbn [fst snd broker con_broker bloqueos_simbolo max_ordenes_por_simbolo
             mensaje fallo].
        split; [exact Hb1|]. split; [exact Hm1|]. split; [discriminate|].
        split; [right; now left | intros Habs; contradiction].
    - cbn [fst snd broker con_broker bloqueos_simbolo max_ordenes_por_simbolo
           mensaje fallo exito].
      split; [exact Hb1|]. split; [exact Hm1|]. split; [discriminate|].
      split; [now left | intros _; now split]. }
  unfold _es_orden_duplicada.
  destruct (ordenes_recientes self !! Orden.simbolo od) as [ordenes|].
  - cbn [ahora].
    destruct (duplicada_entre _ _ _ _ _) as [[|]|].
    + cbn [fst snd broker bloqueos_simbolo max_ordenes_por_simbolo mensaje
           fallo exito].
      split; [exact Hb|]. split; [reflexivity|]. split; [discriminate|].
      split; [now left | intros _; now split].
    + apply Hcola; [exact Hb | reflexivity | reflexivity].
    + cbn [fst snd broker bloqueos_simbolo max_ordenes_por_simbolo mensaje
           fallo exito].
      split; [exact Hb|]. split; [reflexivity|]. split; [discriminate|].
      split; [now left | intros _; now split].
  - apply Hcola; [exact Hb | reflexivity | reflexivity].
Qed.





Lemma colocar_varias_sin_bloqueos llamadas : forall self,
  bloqueos_simbolo self = ∅ ->
  let r := colocar_varias reloj contiene_error self llamadas in
  bloqueos_simbolo (snd r) = ∅ /\
  Forall (fun res => forall s, mensaje res <> SimboloBloqueado s) (fst r).
Proof.
  induction llamadas as [|od resto IH]; intros self Hb;
    cbn [colocar_varias].
  - cbn. split; [exact Hb | constructor].
  - destruct (proteccion_paso self od Hb) as (P1 & _ & P3 & _).
    destruct (colocar_orden_con_proteccion reloj contiene_error self od)
      as [res self1].
    cbn [fst snd] in P1, P3.
    destruct (IH self1 P1) as (J1 & J2).
    destruct (colocar_varias reloj contiene_error self1 resto) as [rs self2].
    cbn [fst snd] in J1, J2 |- *.
    split; [exact J1|]. constructor; assumption.
Qed.

(** X26.  No symbol is ever blocked: the call of [_bloquear_simbolo] sits
    under [if resultado.exito] and asks for [not resultado.exito], so after
    any run of [colocar_orden_con_proteccion] on a new manager the table
    of blocks is empty and no result is the "temporarily blocked" one,
    whatever the broker, the orders, the clock and the message test. *)
Theorem ningun_simbolo_bloqueado b ts be llamadas :
  bloqueos_simbolo
    (snd (colocar_varias reloj contiene_error (__init__ b ts be) llamadas)) = ∅ /\
  Forall (fun res => forall s, mensaje res <> SimboloBloqueado s)
    (fst (colocar_varias reloj contiene_error (__init__ b ts be) llamadas)).
Proof.
  exact (colocar_varias_sin_bloqueos llamadas (__init__ b ts be) eq_refl).
Qed.


End Proteccion.

